(** * Axe Manager: record store, instrument directory and reconciliation layer

    A shallow embedding of the TypeScript sources

      - [src/types/index.ts]                 (data model)
      - [src/services/mockAxeService.ts]     (the record store)
      - [src/hooks/useBondInstruments.ts]    (the instrument directory)
      - [src/hooks/useBondAxes.ts]           (the subscription bridge)
      - [src/components/v4/AxeManagerV4.tsx] (staged-save view)
      - [src/components/v6/AxeManagerV6.tsx] (pinned-create view)

    Conventions of the embedding.

      - A JavaScript [string] is a Rocq [string]; a [number] holding a
        quantity is an integer [Z] (quantities are only compared and copied).
      - An optional field ([side?: AxeSide]) is an [option]; [None] stands for
        both [undefined] and [null], which the [??] operator of the sources
        treats alike.
      - [Map<string, Axe>] is an association list in insertion order
        ([JsMap]), because [Array.from(map.values())] exposes that order; the
        [PendingEdits] object is a [gmap], and the order of its keys, which
        only [Object.keys(pendingEdits)] of Save All reads, is handed to that
        handler.
      - [uuidv4()] and [new Date().toISOString()] are read from the
        environment: their results are arguments ([fresh], [now]).  A handler
        reads the clock at the click, the store when the command runs, after
        its delay: the two readings are different arguments.
      - An [async] method of the store takes effect in one turn of the event
        loop once its delay has elapsed; it is a state transformer that also
        yields the listener calls it made.  A view handler is a function of
        the state it was rendered from and returns the state updaters it
        enqueued and the commands it issued, each with its [then] and [catch]
        continuations.
      - The store mutates a record in place on a status change, and the
        arrays it hands out share the records; the arrays are modelled by
        value, which is what a listener reads at the time it is called.
      - The grid widget is not part of the sources: a handler is modelled on
        the event and the state it is given. *)

From stdpp Require Import base option list strings gmap fin_maps.
From Stdlib Require Import ZArith Ascii.
From Stdlib Require DecimalString DecimalNat.

(** ** Data model ([src/types/index.ts]) *)

Inductive AxeStatus := ACTIVE | PAUSED | BLOCKED.
Inductive AxeSide := Bid | Offer.

#[global] Instance AxeStatus_eq_dec : EqDecision AxeStatus.
Proof. solve_decision. Defined.
#[global] Instance AxeSide_eq_dec : EqDecision AxeSide.
Proof. solve_decision. Defined.

Module BondInstrument.
Record t := mk {
  isin : string;
  description : string;
  maturity : string;
  issuer : string;
}.
End BondInstrument.

Module Axe.
Record t := mk {
  id : string;
  isin : string;
  description : string;
  maturity : string;
  issuer : string;
  side : AxeSide;
  quantity : Z;
  status : AxeStatus;
  lastUpdate : string;
}.

#[global] Instance eq_dec : EqDecision t.
Proof. solve_decision. Defined.
End Axe.

Module CreateOrUpdateAxeRequest.
Record t := mk {
  id : option string;
  isin : string;
  side : AxeSide;
  quantity : Z;
}.
End CreateOrUpdateAxeRequest.

(** [{ ...a, side, quantity }] *)
Definition withSideQuantity (a : Axe.t) (s : AxeSide) (q : Z) : Axe.t := {|
  Axe.id := Axe.id a;
  Axe.isin := Axe.isin a;
  Axe.description := Axe.description a;
  Axe.maturity := Axe.maturity a;
  Axe.issuer := Axe.issuer a;
  Axe.side := s;
  Axe.quantity := q;
  Axe.status := Axe.status a;
  Axe.lastUpdate := Axe.lastUpdate a;
|}.

(** [{ ...a, side, quantity, lastUpdate }] *)
Definition withSideQuantityAt (a : Axe.t) (s : AxeSide) (q : Z) (now : string) : Axe.t := {|
  Axe.id := Axe.id a;
  Axe.isin := Axe.isin a;
  Axe.description := Axe.description a;
  Axe.maturity := Axe.maturity a;
  Axe.issuer := Axe.issuer a;
  Axe.side := s;
  Axe.quantity := q;
  Axe.status := Axe.status a;
  Axe.lastUpdate := now;
|}.

(** [{ ...a, status, lastUpdate }] *)
Definition withStatusAt (a : Axe.t) (st : AxeStatus) (now : string) : Axe.t := {|
  Axe.id := Axe.id a;
  Axe.isin := Axe.isin a;
  Axe.description := Axe.description a;
  Axe.maturity := Axe.maturity a;
  Axe.issuer := Axe.issuer a;
  Axe.side := Axe.side a;
  Axe.quantity := Axe.quantity a;
  Axe.status := st;
  Axe.lastUpdate := now;
|}.

(** ** [Map<string, V>]: keys in insertion order *)

Module JsMap.
Section WithValue.
Context {V : Type}.

Definition t := list (string * V).

Definition empty : t := [].

Fixpoint get (k : string) (m : t) : option V :=
  match m with
  | [] => None
  | (k', v) :: m' => if decide (k = k') then Some v else get k m'
  end.

Definition has (k : string) (m : t) : bool :=
  match get k m with Some _ => true | None => false end.

(** [map.set(k, v)]: an existing key keeps its position, a new key is
    appended. *)
Fixpoint set (k : string) (v : V) (m : t) : t :=
  match m with
  | [] => [(k, v)]
  | (k', v') :: m' =>
      if decide (k = k') then (k, v) :: m' else (k', v') :: set k v m'
  end.

Fixpoint delete (k : string) (m : t) : t :=
  match m with
  | [] => []
  | (k', v') :: m' =>
      if decide (k = k') then m' else (k', v') :: delete k m'
  end.

Definition keys (m : t) : list string := m.*1.
Definition values (m : t) : list V := m.*2.

End WithValue.

Arguments t : clear implicits.
End JsMap.

(** ** The record store ([src/services/mockAxeService.ts]) *)

(** A listener is a callback; the store only compares listeners by identity
    ([Set<AxeListener>]) and calls them, so a listener is its identity. *)
Definition AxeListener := nat.

(** One call [listener(axes)]. *)
Definition Delivery : Type := AxeListener * list Axe.t.

(** [Set<AxeListener>]: members in insertion order, no duplicates. *)
Module JsSet.
Definition t := list AxeListener.
Definition empty : t := [].
Definition add (l : AxeListener) (s : t) : t :=
  if decide (l ∈ s) then s else s ++ [l].
Definition delete (l : AxeListener) (s : t) : t :=
  filter (λ l', l' ≠ l) s.

End JsSet.

Inductive ServiceError :=
  | InstrumentNotFound (isin : string)
  | AxeNotFound (id : string).

(** The [message] of the thrown [Error]. *)
Definition errorMessage (e : ServiceError) : string :=
  match e with
  | InstrumentNotFound isin => "Instrument not found: " +:+ isin
  | AxeNotFound id => "Axe not found: " +:+ id
  end.

Module MockAxeService.
Record t := mk {
  axes : JsMap.t Axe.t;
  listeners : JsSet.t;
}.

Definition init : t := {| axes := JsMap.empty; listeners := JsSet.empty |}.

(** What a method call leaves behind: the value it returned or the error it
    threw, the service afterwards, and the listener calls it made, in
    order. *)
Record Outcome (A : Type) := mkOutcome {
  result : ServiceError + A;
  final : t;
  emitted : list Delivery;
}.
Arguments mkOutcome {A}.
Arguments result {A}.
Arguments final {A}.
Arguments emitted {A}.

Definition M (A : Type) : Type := t → Outcome A.

Definition ret {A} (a : A) : M A := λ s, mkOutcome (inr a) s [].
Definition throw {A} (e : ServiceError) : M A := λ s, mkOutcome (inl e) s [].
Definition bind {A B} (m : M A) (k : A → M B) : M B := λ s,
  let o := m s in
  match result o with
  | inl e => mkOutcome (inl e) (final o) (emitted o)
  | inr a =>
      let o' := k a (final o) in
      mkOutcome (result o') (final o') (emitted o ++ emitted o')
  end.
Definition this : M t := λ s, mkOutcome (inr s) s [].
Definition setAxes (m : JsMap.t Axe.t) : M unit := λ s,
  mkOutcome (inr tt) {| axes := m; listeners := listeners s |} [].
Definition setListeners (ls : JsSet.t) : M unit := λ s,
  mkOutcome (inr tt) {| axes := axes s; listeners := ls |} [].
Definition call (l : AxeListener) (xs : list Axe.t) : M unit := λ s,
  mkOutcome (inr tt) s [(l, xs)].

Notation "'let*' x ':=' m 'in' k" := (bind m (λ x, k))
  (at level 10, x name, m at level 100, k at level 200, only parsing).
Notation "m '>>' k" := (bind m (λ _, k))
  (at level 90, right associativity, only parsing).

Fixpoint forEach (ls : list AxeListener) (f : AxeListener → M unit) : M unit :=
  match ls with
  | [] => ret tt
  | l :: ls' => f l >> forEach ls' f
  end.

Definition getAxesArray : M (list Axe.t) :=
  let* s := this in ret (JsMap.values (axes s)).

Definition subscribe (listener : AxeListener) : M unit :=
  let* s := this in
  setListeners (JsSet.add listener (listeners s)) >>
  let* xs := getAxesArray in
  call listener xs.

(** The function [subscribe] returns. *)
Definition unsubscribe (listener : AxeListener) : M unit :=
  let* s := this in setListeners (JsSet.delete listener (listeners s)).

Definition broadcast : M unit :=
  let* xs := getAxesArray in
  let* s := this in
  forEach (listeners s) (λ listener, call listener xs).

Section WithInstruments.
(** [mockInstruments] of [src/services/mockData.ts]. *)
Variable mockInstruments : list BondInstrument.t.

Definition findInstrument (isin : string) : option BondInstrument.t :=
  find (λ i, bool_decide (BondInstrument.isin i = isin)) mockInstruments.

(** [!!request.id]: a string is truthy unless it is empty. *)
Definition truthy (o : option string) : bool :=
  match o with
  | Some x => negb (bool_decide (x = ""))
  | None => false
  end.

Definition createOrUpdateAxe (fresh now : string)
    (request : CreateOrUpdateAxeRequest.t) : M Axe.t :=
  match findInstrument (CreateOrUpdateAxeRequest.isin request) with
  | None => throw (InstrumentNotFound (CreateOrUpdateAxeRequest.isin request))
  | Some instrument =>
      let* s := this in
      let isUpdate :=
        truthy (CreateOrUpdateAxeRequest.id request) &&
        match CreateOrUpdateAxeRequest.id request with
        | Some x => JsMap.has x (axes s)
        | None => false
        end in
      let id := default fresh (CreateOrUpdateAxeRequest.id request) in
      let existing := if isUpdate then JsMap.get id (axes s) else None in
      let axe := {|
        Axe.id := id;
        Axe.isin := BondInstrument.isin instrument;
        Axe.description := BondInstrument.description instrument;
        Axe.maturity := BondInstrument.maturity instrument;
        Axe.issuer := BondInstrument.issuer instrument;
        Axe.side := CreateOrUpdateAxeRequest.side request;
        Axe.quantity := CreateOrUpdateAxeRequest.quantity request;
        Axe.status := default ACTIVE (Axe.status <$> existing);
        Axe.lastUpdate := now;
      |} in
      setAxes (JsMap.set id axe (axes s)) >>
      broadcast >>
      ret axe
  end.
End WithInstruments.

(** [axe.status = status; axe.lastUpdate = ...] writes to the record held
    by the map, which keeps its key and its position. *)
Definition setStatus (now : string) (id : string) (status : AxeStatus) : M unit :=
  let* s := this in
  match JsMap.get id (axes s) with
  | None => throw (AxeNotFound id)
  | Some axe =>
      let axe' := withStatusAt axe status now in
      setAxes (JsMap.set id axe' (axes s)) >>
      broadcast
  end.

Definition pauseAxe (now id : string) : M unit := setStatus now id PAUSED.
Definition resumeAxe (now id : string) : M unit := setStatus now id ACTIVE.
Definition blockAxe (now id : string) : M unit := setStatus now id BLOCKED.
Definition unblockAxe (now id : string) : M unit := setStatus now id ACTIVE.

Definition deleteAxe (id : string) : M unit :=
  let* s := this in
  if JsMap.has id (axes s) then
    setAxes (JsMap.delete id (axes s)) >>
    broadcast
  else throw (AxeNotFound id).
End MockAxeService.

(** ** The instrument directory ([src/hooks/useBondInstruments.ts]) *)

Module useBondInstruments.

(** [s.startsWith(p)] *)
Fixpoint startsWith (s p : string) : bool :=
  match p, s with
  | EmptyString, _ => true
  | String _ _, EmptyString => false
  | String c p', String d s' => bool_decide (c = d) && startsWith s' p'
  end.

(** [s.includes(sub)] *)
Fixpoint includes (s sub : string) : bool :=
  startsWith s sub ||
  match s with
  | EmptyString => false
  | String _ s' => includes s' sub
  end.

Section WithEngine.
(** [String.prototype.toLowerCase] is the engine's; the hook is modelled for
    any such function. *)
Variable toLowerCase : string → string.

(** The [instruments] state of the hook: empty until the load resolves. *)
Variable instruments : list BondInstrument.t.

Definition matches (lower : string) (i : BondInstrument.t) : bool :=
  includes (toLowerCase (BondInstrument.isin i)) lower ||
  includes (toLowerCase (BondInstrument.description i)) lower.

Definition searchInstruments (query : string) : list BondInstrument.t :=
  if bool_decide (query = "") || (String.length query <? 2)
  then []
  else
    let lower := toLowerCase query in
    take 50 (List.filter (matches lower) instruments).

Definition getInstrument (isin : string) : option BondInstrument.t :=
  List.find (λ i, bool_decide (BondInstrument.isin i = isin)) instruments.
End WithEngine.

(** Lower-casing of the code units below 256 (one [ascii] per code unit):
    [A-Z] and the Latin-1 capitals [U+00C0-U+00DE] except [U+00D7]. *)
Definition lowerUnit (c : ascii) : ascii :=
  let n := nat_of_ascii c in
  if ((65 <=? n) && (n <=? 90)) ||
     ((192 <=? n) && (n <=? 222) && negb (n =? 215))
  then ascii_of_nat (n + 32)
  else c.

Fixpoint latin1LowerCase (s : string) : string :=
  match s with
  | EmptyString => EmptyString
  | String c s' => String (lowerUnit c) (latin1LowerCase s')
  end.
End useBondInstruments.

(** ** The reconciliation layer: shared state and vocabulary *)

(** [type PendingEdits = Record<string, { side?: AxeSide; quantity?: number }>] *)
Module PendingEdit.
Record t := mk {
  side : option AxeSide;
  quantity : option Z;
}.

(** [{}] *)
Definition empty : t := {| side := None; quantity := None |}.

#[global] Instance eq_dec : EqDecision t.
Proof. solve_decision. Defined.
End PendingEdit.

(** [interface AxeRow extends Axe { _isNew?: boolean }] *)
Module AxeRow.
Record t := mk {
  axe : Axe.t;
  _isNew : option bool;
}.
End AxeRow.

(** The pinned row is an [AxeRow] whose [quantity] can hold the [null] a
    cleared number editor writes into it. *)
Module PinnedRow.
Record t := mk {
  id : string;
  isin : string;
  description : string;
  maturity : string;
  issuer : string;
  side : AxeSide;
  quantity : option Z;
  status : AxeStatus;
  lastUpdate : string;
  _isNew : bool;
}.
End PinnedRow.

Definition PINNED_ROW_ID : string := "pinned-new-axe".

Definition DEFAULT_PINNED_ROW : PinnedRow.t := {|
  PinnedRow.id := PINNED_ROW_ID;
  PinnedRow.isin := "";
  PinnedRow.description := "";
  PinnedRow.maturity := "";
  PinnedRow.issuer := "";
  PinnedRow.side := Bid;
  PinnedRow.quantity := Some 1000000%Z;
  PinnedRow.status := ACTIVE;
  PinnedRow.lastUpdate := "";
  PinnedRow._isNew := true;
|}.

(** [notifications.show({ title, message, color })] *)
Module Notification.
Record t := mk {
  title : string;
  message : string;
  color : string;
}.
End Notification.

(** The commands of [useBondAxes]. *)
Inductive Command :=
  | CreateOrUpdateAxe (request : CreateOrUpdateAxeRequest.t)
  | PauseAxe (id : string)
  | ResumeAxe (id : string)
  | BlockAxe (id : string)
  | UnblockAxe (id : string)
  | DeleteAxe (id : string).

(** The React state of a view: [axes] is the state of [useBondAxes] (the last
    broadcast, as changed by [setAxesOptimistic]); [pinnedRow] exists in V6
    only; [notifications] are the toasts shown so far, oldest first. *)
Module View.
Record t := mk {
  axes : list Axe.t;
  pendingEdits : gmap string PendingEdit.t;
  pinnedRow : PinnedRow.t;
  notifications : list Notification.t;
}.

Definition init : t := {|
  axes := [];
  pendingEdits := ∅;
  pinnedRow := DEFAULT_PINNED_ROW;
  notifications := [];
|}.

(** State setters, applied to an updater as React applies them. *)
Definition setAxes (updater : list Axe.t → list Axe.t) (st : t) : t :=
  {| axes := updater (axes st); pendingEdits := pendingEdits st;
     pinnedRow := pinnedRow st; notifications := notifications st |}.

Definition setPendingEdits
    (updater : gmap string PendingEdit.t → gmap string PendingEdit.t) (st : t) : t :=
  {| axes := axes st; pendingEdits := updater (pendingEdits st);
     pinnedRow := pinnedRow st; notifications := notifications st |}.

Definition setPinnedRow (updater : PinnedRow.t → PinnedRow.t) (st : t) : t :=
  {| axes := axes st; pendingEdits := pendingEdits st;
     pinnedRow := updater (pinnedRow st); notifications := notifications st |}.

Definition show (n : Notification.t) (st : t) : t :=
  {| axes := axes st; pendingEdits := pendingEdits st;
     pinnedRow := pinnedRow st; notifications := notifications st ++ [n] |}.

(** The identifiers in the local snapshot. *)
Definition ids (st : t) : list string := Axe.id <$> axes st.
End View.

(** A command in flight with the continuations its caller attached:
    [command(...).then(onFulfilled).catch(onRejected)]; [onRejected] receives
    [err.message]. *)
Record Issued := mkIssued {
  command : Command;
  onFulfilled : View.t → View.t;
  onRejected : string → View.t → View.t;
}.

(** What one call of a handler does: the state updaters it enqueued, composed
    in order, and the commands it issued. *)
Record Effect := mkEffect {
  update : View.t → View.t;
  issued : list Issued;
}.

Definition nothing : Effect := {| update := λ st, st; issued := [] |}.

Definition andThen (e1 e2 : Effect) : Effect :=
  {| update := λ st, update e2 (update e1 st); issued := issued e1 ++ issued e2 |}.

(** [a || b] on strings: the empty string is falsy. *)
Definition orElse (a b : string) : string := if bool_decide (a = "") then b else a.

Definition success (msg : string) : Notification.t :=
  {| Notification.title := "Success"; Notification.message := msg;
     Notification.color := "green" |}.

Definition failure (msg : string) : Notification.t :=
  {| Notification.title := "Error"; Notification.message := msg;
     Notification.color := "red" |}.

Definition validation (msg : string) : Notification.t :=
  {| Notification.title := "Validation"; Notification.message := msg;
     Notification.color := "orange" |}.

(** The edit a grid cell reports: [event.colDef.field] with [event.newValue].
    The select editor of [side] yields one of its two values; a cleared
    number or text editor yields [null]. *)
Inductive TextField := F_isin | F_description | F_maturity | F_issuer.

Inductive CellChange :=
  | SideChange (newValue : AxeSide)
  | QuantityChange (newValue : option Z)
  | TextChange (field : TextField) (newValue : option string)
  | OtherChange.

Module CellValueChangedEvent.
Record t := mk {
  data : option Axe.t;
  rowPinned : bool;
  change : CellChange;
}.
End CellValueChangedEvent.

(** [axes.find((a) => a.id === id)] *)
Definition findAxe (id : string) (axes : list Axe.t) : option Axe.t :=
  List.find (λ a, bool_decide (Axe.id a = id)) axes.

(** [{ ...existing, [field]: event.newValue }] for the two staged fields. *)
Definition withChange (existing : PendingEdit.t) (c : CellChange) : PendingEdit.t :=
  match c with
  | SideChange v =>
      {| PendingEdit.side := Some v; PendingEdit.quantity := PendingEdit.quantity existing |}
  | QuantityChange v =>
      {| PendingEdit.side := PendingEdit.side existing; PendingEdit.quantity := v |}
  | _ => existing
  end.

(** The updater every staged-save view passes to [setPendingEdits] on a cell
    edit (V4 lines 170-183, V6 lines 156-170: the same text). *)
Definition stageEdit (id : string) (serverAxe : Axe.t) (c : CellChange)
    (prev : gmap string PendingEdit.t) : gmap string PendingEdit.t :=
  let existing := default PendingEdit.empty (prev !! id) in
  let updated := withChange existing c in
  let sideVal := default (Axe.side serverAxe) (PendingEdit.side updated) in
  let qtyVal := default (Axe.quantity serverAxe) (PendingEdit.quantity updated) in
  if bool_decide (sideVal = Axe.side serverAxe) &&
     bool_decide (qtyVal = Axe.quantity serverAxe)
  then delete id prev
  else <[id := updated]> prev.

(** [prev.map((a) => a.id === id ? f(a) : a)] *)
Definition mapById (id : string) (f : Axe.t → Axe.t) (prev : list Axe.t) : list Axe.t :=
  (λ a, if bool_decide (Axe.id a = id) then f a else a) <$> prev.

(** [prev.filter((a) => a.id !== id)] *)
Definition removeById (id : string) (prev : list Axe.t) : list Axe.t :=
  List.filter (λ a, negb (bool_decide (Axe.id a = id))) prev.

(** The status buttons and the delete button are the same in V4 and V6. *)
Definition pauseResume (now : string) (axe : Axe.t) : Effect :=
  let isPaused := bool_decide (Axe.status axe = PAUSED) in
  let newStatus := if isPaused then ACTIVE else PAUSED in
  {| update := View.setAxes (mapById (Axe.id axe) (λ a, withStatusAt a newStatus now));
     issued := [ {|
       command := if isPaused then ResumeAxe (Axe.id axe) else PauseAxe (Axe.id axe);
       onFulfilled :=
         View.show (success ("Axe " +:+ (if isPaused then "resumed" else "paused")));
       onRejected := λ msg, View.show (failure msg) |} ] |}.

Definition blockUnblock (now : string) (axe : Axe.t) : Effect :=
  let isBlocked := bool_decide (Axe.status axe = BLOCKED) in
  let newStatus := if isBlocked then ACTIVE else BLOCKED in
  {| update := View.setAxes (mapById (Axe.id axe) (λ a, withStatusAt a newStatus now));
     issued := [ {|
       command := if isBlocked then UnblockAxe (Axe.id axe) else BlockAxe (Axe.id axe);
       onFulfilled :=
         View.show (success ("Axe " +:+ (if isBlocked then "unblocked" else "blocked")));
       onRejected := λ msg, View.show (failure msg) |} ] |}.

Definition deleteRow (axe : Axe.t) : Effect :=
  {| update := λ st,
       View.setAxes (removeById (Axe.id axe))
         (View.setPendingEdits (delete (Axe.id axe)) st);
     issued := [ {|
       command := DeleteAxe (Axe.id axe);
       onFulfilled := View.show (success "Axe deleted");
       onRejected := λ msg, View.show (failure msg) |} ] |}.

(** ** V4: staged save ([src/components/v4/AxeManagerV4.tsx]) *)

Module V4.

Definition displayData (st : View.t) : list Axe.t :=
  (λ axe,
     match View.pendingEdits st !! Axe.id axe with
     | None => axe
     | Some edits =>
         withSideQuantity axe
           (default (Axe.side axe) (PendingEdit.side edits))
           (default (Axe.quantity axe) (PendingEdit.quantity edits))
     end) <$> View.axes st.

Definition onCellValueChanged (st : View.t) (event : CellValueChangedEvent.t) : Effect :=
  match CellValueChangedEvent.data event with
  | None => nothing
  | Some axe =>
      match CellValueChangedEvent.change event with
      | SideChange _ | QuantityChange _ =>
          match findAxe (Axe.id axe) (View.axes st) with
          | None => nothing
          | Some serverAxe =>
              {| update :=
                   View.setPendingEdits
                     (stageEdit (Axe.id axe) serverAxe (CellValueChangedEvent.change event));
                 issued := [] |}
          end
      | _ => nothing
      end
  end.

Definition handleSaveRow (st : View.t) (now : string) (axe : Axe.t) : Effect :=
  match View.pendingEdits st !! Axe.id axe with
  | None => nothing
  | Some edits =>
      let updatedSide := default (Axe.side axe) (PendingEdit.side edits) in
      let updatedQty := default (Axe.quantity axe) (PendingEdit.quantity edits) in
      {| update := λ s,
           View.setPendingEdits (delete (Axe.id axe))
             (View.setAxes
                (mapById (Axe.id axe) (λ a, withSideQuantityAt a updatedSide updatedQty now)) s);
         issued := [ {|
           command := CreateOrUpdateAxe {|
             CreateOrUpdateAxeRequest.id := Some (Axe.id axe);
             CreateOrUpdateAxeRequest.isin := Axe.isin axe;
             CreateOrUpdateAxeRequest.side := updatedSide;
             CreateOrUpdateAxeRequest.quantity := updatedQty |};
           onFulfilled := View.show (success "Axe updated");
           onRejected := λ msg, View.show (failure (orElse msg "Failed to update axe")) |} ] |}
  end.

Definition handleRevertRow (axe : Axe.t) : Effect :=
  {| update := View.setPendingEdits (delete (Axe.id axe)); issued := [] |}.

Definition handlePauseResume := pauseResume.
Definition handleBlockUnblock := blockUnblock.
Definition handleDelete := deleteRow.

(** The modal's save: no optimistic insertion ([saving] and [modalOpened] are
    not part of the modelled state). *)
Definition handleModalSave (isin : string) (side : AxeSide) (quantity : Z) : Effect :=
  {| update := λ st, st;
     issued := [ {|
       command := CreateOrUpdateAxe {|
         CreateOrUpdateAxeRequest.id := None;
         CreateOrUpdateAxeRequest.isin := isin;
         CreateOrUpdateAxeRequest.side := side;
         CreateOrUpdateAxeRequest.quantity := quantity |};
       onFulfilled := View.show (success "Axe created");
       onRejected := λ msg, View.show (failure (orElse msg "Failed to create axe")) |} ] |}.

(** The "Save All" button.  [keys] is [Object.keys(pendingEdits)]: the
    drafted identifiers in the object's own order (array indices first, then
    the other keys in the order they were added), which the map does not
    record, so the handler is given it.  For a key that has no Pending Edit
    [handleSaveRow] returns at once. *)
Definition handleSaveAll (st : View.t) (now : string) (keys : list string) : Effect :=
  foldl
    (λ acc axeId,
       match findAxe axeId (View.axes st) with
       | Some axe => andThen acc (handleSaveRow st now axe)
       | None => acc
       end)
    nothing
    keys.

(** The "Revert All" button: [setPendingEdits({})]. *)
Definition handleRevertAll : Effect :=
  {| update := View.setPendingEdits (λ _, ∅); issued := [] |}.

Inductive Intent :=
  | CellValueChanged (event : CellValueChangedEvent.t)
  | SaveRow (axe : Axe.t)
  | RevertRow (axe : Axe.t)
  | PauseResume (axe : Axe.t)
  | BlockUnblock (axe : Axe.t)
  | Delete (axe : Axe.t)
  | ModalSave (isin : string) (side : AxeSide) (quantity : Z)
  | SaveAll (keys : list string) (* [Object.keys(pendingEdits)] at the click *)
  | RevertAll.

(** The handler a user intent runs, closed over the state of the last
    render; [now] is the clock it reads. *)
Definition handler (st : View.t) (now : string) (i : Intent) : Effect :=
  match i with
  | CellValueChanged event => onCellValueChanged st event
  | SaveRow axe => handleSaveRow st now axe
  | RevertRow axe => handleRevertRow axe
  | PauseResume axe => handlePauseResume now axe
  | BlockUnblock axe => handleBlockUnblock now axe
  | Delete axe => handleDelete axe
  | ModalSave isin side quantity => handleModalSave isin side quantity
  | SaveAll keys => handleSaveAll st now keys
  | RevertAll => handleRevertAll
  end.
End V4.

(** ** V6: pinned create row ([src/components/v6/AxeManagerV6.tsx]) *)

Module V6.

Definition rowData (st : View.t) : list AxeRow.t :=
  (λ a,
     let edits := View.pendingEdits st !! Axe.id a in
     {| AxeRow.axe :=
          withSideQuantity a
            (default (Axe.side a) (edits ≫= PendingEdit.side))
            (default (Axe.quantity a) (edits ≫= PendingEdit.quantity));
        AxeRow._isNew := Some false |}) <$> View.axes st.

Definition setPinnedInstrument (instrument : BondInstrument.t) (prev : PinnedRow.t) :
    PinnedRow.t := {|
  PinnedRow.id := PinnedRow.id prev;
  PinnedRow.isin := BondInstrument.isin instrument;
  PinnedRow.description := BondInstrument.description instrument;
  PinnedRow.maturity := BondInstrument.maturity instrument;
  PinnedRow.issuer := BondInstrument.issuer instrument;
  PinnedRow.side := PinnedRow.side prev;
  PinnedRow.quantity := PinnedRow.quantity prev;
  PinnedRow.status := PinnedRow.status prev;
  PinnedRow.lastUpdate := PinnedRow.lastUpdate prev;
  PinnedRow._isNew := PinnedRow._isNew prev;
|}.

(** [if (rowId && rowId !== PINNED_ROW_ID) return;] *)
Definition updatePinnedRowInstrument (rowId : option string)
    (instrument : BondInstrument.t) : Effect :=
  let foreign :=
    match rowId with
    | Some r => negb (bool_decide (r = "")) && negb (bool_decide (r = PINNED_ROW_ID))
    | None => false
    end in
  if foreign then nothing
  else {| update := View.setPinnedRow (setPinnedInstrument instrument); issued := [] |}.

Definition clearPinnedRow : Effect :=
  {| update := View.setPinnedRow (λ prev, {|
       PinnedRow.id := PinnedRow.id prev;
       PinnedRow.isin := "";
       PinnedRow.description := "";
       PinnedRow.maturity := "";
       PinnedRow.issuer := "";
       PinnedRow.side := Bid;
       PinnedRow.quantity := Some 1000000%Z;
       PinnedRow.status := PinnedRow.status prev;
       PinnedRow.lastUpdate := PinnedRow.lastUpdate prev;
       PinnedRow._isNew := PinnedRow._isNew prev |});
     issued := [] |}.

(** [newId] is the identifier [uuidv4()] returned to the view. *)
Definition handleCreatePinned (st : View.t) (newId now : string) : Effect :=
  let pinnedRow := View.pinnedRow st in
  if bool_decide (PinnedRow.isin pinnedRow = "") then
    {| update := View.show (validation "Please select a bond instrument"); issued := [] |}
  else
    match PinnedRow.quantity pinnedRow with
    | None =>
        {| update := View.show (validation "Quantity must be at least 1"); issued := [] |}
    | Some quantity =>
        if (quantity <? 1)%Z then
          {| update := View.show (validation "Quantity must be at least 1"); issued := [] |}
        else
          let optimisticAxe := {|
            Axe.id := newId;
            Axe.isin := PinnedRow.isin pinnedRow;
            Axe.description := PinnedRow.description pinnedRow;
            Axe.maturity := PinnedRow.maturity pinnedRow;
            Axe.issuer := PinnedRow.issuer pinnedRow;
            Axe.side := PinnedRow.side pinnedRow;
            Axe.quantity := quantity;
            Axe.status := ACTIVE;
            Axe.lastUpdate := now |} in
          andThen
            {| update := View.setAxes (λ prev, optimisticAxe :: prev);
               issued := [ {|
                 command := CreateOrUpdateAxe {|
                   CreateOrUpdateAxeRequest.id := None;
                   CreateOrUpdateAxeRequest.isin := PinnedRow.isin pinnedRow;
                   CreateOrUpdateAxeRequest.side := PinnedRow.side pinnedRow;
                   CreateOrUpdateAxeRequest.quantity := quantity |};
                 onFulfilled := View.show (success "Axe created");
                 onRejected := λ msg s,
                   View.setAxes (removeById newId)
                     (View.show (failure (orElse msg "Failed to create axe")) s) |} ] |}
            clearPinnedRow
    end.

Definition setPinnedText (field : TextField) (v : string) (prev : PinnedRow.t) : PinnedRow.t := {|
  PinnedRow.id := PinnedRow.id prev;
  PinnedRow.isin := if field is F_isin then v else PinnedRow.isin prev;
  PinnedRow.description := if field is F_description then v else PinnedRow.description prev;
  PinnedRow.maturity := if field is F_maturity then v else PinnedRow.maturity prev;
  PinnedRow.issuer := if field is F_issuer then v else PinnedRow.issuer prev;
  PinnedRow.side := PinnedRow.side prev;
  PinnedRow.quantity := PinnedRow.quantity prev;
  PinnedRow.status := PinnedRow.status prev;
  PinnedRow.lastUpdate := PinnedRow.lastUpdate prev;
  PinnedRow._isNew := PinnedRow._isNew prev;
|}.

Definition setPinnedSide (v : AxeSide) (prev : PinnedRow.t) : PinnedRow.t := {|
  PinnedRow.id := PinnedRow.id prev;
  PinnedRow.isin := PinnedRow.isin prev;
  PinnedRow.description := PinnedRow.description prev;
  PinnedRow.maturity := PinnedRow.maturity prev;
  PinnedRow.issuer := PinnedRow.issuer prev;
  PinnedRow.side := v;
  PinnedRow.quantity := PinnedRow.quantity prev;
  PinnedRow.status := PinnedRow.status prev;
  PinnedRow.lastUpdate := PinnedRow.lastUpdate prev;
  PinnedRow._isNew := PinnedRow._isNew prev;
|}.

Definition setPinnedQuantity (v : option Z) (prev : PinnedRow.t) : PinnedRow.t := {|
  PinnedRow.id := PinnedRow.id prev;
  PinnedRow.isin := PinnedRow.isin prev;
  PinnedRow.description := PinnedRow.description prev;
  PinnedRow.maturity := PinnedRow.maturity prev;
  PinnedRow.issuer := PinnedRow.issuer prev;
  PinnedRow.side := PinnedRow.side prev;
  PinnedRow.quantity := v;
  PinnedRow.status := PinnedRow.status prev;
  PinnedRow.lastUpdate := PinnedRow.lastUpdate prev;
  PinnedRow._isNew := PinnedRow._isNew prev;
|}.

Definition onCellValueChanged (st : View.t) (event : CellValueChangedEvent.t) : Effect :=
  match CellValueChangedEvent.data event with
  | None => nothing
  | Some axe =>
      if CellValueChangedEvent.rowPinned event then
        match CellValueChangedEvent.change event with
        | SideChange v =>
            {| update := View.setPinnedRow (setPinnedSide v); issued := [] |}
        | QuantityChange v =>
            {| update := View.setPinnedRow (setPinnedQuantity v); issued := [] |}
        | TextChange field (Some v) =>
            if bool_decide (v = "") then nothing
            else {| update := View.setPinnedRow (setPinnedText field v); issued := [] |}
        | TextChange _ None => nothing
        | OtherChange => nothing
        end
      else
        match CellValueChangedEvent.change event with
        | SideChange _ | QuantityChange _ =>
            match findAxe (Axe.id axe) (View.axes st) with
            | None => nothing
            | Some serverAxe =>
                {| update :=
                     View.setPendingEdits
                       (stageEdit (Axe.id axe) serverAxe (CellValueChangedEvent.change event));
                   issued := [] |}
            end
        | _ => nothing
        end
  end.

Definition handleSaveRow (st : View.t) (now : string) (axe : Axe.t) : Effect :=
  match View.pendingEdits st !! Axe.id axe with
  | None => nothing
  | Some edits =>
      match findAxe (Axe.id axe) (View.axes st) with
      | None => nothing
      | Some serverAxe =>
          let updatedSide := default (Axe.side serverAxe) (PendingEdit.side edits) in
          let updatedQty := default (Axe.quantity serverAxe) (PendingEdit.quantity edits) in
          {| update := λ s,
               View.setPendingEdits (delete (Axe.id axe))
                 (View.setAxes
                    (mapById (Axe.id axe)
                       (λ a, withSideQuantityAt a updatedSide updatedQty now)) s);
             issued := [ {|
               command := CreateOrUpdateAxe {|
                 CreateOrUpdateAxeRequest.id := Some (Axe.id axe);
                 CreateOrUpdateAxeRequest.isin := Axe.isin serverAxe;
                 CreateOrUpdateAxeRequest.side := updatedSide;
                 CreateOrUpdateAxeRequest.quantity := updatedQty |};
               onFulfilled := View.show (success "Axe updated");
               onRejected := λ msg, View.show (failure (orElse msg "Failed to update")) |} ] |}
      end
  end.

Definition handleRevertRow (axe : Axe.t) : Effect :=
  {| update := View.setPendingEdits (delete (Axe.id axe)); issued := [] |}.

Definition handlePauseResume := pauseResume.
Definition handleBlockUnblock := blockUnblock.
Definition handleDelete := deleteRow.

(** [keys] is [Object.keys(pendingEdits)], as in V4. *)
Definition handleSaveAll (st : View.t) (now : string) (keys : list string) : Effect :=
  foldl
    (λ acc axeId,
       match findAxe axeId (View.axes st) with
       | Some axe => andThen acc (handleSaveRow st now axe)
       | None => acc
       end)
    nothing
    keys.

Definition handleRevertAll : Effect :=
  {| update := View.setPendingEdits (λ _, ∅); issued := [] |}.

Inductive Intent :=
  | CellValueChanged (event : CellValueChangedEvent.t)
  | SaveRow (axe : Axe.t)
  | RevertRow (axe : Axe.t)
  | PauseResume (axe : Axe.t)
  | BlockUnblock (axe : Axe.t)
  | Delete (axe : Axe.t)
  | SelectInstrument (rowId : option string) (instrument : BondInstrument.t)
  | CreatePinned (newId : string)
  | ClearPinned
  | SaveAll (keys : list string) (* [Object.keys(pendingEdits)] at the click *)
  | RevertAll.

Definition handler (st : View.t) (now : string) (i : Intent) : Effect :=
  match i with
  | CellValueChanged event => onCellValueChanged st event
  | SaveRow axe => handleSaveRow st now axe
  | RevertRow axe => handleRevertRow axe
  | PauseResume axe => handlePauseResume now axe
  | BlockUnblock axe => handleBlockUnblock now axe
  | Delete axe => handleDelete axe
  | SelectInstrument rowId instrument => updatePinnedRowInstrument rowId instrument
  | CreatePinned newId => handleCreatePinned st newId now
  | ClearPinned => clearPinnedRow
  | SaveAll keys => handleSaveAll st now keys
  | RevertAll => handleRevertAll
  end.
End V6.

(** ** The subscription bridge ([src/hooks/useBondAxes.ts]) *)

Module useBondAxes.
(** The listener of the hook: [(newAxes) => setAxes([...newAxes])]. *)
Definition listener (newAxes : list Axe.t) : View.t → View.t :=
  View.setAxes (λ _, newAxes).

(** A command of the hook, run on the service; the views ignore the value a
    promise resolves to. *)
Definition run (mockInstruments : list BondInstrument.t) (fresh now : string)
    (c : Command) : MockAxeService.M unit :=
  match c with
  | CreateOrUpdateAxe request =>
      MockAxeService.bind
        (MockAxeService.createOrUpdateAxe mockInstruments fresh now request)
        (λ _, MockAxeService.ret tt)
  | PauseAxe id => MockAxeService.pauseAxe now id
  | ResumeAxe id => MockAxeService.resumeAxe now id
  | BlockAxe id => MockAxeService.blockAxe now id
  | UnblockAxe id => MockAxeService.unblockAxe now id
  | DeleteAxe id => MockAxeService.deleteAxe id
  end.

(** What each subscriber holds after a series of listener calls: the array
    of its last call. *)
Definition held (ds : list Delivery) (before : gmap AxeListener (list Axe.t)) :
    gmap AxeListener (list Axe.t) :=
  foldl (λ h d, <[d.1 := d.2]> h) before ds.
End useBondAxes.

(** ** One mounted view over the service *)

Module System.
Record t := mk {
  service : MockAxeService.t;
  view : View.t;
  inflight : list Issued;
}.

(** The identity of the mounted view's listener. *)
Definition viewListener : AxeListener := 0.

(** The listener calls of the service that reach the mounted view. *)
Definition receive (ds : list Delivery) (st : View.t) : View.t :=
  foldl
    (λ acc d, if decide (d.1 = viewListener) then useBondAxes.listener d.2 acc else acc)
    st ds.

(** Mounting subscribes the hook to a new service. *)
Definition mount : t :=
  let o := MockAxeService.subscribe viewListener MockAxeService.init in
  {| service := MockAxeService.final o;
     view := receive (MockAxeService.emitted o) View.init;
     inflight := [] |}.

Section WithView.
Context {Intent : Type}.
Variable handler : View.t → string → Intent → Effect.
Variable mockInstruments : list BondInstrument.t.

Inductive Event :=
  | User (now : string) (i : Intent)
  | Settle (fresh now : string).

(** A user intent runs its handler on the rendered state.  [Settle] lets the
    oldest command in flight take effect (every command has the same delay):
    the service runs it, its listener calls reach the view, and then the
    caller's continuation runs. *)
Definition step (sys : t) (ev : Event) : t :=
  match ev with
  | User now i =>
      let e := handler (view sys) now i in
      {| service := service sys;
         view := update e (view sys);
         inflight := inflight sys ++ issued e |}
  | Settle fresh now =>
      match inflight sys with
      | [] => sys
      | p :: rest =>
          let o := useBondAxes.run mockInstruments fresh now (command p) (service sys) in
          let received := receive (MockAxeService.emitted o) (view sys) in
          {| service := MockAxeService.final o;
             view :=
               match MockAxeService.result o with
               | inl e => onRejected p (errorMessage e) received
               | inr _ => onFulfilled p received
               end;
             inflight := rest |}
      end
  end.

Definition run (evs : list Event) (sys : t) : t := foldl step sys evs.
End WithView.
End System.

(** The first entry of [generateInstruments] ([src/services/mockData.ts]). *)
Definition instrument0 : BondInstrument.t := {|
  BondInstrument.isin := "US0000000000";
  BondInstrument.description := "US Treasury 0.250% 2026 Senior Unsecured";
  BondInstrument.maturity := "2026-01-01";
  BondInstrument.issuer := "US Treasury";
|}.

(** ** The instrument universe ([src/services/mockData.ts]) *)

Module mockData.

Definition issuers : list string := [
  "US Treasury"; "Germany"; "France"; "Italy"; "Spain"; "UK Gilt";
  "Japan"; "Canada"; "Australia"; "Netherlands"; "Belgium"; "Austria";
  "Goldman Sachs"; "JP Morgan"; "Morgan Stanley"; "Citigroup";
  "Bank of America"; "HSBC"; "Deutsche Bank"; "Barclays";
  "Apple Inc"; "Microsoft"; "Amazon"; "Google"; "Meta";
  "Toyota Motor"; "Volkswagen"; "BMW"; "Daimler";
  "EDF"; "Enel"; "Total"; "Shell"; "BP"
].

Definition bondTypes : list string := [
  "Senior Unsecured"; "Subordinated"; "Covered Bond"; "Green Bond";
  "Sustainability Bond"; "Floating Rate Note"; "Zero Coupon";
  "Inflation Linked"; "Callable"; "Fixed Rate"
].

Definition countries : list string :=
  ["US"; "DE"; "FR"; "IT"; "ES"; "GB"; "JP"; "CA"; "AU"; "NL"; "BE"; "AT"].

(** [String(n)] for a non-negative integer below 10^21, where [String]
    prints the decimal numeral (from 10^21 on it prints an exponent). *)
Definition decimal (n : nat) : string :=
  DecimalString.NilZero.string_of_uint (Nat.to_uint n).

Fixpoint zeros (k : nat) : string :=
  match k with
  | 0 => ""
  | S k' => String "0" (zeros k')
  end.

(** [s.padStart(width, '0')] *)
Definition padStart0 (width : nat) (s : string) : string :=
  zeros (width - String.length s) +:+ s.

(** [list[index % list.length]] *)
Definition pick (l : list string) (index : nat) : string :=
  nth (index mod length l) l "".

(** [index] is the counter of the loop of [generateInstruments], the only
    caller: an index of the array being filled, so a non-negative integer
    below 2^32 - 1.  There [index % 12] and [String(index)] are exact and
    [decimal] is [String]. *)
Definition generateISIN (index : nat) : string :=
  let country := pick countries index in
  let num := padStart0 9 (decimal index) in
  country +:+ num +:+ "0".

Definition generateMaturity (index : nat) : string :=
  let baseYear := 2025 in
  let year := baseYear + index mod 30 + 1 in
  let month := index mod 12 + 1 in
  let day := index mod 28 + 1 in
  decimal year +:+ "-" +:+ padStart0 2 (decimal month) +:+ "-" +:+ padStart0 2 (decimal day).

(** [(0.25 + (index % 60) * 0.125).toFixed(3)]: the number is a multiple of
    1/8 below 8, which a double holds exactly and [toFixed(3)] prints
    exactly; it is computed here in thousandths. *)
Definition generateCoupon (index : nat) : string :=
  let thousandths := 250 + index mod 60 * 125 in
  let coupon :=
    decimal (thousandths / 1000) +:+ "." +:+ padStart0 3 (decimal (thousandths mod 1000)) in
  coupon +:+ "%".

(** The instrument the loop of [generateInstruments] pushes at index [i]. *)
Definition instrumentAt (i : nat) : BondInstrument.t :=
  let issuer := pick issuers i in
  let bondType := pick bondTypes i in
  let maturity := generateMaturity i in
  let coupon := generateCoupon i in
  let isin := generateISIN i in
  {| BondInstrument.isin := isin;
     BondInstrument.description :=
       issuer +:+ " " +:+ coupon +:+ " " +:+ String.substring 0 4 maturity +:+ " " +:+ bondType;
     BondInstrument.maturity := maturity;
     BondInstrument.issuer := issuer |}.

Definition generateInstruments (count : nat) : list BondInstrument.t :=
  instrumentAt <$> seq 0 count.

Definition mockInstruments : list BondInstrument.t :=
  generateInstruments (150 * 100).
End mockData.

(** ** The action buttons ([ActionsRenderer]) *)

(** An [ActionIcon] of a row: its tooltip, its [disabled] flag and what a
    click runs. *)
Module ActionIcon.
Record t (I : Type) := mk {
  label : string;
  disabled : bool;
  onClick : I;
}.
Arguments mk {I} _ _ _.
Arguments label {I} _.
Arguments disabled {I} _.
Arguments onClick {I} _.
End ActionIcon.

(** [ActionsRenderer] of [src/components/v4/AxeManagerV4.tsx]; [data] is
    [props.data]. *)
Module V4Actions.
Definition ActionsRenderer (pendingEdits : gmap string PendingEdit.t)
    (data : option Axe.t) : list (ActionIcon.t V4.Intent) :=
  match data with
  | None => []
  | Some axe =>
      let hasPending := bool_decide (is_Some (pendingEdits !! Axe.id axe)) in
      let canPause := bool_decide (Axe.status axe = ACTIVE) in
      let canResume := bool_decide (Axe.status axe = PAUSED) in
      let canBlock := bool_decide (Axe.status axe = ACTIVE) in
      let canUnblock := bool_decide (Axe.status axe = BLOCKED) in
      (if hasPending then
         [ ActionIcon.mk "Save changes" false (V4.SaveRow axe);
           ActionIcon.mk "Revert changes" false (V4.RevertRow axe) ]
       else
         [ ActionIcon.mk (if canResume then "Resume" else "Pause")
             (negb canPause && negb canResume) (V4.PauseResume axe);
           ActionIcon.mk (if canUnblock then "Unblock" else "Block")
             (negb canBlock && negb canUnblock) (V4.BlockUnblock axe) ])
      ++ [ ActionIcon.mk "Delete" false (V4.Delete axe) ]
  end.
End V4Actions.

(** [ActionsRenderer] of [src/components/v6/components/ActionsRenderer.tsx].
    The grid hands it the pinned row ([props.node.rowPinned === 'top']) or a
    row of [rowData]; a click is given the identifier [uuidv4()] returns if
    its handler asks for one. *)
Module V6Actions.
Inductive RowNode :=
  | PinnedTop (data : PinnedRow.t)
  | Body (data : AxeRow.t).

Definition canCreate (axe : PinnedRow.t) : bool :=
  negb (bool_decide (PinnedRow.isin axe = "")) &&
  match PinnedRow.quantity axe with
  | Some quantity => (1 <=? quantity)%Z
  | None => false
  end.

Definition ActionsRenderer (pendingEdits : gmap string PendingEdit.t)
    (node : option RowNode) : list (ActionIcon.t (string → V6.Intent)) :=
  match node with
  | None => []
  | Some (PinnedTop axe) =>
      [ ActionIcon.mk "Create axe" (negb (canCreate axe)) (λ newId, V6.CreatePinned newId);
        ActionIcon.mk "Clear" (negb (canCreate axe)) (λ _, V6.ClearPinned) ]
  | Some (Body row) =>
      let axe := AxeRow.axe row in
      let hasPending := bool_decide (is_Some (pendingEdits !! Axe.id axe)) in
      let canPause := bool_decide (Axe.status axe = ACTIVE) in
      let canResume := bool_decide (Axe.status axe = PAUSED) in
      let canBlock := bool_decide (Axe.status axe = ACTIVE) in
      let canUnblock := bool_decide (Axe.status axe = BLOCKED) in
      (if hasPending then
         [ ActionIcon.mk "Save changes" false (λ _, V6.SaveRow axe);
           ActionIcon.mk "Revert changes" false (λ _, V6.RevertRow axe) ]
       else
         [ ActionIcon.mk (if canResume then "Resume" else "Pause")
             (negb canPause && negb canResume) (λ _, V6.PauseResume axe);
           ActionIcon.mk (if canUnblock then "Unblock" else "Block")
             (negb canBlock && negb canUnblock) (λ _, V6.BlockUnblock axe) ])
      ++ [ ActionIcon.mk "Delete" false (λ _, V6.Delete axe) ]
  end.
End V6Actions.

(** ** Choosing an instrument *)

(** The text of an option: [`${i.isin} - ${i.description}`]. *)
Definition displayValue (i : BondInstrument.t) : string :=
  BondInstrument.isin i +:+ " - " +:+ BondInstrument.description i.

(** The search box in the toolbar of V1, V2 and V4
    ([autocompleteData], [handleAutocompleteChange]). *)
Module SearchBox.
Record Item := mkItem {
  value : string;
  isin : string;
}.

Record t := mk {
  searchValue : string;
  selectedInstrument : option BondInstrument.t;
}.

Section WithHook.
Variable toLowerCase : string → string.
Variable instruments : list BondInstrument.t.

Definition autocompleteData (searchValue : string) : list Item :=
  (λ i, {| value := displayValue i; isin := BondInstrument.isin i |}) <$>
    useBondInstruments.searchInstruments toLowerCase instruments searchValue.

(** The handler closes over the options of the render it was made in. *)
Definition handleAutocompleteChange (st : t) (value' : string) : t :=
  let match_ :=
    List.find (λ d, bool_decide (value d = value')) (autocompleteData (searchValue st)) in
  {| searchValue := value';
     selectedInstrument :=
       match match_ with
       | Some d => useBondInstruments.getInstrument instruments (isin d)
       | None => None
       end |}.
End WithHook.
End SearchBox.

(** The cell editor of the [isin] column in V5 and V6
    ([InstrumentSearchEditor]); [onSelectInstrument] is the callback the
    manager passes in, [rowId] is [props.node?.data?.id]. *)
Module InstrumentSearchEditor.
Section WithProps.
Variable instrumentList : list BondInstrument.t.
Variable onSelectInstrument : option string → BondInstrument.t → Effect.

Definition displayData : list string := displayValue <$> instrumentList.

Definition displayToInstrument : JsMap.t BondInstrument.t :=
  foldl (λ map instrument, JsMap.set (displayValue instrument) instrument map)
    JsMap.empty instrumentList.

(** [onOptionSubmit]: the editor's own value and the grid's cell values are
    not part of the modelled state, the callback's effect is. *)
Definition onOptionSubmit (rowId : option string) (optionValue : string) : Effect :=
  match JsMap.get optionValue displayToInstrument with
  | None => nothing
  | Some instrument => onSelectInstrument rowId instrument
  end.
End WithProps.
End InstrumentSearchEditor.

(** ** V3 and V5: new rows ([AxeManagerV3], [AxeManagerV5]) *)

(** The managers with an "add row" button keep the rows not yet confirmed in
    [newRows], beside the state of the other views.  A new row is an
    [AxeRow] with [_isNew: true]; as for the pinned row, its quantity can hold
    the [null] of a cleared editor. *)
Module V5.
Record t := mk {
  view : View.t;
  newRows : list PinnedRow.t;
}.

Record Change := mkChange {
  change : t → t;
  commands : list Issued;
}.

Definition setNewRows (updater : list PinnedRow.t → list PinnedRow.t) (st : t) : t :=
  {| view := view st; newRows := updater (newRows st) |}.

Definition setView (updater : View.t → View.t) (st : t) : t :=
  {| view := updater (view st); newRows := newRows st |}.

(** A confirmed record as a grid row. *)
Definition asRow (a : AxeRow.t) : PinnedRow.t := {|
  PinnedRow.id := Axe.id (AxeRow.axe a);
  PinnedRow.isin := Axe.isin (AxeRow.axe a);
  PinnedRow.description := Axe.description (AxeRow.axe a);
  PinnedRow.maturity := Axe.maturity (AxeRow.axe a);
  PinnedRow.issuer := Axe.issuer (AxeRow.axe a);
  PinnedRow.side := Axe.side (AxeRow.axe a);
  PinnedRow.quantity := Some (Axe.quantity (AxeRow.axe a));
  PinnedRow.status := Axe.status (AxeRow.axe a);
  PinnedRow.lastUpdate := Axe.lastUpdate (AxeRow.axe a);
  PinnedRow._isNew := default false (AxeRow._isNew a);
|}.

(** [[...newRows, ...displayAxes]]; V5 overlays the drafts as V6 does. *)
Definition rowData (st : t) : list PinnedRow.t :=
  newRows st ++ (asRow <$> V6.rowData (view st)).

(** [newId] is the identifier [uuidv4()] returns. *)
Definition addNewRow (newId : string) : Change :=
  let newRow := {|
    PinnedRow.id := newId;
    PinnedRow.isin := "";
    PinnedRow.description := "";
    PinnedRow.maturity := "";
    PinnedRow.issuer := "";
    PinnedRow.side := Bid;
    PinnedRow.quantity := Some 1000000%Z;
    PinnedRow.status := ACTIVE;
    PinnedRow.lastUpdate := "";
    PinnedRow._isNew := true |} in
  {| change := setNewRows (λ prev, prev ++ [newRow]); commands := [] |}.

Definition cancelNewRow (id : string) : Change :=
  {| change := setNewRows (List.filter (λ r, negb (bool_decide (PinnedRow.id r = id))));
     commands := [] |}.

Definition confirmNewRow (now : string) (axe : PinnedRow.t) : Change :=
  if bool_decide (PinnedRow.isin axe = "") then
    {| change := setView (View.show (validation "Please select a bond instrument"));
       commands := [] |}
  else
    match PinnedRow.quantity axe with
    | None =>
        {| change := setView (View.show (validation "Please enter a valid quantity"));
           commands := [] |}
    | Some quantity =>
        if (quantity <=? 0)%Z then
          {| change := setView (View.show (validation "Please enter a valid quantity"));
             commands := [] |}
        else
          let optimisticAxe := {|
            Axe.id := PinnedRow.id axe;
            Axe.isin := PinnedRow.isin axe;
            Axe.description := PinnedRow.description axe;
            Axe.maturity := PinnedRow.maturity axe;
            Axe.issuer := PinnedRow.issuer axe;
            Axe.side := PinnedRow.side axe;
            Axe.quantity := quantity;
            Axe.status := ACTIVE;
            Axe.lastUpdate := now |} in
          {| change := λ st,
               setView (View.setAxes (λ prev, optimisticAxe :: prev))
                 (setNewRows
                    (List.filter
                       (λ r, negb (bool_decide (PinnedRow.id r = PinnedRow.id axe)))) st);
             commands := [ {|
               command := CreateOrUpdateAxe {|
                 CreateOrUpdateAxeRequest.id := None;
                 CreateOrUpdateAxeRequest.isin := PinnedRow.isin axe;
                 CreateOrUpdateAxeRequest.side := PinnedRow.side axe;
                 CreateOrUpdateAxeRequest.quantity := quantity |};
               onFulfilled := View.show (success "Axe created");
               onRejected := λ msg s,
                 View.setAxes (removeById (PinnedRow.id axe))
                   (View.show (failure (orElse msg "Failed to create axe")) s) |} ] |}
    end.

(** [if (!rowId) return;] then the four instrument fields of that row. *)
Definition updateNewRowInstrument (rowId : option string)
    (instrument : BondInstrument.t) : Change :=
  match rowId with
  | None => {| change := λ st, st; commands := [] |}
  | Some rowId =>
      if bool_decide (rowId = "") then {| change := λ st, st; commands := [] |}
      else
        {| change :=
             setNewRows
               (fmap (λ r, if bool_decide (PinnedRow.id r = rowId)
                           then V6.setPinnedInstrument instrument r else r));
           commands := [] |}
  end.
End V5.

(** ** The modal ([src/components/shared/AxeModal.tsx]) and V1's save *)

Module AxeModal.
Inductive Mode := create | edit.

Record Props := mkProps {
  mode : Mode;
  instrument : option BondInstrument.t;
  axe : option Axe.t;
}.

(** The modal's own state. *)
Record t := mk {
  side : AxeSide;
  quantity : Z;
}.

(** The effect that runs when the modal opens. *)
Definition opened (props : Props) : t :=
  match mode props, axe props with
  | edit, Some axe => {| side := Axe.side axe; quantity := Axe.quantity axe |}
  | _, _ => {| side := Bid; quantity := 1000000%Z |}
  end.

(** [setQuantity(typeof val === 'number' ? val : 0)] *)
Definition onQuantityChange (val : option Z) (st : t) : t :=
  {| side := side st; quantity := default 0%Z val |}.

Definition displayIsin (props : Props) : option string :=
  match mode props with
  | edit => Axe.isin <$> axe props
  | create => BondInstrument.isin <$> instrument props
  end.

(** The argument of [onSave]. *)
Record SaveData := mkSaveData {
  data_isin : string;
  data_side : AxeSide;
  data_quantity : Z;
  data_id : option string;
}.

(** [None]: [handleSave] returns without calling [onSave]. *)
Definition handleSave (props : Props) (st : t) : option SaveData :=
  match displayIsin props with
  | None => None
  | Some isin =>
      if bool_decide (isin = "") then None
      else Some {|
        data_isin := isin;
        data_side := side st;
        data_quantity := quantity st;
        data_id := match mode props with
                   | edit => Axe.id <$> axe props
                   | create => None
                   end |}
  end.
End AxeModal.

(** [handleSave] of [src/components/v1/AxeManagerV1.tsx]: nothing changes
    before the store answers ([saving] and [modalOpened] are not part of the
    modelled state). *)
Module V1.
Definition handleSave (data : AxeModal.SaveData) : Effect :=
  {| update := λ st, st;
     issued := [ {|
       command := CreateOrUpdateAxe {|
         CreateOrUpdateAxeRequest.id := AxeModal.data_id data;
         CreateOrUpdateAxeRequest.isin := AxeModal.data_isin data;
         CreateOrUpdateAxeRequest.side := AxeModal.data_side data;
         CreateOrUpdateAxeRequest.quantity := AxeModal.data_quantity data |};
       onFulfilled :=
         View.show
           (success (if MockAxeService.truthy (AxeModal.data_id data)
                     then "Axe updated successfully" else "Axe created successfully"));
       onRejected := λ msg, View.show (failure (orElse msg "Failed to save axe")) |} ] |}.

(** The toolbar buttons act on [selectedAxe]; they change nothing before the
    store answers ([selectedAxe] and the popover are not part of the modelled
    state). *)
Definition handlePauseResume (selectedAxe : option Axe.t) : Effect :=
  match selectedAxe with
  | None => nothing
  | Some axe =>
      let isPaused := bool_decide (Axe.status axe = PAUSED) in
      {| update := λ st, st;
         issued := [ {|
           command := if isPaused then ResumeAxe (Axe.id axe) else PauseAxe (Axe.id axe);
           onFulfilled :=
             View.show (success (if isPaused then "Axe resumed" else "Axe paused"));
           onRejected := λ msg, View.show (failure msg) |} ] |}
  end.

Definition handleBlockUnblock (selectedAxe : option Axe.t) : Effect :=
  match selectedAxe with
  | None => nothing
  | Some axe =>
      let isBlocked := bool_decide (Axe.status axe = BLOCKED) in
      {| update := λ st, st;
         issued := [ {|
           command := if isBlocked then UnblockAxe (Axe.id axe) else BlockAxe (Axe.id axe);
           onFulfilled :=
             View.show (success (if isBlocked then "Axe unblocked" else "Axe blocked"));
           onRejected := λ msg, View.show (failure msg) |} ] |}
  end.

Definition handleDelete (selectedAxe : option Axe.t) : Effect :=
  match selectedAxe with
  | None => nothing
  | Some axe =>
      {| update := λ st, st;
         issued := [ {|
           command := DeleteAxe (Axe.id axe);
           onFulfilled := View.show (success "Axe deleted");
           onRejected := λ msg, View.show (failure msg) |} ] |}
  end.

Inductive Intent :=
  | Save (data : AxeModal.SaveData)
  | PauseResume (selectedAxe : option Axe.t)
  | BlockUnblock (selectedAxe : option Axe.t)
  | Delete (selectedAxe : option Axe.t).

Definition handler (st : View.t) (now : string) (i : Intent) : Effect :=
  match i with
  | Save data => handleSave data
  | PauseResume selectedAxe => handlePauseResume selectedAxe
  | BlockUnblock selectedAxe => handleBlockUnblock selectedAxe
  | Delete selectedAxe => handleDelete selectedAxe
  end.
End V1.

(** ** V2: inline editing with immediate save ([src/components/v2/AxeManagerV2.tsx]) *)

Module V2.

(** [{ ...axe, lastUpdate: new Date().toISOString() }] replaces the record of
    the row's identifier; the row is [event.data], as the grid left it. *)
Definition onCellValueChanged (now : string) (event : CellValueChangedEvent.t) : Effect :=
  match CellValueChangedEvent.data event with
  | None => nothing
  | Some axe =>
      {| update :=
           View.setAxes
             (mapById (Axe.id axe) (λ _, withStatusAt axe (Axe.status axe) now));
         issued := [ {|
           command := CreateOrUpdateAxe {|
             CreateOrUpdateAxeRequest.id := Some (Axe.id axe);
             CreateOrUpdateAxeRequest.isin := Axe.isin axe;
             CreateOrUpdateAxeRequest.side := Axe.side axe;
             CreateOrUpdateAxeRequest.quantity := Axe.quantity axe |};
           onFulfilled := View.show (success "Axe updated");
           onRejected := λ msg, View.show (failure (orElse msg "Failed to update axe")) |} ] |}
  end.

Definition handlePauseResume := pauseResume.
Definition handleBlockUnblock := blockUnblock.

Definition handleDelete (axe : Axe.t) : Effect :=
  {| update := View.setAxes (removeById (Axe.id axe));
     issued := [ {|
       command := DeleteAxe (Axe.id axe);
       onFulfilled := View.show (success "Axe deleted");
       onRejected := λ msg, View.show (failure msg) |} ] |}.

Inductive Intent :=
  | CellValueChanged (event : CellValueChangedEvent.t)
  | PauseResume (axe : Axe.t)
  | BlockUnblock (axe : Axe.t)
  | Delete (axe : Axe.t).

Definition handler (st : View.t) (now : string) (i : Intent) : Effect :=
  match i with
  | CellValueChanged event => onCellValueChanged now event
  | PauseResume axe => handlePauseResume now axe
  | BlockUnblock axe => handleBlockUnblock now axe
  | Delete axe => handleDelete axe
  end.

(** [ActionsRenderer]: a button that is not offered is not rendered. *)
Definition ActionsRenderer (data : option Axe.t) : list (ActionIcon.t Intent) :=
  match data with
  | None => []
  | Some axe =>
      (if bool_decide (Axe.status axe = PAUSED)
       then [ActionIcon.mk "Resume" false (PauseResume axe)]
       else if negb (bool_decide (Axe.status axe = BLOCKED))
       then [ActionIcon.mk "Pause" false (PauseResume axe)]
       else []) ++
      (if bool_decide (Axe.status axe = BLOCKED)
       then [ActionIcon.mk "Unblock" false (BlockUnblock axe)]
       else if negb (bool_decide (Axe.status axe = PAUSED))
       then [ActionIcon.mk "Block" false (BlockUnblock axe)]
       else []) ++
      [ActionIcon.mk "Delete" false (Delete axe)]
  end.
End V2.

(** * Specification vocabulary *)

(** ** Sample data *)

(** Scenario A of the specification: the record the store holds after a
    create for [US0000000000], Bid, 1000000. *)
Definition axe1 : Axe.t := {|
  Axe.id := "a1";
  Axe.isin := "US0000000000";
  Axe.description := "US Treasury 0.250% 2026 Senior Unsecured";
  Axe.maturity := "2026-01-01";
  Axe.issuer := "US Treasury";
  Axe.side := Bid;
  Axe.quantity := 1000000%Z;
  Axe.status := ACTIVE;
  Axe.lastUpdate := "2026-01-05T09:00:00.000Z";
|}.

(** A service holding [axe1], paused, with the mounted view subscribed. *)
Definition service1 : MockAxeService.t := {|
  MockAxeService.axes := [("a1", withStatusAt axe1 PAUSED "2026-01-05T09:01:00.000Z")];
  MockAxeService.listeners := [System.viewListener];
|}.

(** A view holding [axe1] with a draft of its quantity. *)
Definition view1 : View.t := {|
  View.axes := [axe1];
  View.pendingEdits :=
    {[ "a1" := {| PendingEdit.side := None; PendingEdit.quantity := Some 2000000%Z |} ]};
  View.pinnedRow := DEFAULT_PINNED_ROW;
  View.notifications := [];
|}.

(** A view whose pinned row has [instrument0] selected. *)
Definition view2 : View.t :=
  update (V6.updatePinnedRowInstrument None instrument0) View.init.

(** ** The record store *)

(** [broadcast] hands the whole current array to every listener, in the
    order of the listener set, and changes nothing. *)
Definition snapshotFor (s : MockAxeService.t) : list Delivery :=
  (λ l, (l, JsMap.values (MockAxeService.axes s))) <$> MockAxeService.listeners s.

(** The record [createOrUpdateAxe] builds. *)
Definition upserted (instrument : BondInstrument.t) (fresh now : string)
    (request : CreateOrUpdateAxeRequest.t) (s : MockAxeService.t) : Axe.t :=
  let id := default fresh (CreateOrUpdateAxeRequest.id request) in
  let isUpdate :=
    MockAxeService.truthy (CreateOrUpdateAxeRequest.id request) &&
    match CreateOrUpdateAxeRequest.id request with
    | Some x => JsMap.has x (MockAxeService.axes s)
    | None => false
    end in
  {| Axe.id := id;
     Axe.isin := BondInstrument.isin instrument;
     Axe.description := BondInstrument.description instrument;
     Axe.maturity := BondInstrument.maturity instrument;
     Axe.issuer := BondInstrument.issuer instrument;
     Axe.side := CreateOrUpdateAxeRequest.side request;
     Axe.quantity := CreateOrUpdateAxeRequest.quantity request;
     Axe.status :=
       default ACTIVE
         (Axe.status <$> (if isUpdate then JsMap.get id (MockAxeService.axes s) else None));
     Axe.lastUpdate := now |}.

(** C2 as the specification words it: a request whose identifier is absent
    or unknown gets a generated identifier. *)
Definition generates_identifier_unless_known : Prop :=
  ∀ mockInstruments s fresh now request instrument,
    MockAxeService.findInstrument mockInstruments
      (CreateOrUpdateAxeRequest.isin request) = Some instrument →
    match CreateOrUpdateAxeRequest.id request with
    | None => True
    | Some id => id ∉ JsMap.keys (MockAxeService.axes s)
    end →
    ∃ axe,
      MockAxeService.result
        (MockAxeService.createOrUpdateAxe mockInstruments fresh now request s) = inr axe ∧
      Axe.id axe = fresh ∧ Axe.status axe = ACTIVE.

(** ** Instrument search *)

(** [s] contains [sub]: the meaning of [s.includes(sub)]. *)
Definition contains (s sub : string) : Prop :=
  ∃ pre post, s = pre +:+ sub +:+ post.

(** The instrument's code or description contains the query, case
    differences aside. *)
Definition matchesQuery (toLowerCase : string → string) (query : string)
    (i : BondInstrument.t) : Prop :=
  contains (toLowerCase (BondInstrument.isin i)) (toLowerCase query) ∨
  contains (toLowerCase (BondInstrument.description i)) (toLowerCase query).

(** A capital letter among the first 256 code units: [A-Z], or a Latin-1
    capital [U+00C0-U+00DE] other than the multiplication sign [U+00D7].  Its
    small letter is 32 code units further. *)
Definition capital (n : nat) : Prop :=
  65 ≤ n ≤ 90 ∨ (192 ≤ n ≤ 222 ∧ n ≠ 215).

(** Two code units that are the same letter: the same code unit, or a
    capital and its small letter. *)
Definition sameLetter (c d : ascii) : Prop :=
  let m := nat_of_ascii c in
  let n := nat_of_ascii d in
  m = n ∨ (capital m ∧ n = m + 32) ∨ (capital n ∧ m = n + 32).

(** Two strings that spell the same, case differences aside. *)
Fixpoint sameLetters (s t : string) : Prop :=
  match s, t with
  | EmptyString, EmptyString => True
  | String c s', String d t' => sameLetter c d ∧ sameLetters s' t'
  | _, _ => False
  end.

(** Some stretch of [s] spells [sub], case differences aside. *)
Definition containsCaseless (s sub : string) : Prop :=
  ∃ pre mid post, s = pre +:+ mid +:+ post ∧ sameLetters mid sub.

(** Some stretch of the instrument's code or of its description spells the
    query, case differences aside. *)
Definition matchesCaseless (query : string) (i : BondInstrument.t) : Prop :=
  containsCaseless (BondInstrument.isin i) query ∨
  containsCaseless (BondInstrument.description i) query.

(** ** The reconciliation layer *)


(** C3 as the specification words it for delete: after the store rejects
    the delete of a rendered record, the record is rendered again. *)
Definition delete_is_rolled_back : Prop :=
  ∀ (st : View.t) (axe : Axe.t) (msg : string) (p : Issued),
    axe ∈ V4.displayData st →
    p ∈ issued (V4.handleDelete axe) →
    axe ∈ V4.displayData (onRejected p msg (update (V4.handleDelete axe) st)).

(** Every identifier with a Pending Edit is in the local snapshot. *)
Definition drafts_confirmed (st : View.t) : Prop :=
  ∀ id, is_Some (View.pendingEdits st !! id) → id ∈ View.ids st.

(** The same, as a test. *)
Definition draftsWithin (pendingEdits : gmap string PendingEdit.t) (ids : list string) : bool :=
  forallb (λ id, bool_decide (id ∈ ids)) (map_to_list pendingEdits).*1.

(** A continuation is quiet when it never touches the Pending Edits and its
    [then] branch never touches the snapshot. *)
Definition quiet (p : Issued) : Prop :=
  (∀ s, View.pendingEdits (onFulfilled p s) = View.pendingEdits s ∧
        View.axes (onFulfilled p s) = View.axes s) ∧
  (∀ msg s, View.pendingEdits (onRejected p msg s) = View.pendingEdits s).

(** An effect is tame when its update keeps [drafts_confirmed] from any
    state and the commands it issues are quiet. *)
Definition tame (e : Effect) : Prop :=
  (∀ s, drafts_confirmed s → drafts_confirmed (update e s)) ∧
  Forall quiet (issued e).

Section Runs.
Context {Intent : Type}.
Variable handler : View.t → string → Intent → Effect.
Variable mockInstruments : list BondInstrument.t.

(** The event leaves every drafted record in the local snapshot.  A user
    intent is never asked anything; a settled command is asked that the
    snapshot left by its broadcast and its continuation still has every
    identifier that carried a draft. *)
Definition retains (sys : System.t) (ev : System.Event (Intent := Intent)) : bool :=
  match ev with
  | System.User _ _ => true
  | System.Settle _ _ =>
      draftsWithin (View.pendingEdits (System.view sys))
        (View.ids (System.view (System.step handler mockInstruments sys ev)))
  end.

Fixpoint retaining (evs : list (System.Event (Intent := Intent))) (sys : System.t) : bool :=
  match evs with
  | [] => true
  | ev :: evs' =>
      retains sys ev && retaining evs' (System.step handler mockInstruments sys ev)
  end.
End Runs.

Definition sound (sys : System.t) : Prop :=
  drafts_confirmed (System.view sys) ∧ Forall quiet (System.inflight sys).

(** C6 as the specification words it, for a mounted V6 view over the store:
    after any sequence of user intents and settled commands. *)
Definition drafts_always_confirmed : Prop :=
  ∀ evs : list (System.Event (Intent := V6.Intent)),
    drafts_confirmed
      (System.view (System.run V6.handler [instrument0] evs System.mount)).

(** The user creates a record from the pinned row, edits the quantity of the
    optimistic row while the create is in flight, and the create settles. *)
Definition createThenEdit : list (System.Event (Intent := V6.Intent)) := [
  System.User "2026-01-05T09:00:00.000Z" (V6.SelectInstrument None instrument0);
  System.User "2026-01-05T09:00:01.000Z" (V6.CreatePinned "c1");
  System.User "2026-01-05T09:00:01.100Z"
    (V6.CellValueChanged {|
       CellValueChangedEvent.data := Some {|
         Axe.id := "c1";
         Axe.isin := "US0000000000";
         Axe.description := "US Treasury 0.250% 2026 Senior Unsecured";
         Axe.maturity := "2026-01-01";
         Axe.issuer := "US Treasury";
         Axe.side := Bid;
         Axe.quantity := 2000000%Z;
         Axe.status := ACTIVE;
         Axe.lastUpdate := "2026-01-05T09:00:01.000Z" |};
       CellValueChangedEvent.rowPinned := false;
       CellValueChangedEvent.change := QuantityChange (Some 2000000%Z) |});
  System.Settle "s1" "2026-01-05T09:00:01.300Z"
].

(** The user selects an instrument, creates from the pinned row, the create
    settles, and the user drafts the quantity of the confirmed row. *)
Definition createThenSettleThenEdit : list (System.Event (Intent := V6.Intent)) := [
  System.User "2026-01-05T09:00:00.000Z" (V6.SelectInstrument None instrument0);
  System.User "2026-01-05T09:00:01.000Z" (V6.CreatePinned "c1");
  System.Settle "s1" "2026-01-05T09:00:01.300Z";
  System.User "2026-01-05T09:00:02.000Z"
    (V6.CellValueChanged {|
       CellValueChangedEvent.data := Some {|
         Axe.id := "s1";
         Axe.isin := "US0000000000";
         Axe.description := "US Treasury 0.250% 2026 Senior Unsecured";
         Axe.maturity := "2026-01-01";
         Axe.issuer := "US Treasury";
         Axe.side := Bid;
         Axe.quantity := 2000000%Z;
         Axe.status := ACTIVE;
         Axe.lastUpdate := "2026-01-05T09:00:01.300Z" |};
       CellValueChangedEvent.rowPinned := false;
       CellValueChangedEvent.change := QuantityChange (Some 2000000%Z) |})
].

(** In V4: a record is created through the modal; the user pauses it and
    deletes it at once; the pause settles and its broadcast brings the row
    back; the user drafts its quantity; then the delete settles. *)
Definition pauseDeleteThenEdit : list (System.Event (Intent := V4.Intent)) := [
  System.User "2026-01-05T09:00:00.000Z" (V4.ModalSave "US0000000000" Bid 1000000%Z);
  System.Settle "s1" "2026-01-05T09:00:00.300Z";
  System.User "2026-01-05T09:00:05.000Z"
    (V4.PauseResume {|
       Axe.id := "s1";
       Axe.isin := "US0000000000";
       Axe.description := "US Treasury 0.250% 2026 Senior Unsecured";
       Axe.maturity := "2026-01-01";
       Axe.issuer := "US Treasury";
       Axe.side := Bid;
       Axe.quantity := 1000000%Z;
       Axe.status := ACTIVE;
       Axe.lastUpdate := "2026-01-05T09:00:00.300Z" |});
  System.User "2026-01-05T09:00:05.100Z"
    (V4.Delete {|
       Axe.id := "s1";
       Axe.isin := "US0000000000";
       Axe.description := "US Treasury 0.250% 2026 Senior Unsecured";
       Axe.maturity := "2026-01-01";
       Axe.issuer := "US Treasury";
       Axe.side := Bid;
       Axe.quantity := 1000000%Z;
       Axe.status := PAUSED;
       Axe.lastUpdate := "2026-01-05T09:00:05.000Z" |});
  System.Settle "unused" "2026-01-05T09:00:05.300Z";
  System.User "2026-01-05T09:00:05.350Z"
    (V4.CellValueChanged {|
       CellValueChangedEvent.data := Some {|
         Axe.id := "s1";
         Axe.isin := "US0000000000";
         Axe.description := "US Treasury 0.250% 2026 Senior Unsecured";
         Axe.maturity := "2026-01-01";
         Axe.issuer := "US Treasury";
         Axe.side := Bid;
         Axe.quantity := 2000000%Z;
         Axe.status := PAUSED;
         Axe.lastUpdate := "2026-01-05T09:00:05.300Z" |};
       CellValueChangedEvent.rowPinned := false;
       CellValueChangedEvent.change := QuantityChange (Some 2000000%Z) |});
  System.Settle "unused" "2026-01-05T09:00:05.400Z"
].

(** In V6: the user creates from the pinned row and deletes the optimistic
    row before the create settles; the create settles, then the delete. *)
Definition createThenDelete : list (System.Event (Intent := V6.Intent)) := [
  System.User "2026-01-05T09:00:00.000Z" (V6.SelectInstrument None instrument0);
  System.User "2026-01-05T09:00:01.000Z" (V6.CreatePinned "c1");
  System.User "2026-01-05T09:00:01.100Z"
    (V6.Delete {|
       Axe.id := "c1";
       Axe.isin := "US0000000000";
       Axe.description := "US Treasury 0.250% 2026 Senior Unsecured";
       Axe.maturity := "2026-01-01";
       Axe.issuer := "US Treasury";
       Axe.side := Bid;
       Axe.quantity := 1000000%Z;
       Axe.status := ACTIVE;
       Axe.lastUpdate := "2026-01-05T09:00:01.000Z" |});
  System.Settle "s1" "2026-01-05T09:00:01.300Z";
  System.Settle "unused" "2026-01-05T09:00:01.400Z"
].

(** In V6: the user creates from the pinned row, drafts the quantity of the
    optimistic row and saves it before the create settles; then both commands
    settle. *)
Definition createThenSave : list (System.Event (Intent := V6.Intent)) := [
  System.User "2026-01-05T09:00:00.000Z" (V6.SelectInstrument None instrument0);
  System.User "2026-01-05T09:00:01.000Z" (V6.CreatePinned "c1");
  System.User "2026-01-05T09:00:01.100Z"
    (V6.CellValueChanged {|
       CellValueChangedEvent.data := Some {|
         Axe.id := "c1";
         Axe.isin := "US0000000000";
         Axe.description := "US Treasury 0.250% 2026 Senior Unsecured";
         Axe.maturity := "2026-01-01";
         Axe.issuer := "US Treasury";
         Axe.side := Bid;
         Axe.quantity := 2000000%Z;
         Axe.status := ACTIVE;
         Axe.lastUpdate := "2026-01-05T09:00:01.000Z" |};
       CellValueChangedEvent.rowPinned := false;
       CellValueChangedEvent.change := QuantityChange (Some 2000000%Z) |});
  System.User "2026-01-05T09:00:01.200Z"
    (V6.SaveRow {|
       Axe.id := "c1";
       Axe.isin := "US0000000000";
       Axe.description := "US Treasury 0.250% 2026 Senior Unsecured";
       Axe.maturity := "2026-01-01";
       Axe.issuer := "US Treasury";
       Axe.side := Bid;
       Axe.quantity := 2000000%Z;
       Axe.status := ACTIVE;
       Axe.lastUpdate := "2026-01-05T09:00:01.000Z" |});
  System.Settle "s1" "2026-01-05T09:00:01.300Z";
  System.Settle "unused" "2026-01-05T09:00:01.500Z"
].

(** C5 as the specification words it, for a mounted V6 view over the store:
    in any state the view reaches, whatever identifier has a Pending Edit,
    saving its row issues one update command for that identifier and leaves
    no Pending Edit for it. *)
Definition save_consumes_every_draft : Prop :=
  ∀ (evs : list (System.Event (Intent := V6.Intent))) (now : string) (axe : Axe.t),
    let st := System.view (System.run V6.handler [instrument0] evs System.mount) in
    let e := V6.handleSaveRow st now axe in
    is_Some (View.pendingEdits st !! Axe.id axe) →
    (∃ p request,
       issued e = [p] ∧ command p = CreateOrUpdateAxe request ∧
       CreateOrUpdateAxeRequest.id request = Some (Axe.id axe)) ∧
    View.pendingEdits (update e st) !! Axe.id axe = None.

(** ** The service over time *)

(** The calls a client can make on the service, in the order they take
    effect: [subscribe], the function [subscribe] returned, and a command. *)
Inductive ServiceCall :=
  | Subscribe (listener : AxeListener)
  | Unsubscribe (listener : AxeListener)
  | Run (fresh now : string) (c : Command).

Definition perform (mockInstruments : list BondInstrument.t) (call : ServiceCall) :
    MockAxeService.M unit :=
  match call with
  | Subscribe listener => MockAxeService.subscribe listener
  | Unsubscribe listener => MockAxeService.unsubscribe listener
  | Run fresh now c => useBondAxes.run mockInstruments fresh now c
  end.

Definition performAll (mockInstruments : list BondInstrument.t)
    (calls : list ServiceCall) (s : MockAxeService.t) : MockAxeService.t :=
  foldl (λ s call, MockAxeService.final (perform mockInstruments call s)) s calls.

(** The record carries the attributes of the directory's instrument for its
    code. *)
Definition denormalised (mockInstruments : list BondInstrument.t) (a : Axe.t) : Prop :=
  ∃ i, MockAxeService.findInstrument mockInstruments (Axe.isin a) = Some i ∧
       BondInstrument.isin i = Axe.isin a ∧
       BondInstrument.description i = Axe.description a ∧
       BondInstrument.maturity i = Axe.maturity a ∧
       BondInstrument.issuer i = Axe.issuer a.

(** Keys are distinct, every record is stored under its own identifier and
    is denormalised, and no listener is registered twice. *)
Definition wellFormed (mockInstruments : list BondInstrument.t)
    (s : MockAxeService.t) : Prop :=
  NoDup (JsMap.keys (MockAxeService.axes s)) ∧
  Forall (λ e, Axe.id e.2 = e.1 ∧ denormalised mockInstruments e.2)
    (MockAxeService.axes s) ∧
  NoDup (MockAxeService.listeners s).

(** The largest length of an array, 2^32 - 1: [push] on a longer one throws.
    The indices of an array are below it, far below 2^53, so each is an
    integer a [number] holds exactly, and far below 10^21, so [String] prints
    it as its decimal numeral. *)
Definition maxArrayLength : Z := 4294967295.

(** The number a string of decimal digits stands for, leading zeros allowed. *)
Definition numberOf (s : string) : option nat :=
  Nat.of_uint <$> DecimalString.NilZero.uint_of_string s.

(** Two records that agree on every field but the time of the last update. *)
Definition sameButLastUpdate (a b : Axe.t) : Prop :=
  Axe.id a = Axe.id b ∧
  Axe.isin a = Axe.isin b ∧
  Axe.description a = Axe.description b ∧
  Axe.maturity a = Axe.maturity b ∧
  Axe.issuer a = Axe.issuer b ∧
  Axe.side a = Axe.side b ∧
  Axe.quantity a = Axe.quantity b ∧
  Axe.status a = Axe.status b.

(** [after] is [before] but for the status and the time of the last update. *)
Definition sameButStatus (before after : Axe.t) : Prop :=
  Axe.id after = Axe.id before ∧
  Axe.isin after = Axe.isin before ∧
  Axe.description after = Axe.description before ∧
  Axe.maturity after = Axe.maturity before ∧
  Axe.issuer after = Axe.issuer before ∧
  Axe.side after = Axe.side before ∧
  Axe.quantity after = Axe.quantity before.

(** The effect of a handler predicts the store.  The handler ran at the time
    [now] of the click; the one command it issued runs on the store at the
    later time [now'] the store reads for itself, and succeeds; the array the
    store then holds, which it broadcasts, is record by record the list the
    handler left in the view, up to the time of the last update: a record of
    identifier [id] carries [now'] in the store and [now] in the view, every
    other record the same time in both. *)
Definition predicts (mockInstruments : list BondInstrument.t) (fresh now' : string)
    (s : MockAxeService.t) (st : View.t) (e : Effect) (id now : string) : Prop :=
  ∃ p, issued e = [p] ∧
    let o := useBondAxes.run mockInstruments fresh now' (command p) s in
    MockAxeService.result o = inr tt ∧
    Forall2
      (λ stored shown,
         sameButLastUpdate stored shown ∧
         if bool_decide (Axe.id stored = id)
         then Axe.lastUpdate stored = now' ∧ Axe.lastUpdate shown = now
         else Axe.lastUpdate stored = Axe.lastUpdate shown)
      (JsMap.values (MockAxeService.axes (MockAxeService.final o)))
      (View.axes (update e st)).

(** The status a record must have for a status command to be one of the
    four moves the buttons are labelled with; the other commands are not
    restricted. *)
Definition moves (status : AxeStatus) (c : Command) : Prop :=
  match c with
  | PauseAxe _ | BlockAxe _ => status = ACTIVE
  | ResumeAxe _ => status = PAUSED
  | UnblockAxe _ => status = BLOCKED
  | CreateOrUpdateAxe _ | DeleteAxe _ => True
  end.

(** The record a command is about, where it names one. *)
Definition target (c : Command) : option string :=
  match c with
  | PauseAxe id | ResumeAxe id | BlockAxe id | UnblockAxe id | DeleteAxe id => Some id
  | CreateOrUpdateAxe request => CreateOrUpdateAxeRequest.id request
  end.

(** A string without a space. *)
Fixpoint spaceFree (s : string) : Prop :=
  match s with
  | EmptyString => True
  | String c r => c ≠ " "%char ∧ spaceFree r
  end.

(** The mounted view is still subscribed and every command in flight has
    quiet continuations. *)
Definition attached (sys : System.t) : Prop :=
  System.viewListener ∈ MockAxeService.listeners (System.service sys) ∧
  Forall quiet (System.inflight sys).

(** The view's local snapshot is the store's array. *)
Definition inSync (sys : System.t) : Prop :=
  View.axes (System.view sys) =
  JsMap.values (MockAxeService.axes (System.service sys)).

(** The oldest command in flight will succeed. *)
Definition nextSucceeds (mockInstruments : list BondInstrument.t) (fresh now : string)
    (sys : System.t) : Prop :=
  ∃ p rest, System.inflight sys = p :: rest ∧
    MockAxeService.result
      (useBondAxes.run mockInstruments fresh now (command p) (System.service sys)) = inr tt.

(** What saving writes into the records of identifier [k]: the draft of [k]
    over the first record of that identifier, with the time of the call. *)
Definition stampWith (st : View.t) (now : string) (k : string) (x : Axe.t) : Axe.t :=
  match View.pendingEdits st !! k, findAxe k (View.axes st) with
  | Some edits, Some a =>
      withSideQuantityAt x
        (default (Axe.side a) (PendingEdit.side edits))
        (default (Axe.quantity a) (PendingEdit.quantity edits)) now
  | _, _ => x
  end.

(** The update command of a drafted identifier whose record is in the local
    snapshot. *)
Definition updateOf (st : View.t) (k : string) : option Command :=
  match View.pendingEdits st !! k, findAxe k (View.axes st) with
  | Some edits, Some a =>
      Some (CreateOrUpdateAxe {|
        CreateOrUpdateAxeRequest.id := Some k;
        CreateOrUpdateAxeRequest.isin := Axe.isin a;
        CreateOrUpdateAxeRequest.side := default (Axe.side a) (PendingEdit.side edits);
        CreateOrUpdateAxeRequest.quantity :=
          default (Axe.quantity a) (PendingEdit.quantity edits) |})
  | _, _ => None
  end.

(** A record with its own draft written into it. *)
Definition stamped (st : View.t) (now : string) (a : Axe.t) : Axe.t :=
  match View.pendingEdits st !! Axe.id a with
  | Some edits =>
      withSideQuantityAt a
        (default (Axe.side a) (PendingEdit.side edits))
        (default (Axe.quantity a) (PendingEdit.quantity edits)) now
  | None => a
  end.

(** ** The store as a map transformer *)

(** What a command does to the record map: write one entry, remove one, or
    nothing (when it rejects). *)
Inductive Action :=
  | Put (k : string) (v : Axe.t)
  | Drop (k : string)
  | Skip.

Definition statusAction (now id : string) (status : AxeStatus) (m : JsMap.t Axe.t) : Action :=
  match JsMap.get id m with
  | Some axe => Put id (withStatusAt axe status now)
  | None => Skip
  end.

Definition action (mockInstruments : list BondInstrument.t) (fresh now : string)
    (c : Command) (m : JsMap.t Axe.t) : Action :=
  match c with
  | CreateOrUpdateAxe request =>
      match MockAxeService.findInstrument mockInstruments
              (CreateOrUpdateAxeRequest.isin request) with
      | Some instrument =>
          let axe :=
            upserted instrument fresh now request
              {| MockAxeService.axes := m; MockAxeService.listeners := [] |} in
          Put (Axe.id axe) axe
      | None => Skip
      end
  | PauseAxe id => statusAction now id PAUSED m
  | ResumeAxe id => statusAction now id ACTIVE m
  | BlockAxe id => statusAction now id BLOCKED m
  | UnblockAxe id => statusAction now id ACTIVE m
  | DeleteAxe id => if JsMap.has id m then Drop id else Skip
  end.

Definition act (a : Action) (m : JsMap.t Axe.t) : JsMap.t Axe.t :=
  match a with
  | Put k v => JsMap.set k v m
  | Drop k => JsMap.delete k m
  | Skip => m
  end.

(** The error a command rejects with. *)
Definition rejection (c : Command) : ServiceError :=
  match c with
  | CreateOrUpdateAxe request => InstrumentNotFound (CreateOrUpdateAxeRequest.isin request)
  | PauseAxe id | ResumeAxe id | BlockAxe id | UnblockAxe id | DeleteAxe id => AxeNotFound id
  end.

(** A command in flight whose continuations leave the local snapshot to the
    broadcasts. *)
Definition passive (p : Issued) : Prop :=
  (∀ s, View.axes (onFulfilled p s) = View.axes s) ∧
  (∀ msg s, View.axes (onRejected p msg s) = View.axes s).

(** The view shows the store, is subscribed, and only waits for answers. *)
Definition mirrors (sys : System.t) : Prop :=
  inSync sys ∧
  System.viewListener ∈ MockAxeService.listeners (System.service sys) ∧
  Forall passive (System.inflight sys).

(** ** Records compared field by field *)

(** [after] is [before] but for the side, the quantity and the time of the
    last update. *)
Definition sameButDraftable (before after : Axe.t) : Prop :=
  Axe.id after = Axe.id before ∧
  Axe.isin after = Axe.isin before ∧
  Axe.description after = Axe.description before ∧
  Axe.maturity after = Axe.maturity before ∧
  Axe.issuer after = Axe.issuer before ∧
  Axe.status after = Axe.status before.

(** What committing a draft at time [now] makes of a record: each drafted
    field replaces the record's, an undrafted one is kept, the time of the
    last update is [now]; without a draft the record is as it was. *)
Definition committed (draft : option PendingEdit.t) (now : string)
    (before after : Axe.t) : Prop :=
  match draft with
  | Some edits =>
      sameButDraftable before after ∧
      Axe.side after = default (Axe.side before) (PendingEdit.side edits) ∧
      Axe.quantity after = default (Axe.quantity before) (PendingEdit.quantity edits) ∧
      Axe.lastUpdate after = now
  | None => after = before
  end.

(** What [Object.keys(pendingEdits)] can be: every drafted identifier, once.
    The order is the object's: keys that are array indices first, ascending,
    then the others in the order they were added. *)
Definition ownKeys (pendingEdits : gmap string PendingEdit.t) (keys : list string) : Prop :=
  NoDup keys ∧ ∀ k, k ∈ keys ↔ is_Some (pendingEdits !! k).

(** A second record, and a view holding both records with a draft on each. *)
Definition axe2 : Axe.t := {|
  Axe.id := "a2";
  Axe.isin := "US0000000000";
  Axe.description := "US Treasury 0.250% 2026 Senior Unsecured";
  Axe.maturity := "2026-01-01";
  Axe.issuer := "US Treasury";
  Axe.side := Offer;
  Axe.quantity := 500000%Z;
  Axe.status := ACTIVE;
  Axe.lastUpdate := "2026-01-05T09:00:30.000Z";
|}.

Definition view3 : View.t := {|
  View.axes := [axe1; axe2];
  View.pendingEdits :=
    <[ "a2" := {| PendingEdit.side := Some Bid; PendingEdit.quantity := None |} ]>
      {[ "a1" := {| PendingEdit.side := None; PendingEdit.quantity := Some 2000000%Z |} ]};
  View.pinnedRow := DEFAULT_PINNED_ROW;
  View.notifications := [];
|}.

(** * Facts *)

(** ** [JsMap] behaves as a map with ordered keys *)

Module JsMapFacts.
Import JsMap.
Section WithValue.
Context {V : Type}.
Implicit Types (m : JsMap.t V) (k : string) (v : V).

Lemma has_get k m : has k m = true ↔ is_Some (get k m).
Proof.
  unfold has. destruct (get k m); split; try done; eauto.
Qed.

Lemma has_false k m : has k m = false ↔ get k m = None.
Proof. unfold has. by destruct (get k m). Qed.

Lemma get_set_eq k v m : get k (set k v m) = Some v.
Proof.
  induction m as [|[k' v'] m IH]; simpl.
  - by rewrite decide_True.
  - destruct (decide (k = k')) as [->|Hne]; simpl.
    + by rewrite decide_True.
    + by rewrite decide_False.
Qed.

Lemma get_set_ne k k' v m : k ≠ k' → get k' (set k v m) = get k' m.
Proof.
  intros Hne. induction m as [|[k0 v0] m IH]; simpl.
  - by rewrite decide_False.
  - destruct (decide (k = k0)) as [->|Hk]; simpl.
    + by rewrite !decide_False.
    + destruct (decide (k' = k0)); [done | apply IH].
Qed.

Lemma get_None_keys k m : get k m = None ↔ k ∉ keys m.
Proof.
  unfold keys. induction m as [|[k' v'] m IH]; simpl.
  - split; [intros _; apply not_elem_of_nil | done].
  - rewrite not_elem_of_cons. destruct (decide (k = k')) as [->|Hne].
    + split; [done | by intros [? _]].
    + rewrite IH. tauto.
Qed.

Lemma get_Some_keys k m : is_Some (get k m) ↔ k ∈ keys m.
Proof.
  destruct (get k m) as [v|] eqn:E.
  - split; [intros _ | eauto].
    destruct (decide (k ∈ keys m)) as [|Hn]; [done|].
    apply get_None_keys in Hn. congruence.
  - apply get_None_keys in E. split; [by intros [? ?] | done].
Qed.

Lemma delete_absent k m : get k m = None → delete k m = m.
Proof.
  induction m as [|[k' v'] m IH]; simpl; [done|].
  destruct (decide (k = k')); [done|]. intros H. by rewrite IH.
Qed.

Lemma get_delete_ne k k' m : k ≠ k' → get k' (delete k m) = get k' m.
Proof.
  intros Hne. induction m as [|[k0 v0] m IH]; simpl; [done|].
  destruct (decide (k = k0)) as [->|Hk]; simpl.
  - by rewrite decide_False.
  - by rewrite IH.
Qed.

Lemma keys_delete_subseteq k m : keys (delete k m) ⊆ keys m.
Proof.
  unfold keys. induction m as [|[k0 v0] m IH]; simpl; [done|].
  destruct (decide (k = k0)); simpl.
  - intros x Hx. by right.
  - intros x [->|Hx]%elem_of_cons; [left | right; by apply IH].
Qed.

Lemma get_delete_eq k m : NoDup (keys m) → get k (delete k m) = None.
Proof.
  unfold keys. induction m as [|[k0 v0] m IH]; simpl; [done|].
  intros [Hnotin Hnd]%NoDup_cons.
  destruct (decide (k = k0)) as [->|Hk]; simpl.
  - by apply get_None_keys.
  - rewrite decide_False; auto.
Qed.

(** Overwriting a present key changes neither the keys nor their order. *)
Lemma keys_set_present k v m : is_Some (get k m) → keys (set k v m) = keys m.
Proof.
  unfold keys. induction m as [|[k0 v0] m IH]; simpl.
  - by intros [? ?].
  - destruct (decide (k = k0)) as [->|Hk]; simpl; [done|].
    intros H. f_equal. by apply IH.
Qed.

(** A new key goes last. *)
Lemma keys_set_absent k v m : get k m = None → keys (set k v m) = keys m ++ [k].
Proof.
  unfold keys. induction m as [|[k0 v0] m IH]; simpl; [done|].
  destruct (decide (k = k0)) as [->|Hk]; simpl; [done|].
  intros H. f_equal. by apply IH.
Qed.

Lemma NoDup_set k v m : NoDup (keys m) → NoDup (keys (set k v m)).
Proof.
  intros Hnd. destruct (get k m) as [w|] eqn:E.
  - by rewrite keys_set_present.
  - rewrite keys_set_absent by done.
    apply NoDup_app. split_and!; [done | | apply NoDup_singleton].
    intros x Hx ->%list_elem_of_singleton.
    by apply get_None_keys in E.
Qed.

Lemma NoDup_delete k m : NoDup (keys m) → NoDup (keys (delete k m)).
Proof.
  unfold keys. induction m as [|[k0 v0] m IH]; simpl; [done|].
  intros [Hnotin Hnd]%NoDup_cons.
  destruct (decide (k = k0)) as [->|Hk]; simpl; [done|].
  apply NoDup_cons. split; [|auto].
  intros Hin. apply Hnotin. by apply (keys_delete_subseteq k m).
Qed.

Lemma values_length m : length (values m) = length (keys m).
Proof. unfold values, keys. by rewrite !length_fmap. Qed.
End WithValue.
End JsMapFacts.

Lemma JsSetFacts_elem_of_add (l : AxeListener) (s : JsSet.t) : l ∈ JsSet.add l s.
Proof.
  unfold JsSet.add. case_decide; [done|]. apply elem_of_app. right. by left.
Qed.

(** ** The record store *)

Section ServiceFacts.
Import MockAxeService.

Lemma forEach_call ls xs s :
  forEach ls (λ listener, call listener xs) s =
  mkOutcome (inr tt) s ((λ l, (l, xs)) <$> ls).
Proof.
  induction ls as [|l ls IH]; [done|].
  simpl. unfold bind. simpl. by rewrite IH.
Qed.

Lemma broadcast_run s : broadcast s = mkOutcome (inr tt) s (snapshotFor s).
Proof.
  unfold broadcast, getAxesArray, bind, this, ret. simpl.
  by rewrite forEach_call.
Qed.

Lemma setStatus_found now id status s axe :
  JsMap.get id (axes s) = Some axe →
  let s' := {| axes := JsMap.set id (withStatusAt axe status now) (axes s);
               listeners := listeners s |} in
  setStatus now id status s = mkOutcome (inr tt) s' (snapshotFor s').
Proof.
  intros Hget. unfold setStatus, bind, this. simpl. rewrite Hget.
  unfold bind, setAxes. simpl. by rewrite forEach_call.
Qed.

Lemma setStatus_missing now id status s :
  JsMap.get id (axes s) = None →
  setStatus now id status s = mkOutcome (inl (AxeNotFound id)) s [].
Proof.
  intros Hget. unfold setStatus, bind, this. simpl. by rewrite Hget.
Qed.

Lemma deleteAxe_found id s :
  JsMap.has id (axes s) = true →
  let s' := {| axes := JsMap.delete id (axes s); listeners := listeners s |} in
  deleteAxe id s = mkOutcome (inr tt) s' (snapshotFor s').
Proof.
  intros Hhas. unfold deleteAxe, bind, this. simpl. rewrite Hhas.
  unfold bind, setAxes. simpl. by rewrite forEach_call.
Qed.

Lemma deleteAxe_missing id s :
  JsMap.has id (axes s) = false →
  deleteAxe id s = mkOutcome (inl (AxeNotFound id)) s [].
Proof.
  intros Hhas. unfold deleteAxe, bind, this. simpl. by rewrite Hhas.
Qed.

Lemma createOrUpdateAxe_found mockInstruments fresh now request s instrument :
  findInstrument mockInstruments (CreateOrUpdateAxeRequest.isin request) = Some instrument →
  let axe := upserted instrument fresh now request s in
  let s' := {| axes := JsMap.set (Axe.id axe) axe (axes s); listeners := listeners s |} in
  createOrUpdateAxe mockInstruments fresh now request s =
  mkOutcome (inr axe) s' (snapshotFor s').
Proof.
  intros Hfind. unfold createOrUpdateAxe. rewrite Hfind.
  unfold bind, this, setAxes, ret. simpl. rewrite forEach_call. simpl.
  by rewrite app_nil_r.
Qed.

Lemma createOrUpdateAxe_missing mockInstruments fresh now request s :
  findInstrument mockInstruments (CreateOrUpdateAxeRequest.isin request) = None →
  createOrUpdateAxe mockInstruments fresh now request s =
  mkOutcome (inl (InstrumentNotFound (CreateOrUpdateAxeRequest.isin request))) s [].
Proof. intros Hfind. unfold createOrUpdateAxe. by rewrite Hfind. Qed.
End ServiceFacts.

(** ** Store commands on an unknown identifier *)

(** C7. For an identifier that is not a key of the store's record map, each
    of [pauseAxe], [resumeAxe], [blockAxe], [unblockAxe] and [deleteAxe]
    throws the error whose message is "Axe not found: <id>", leaves the
    service (record map and listener set) as it was, and calls no listener. *)
Theorem not_found_rejects_atomically (s : MockAxeService.t) (now id : string) :
  id ∉ JsMap.keys (MockAxeService.axes s) →
  let rejected : MockAxeService.Outcome unit :=
    MockAxeService.mkOutcome (inl (AxeNotFound id)) s [] in
  MockAxeService.pauseAxe now id s = rejected ∧
  MockAxeService.resumeAxe now id s = rejected ∧
  MockAxeService.blockAxe now id s = rejected ∧
  MockAxeService.unblockAxe now id s = rejected ∧
  MockAxeService.deleteAxe id s = rejected ∧
  errorMessage (AxeNotFound id) = "Axe not found: " +:+ id.
Proof.
  intros Hid%JsMapFacts.get_None_keys rejected.
  unfold MockAxeService.pauseAxe, MockAxeService.resumeAxe,
    MockAxeService.blockAxe, MockAxeService.unblockAxe.
  rewrite !setStatus_missing by done.
  rewrite deleteAxe_missing by by apply JsMapFacts.has_false.
  done.
Qed.

Lemma not_found_rejects_atomically_witness :
  MockAxeService.deleteAxe "ghost" service1 =
    MockAxeService.mkOutcome (inl (AxeNotFound "ghost")) service1 [] ∧
  MockAxeService.pauseAxe "2026-01-05T09:02:00.000Z" "ghost" service1 =
    MockAxeService.mkOutcome (inl (AxeNotFound "ghost")) service1 [].
Proof.
  assert (H : "ghost" ∉ JsMap.keys (MockAxeService.axes service1)).
  { apply (bool_decide_unpack _). vm_compute. reflexivity. }
  destruct (not_found_rejects_atomically service1 "2026-01-05T09:02:00.000Z" "ghost" H)
    as (Hp & _ & _ & _ & Hd & _).
  split; [exact Hd | exact Hp].
Defined.

(** ** The store does not check the status table *)

(** C9. For an identifier held by the store, whatever the record's current
    status, [pauseAxe], [resumeAxe], [blockAxe] and [unblockAxe] succeed and
    leave the record with status PAUSED, ACTIVE, BLOCKED and ACTIVE
    respectively (and the time of the call as its last update); so [blockAxe]
    on a paused record yields a blocked one. *)
Theorem store_sets_any_status (s : MockAxeService.t) (now id : string) (axe : Axe.t) :
  JsMap.get id (MockAxeService.axes s) = Some axe →
  let sets (command : string → string → MockAxeService.M unit) (status : AxeStatus) :=
    MockAxeService.result (command now id s) = inr tt ∧
    JsMap.get id (MockAxeService.axes (MockAxeService.final (command now id s))) =
      Some (withStatusAt axe status now) in
  sets MockAxeService.pauseAxe PAUSED ∧
  sets MockAxeService.resumeAxe ACTIVE ∧
  sets MockAxeService.blockAxe BLOCKED ∧
  sets MockAxeService.unblockAxe ACTIVE.
Proof.
  intros Hget sets. unfold sets, MockAxeService.pauseAxe, MockAxeService.resumeAxe,
    MockAxeService.blockAxe, MockAxeService.unblockAxe.
  rewrite !(setStatus_found now id _ s axe Hget). simpl.
  by rewrite !JsMapFacts.get_set_eq.
Qed.

Lemma store_sets_any_status_witness :
  JsMap.get "a1" (MockAxeService.axes service1) =
    Some (withStatusAt axe1 PAUSED "2026-01-05T09:01:00.000Z") ∧
  MockAxeService.result (MockAxeService.blockAxe "2026-01-05T09:02:00.000Z" "a1" service1) =
    inr tt ∧
  Axe.status <$>
    JsMap.get "a1"
      (MockAxeService.axes
         (MockAxeService.final
            (MockAxeService.blockAxe "2026-01-05T09:02:00.000Z" "a1" service1))) =
    Some BLOCKED.
Proof.
  assert (H : JsMap.get "a1" (MockAxeService.axes service1) =
              Some (withStatusAt axe1 PAUSED "2026-01-05T09:01:00.000Z"))
    by reflexivity.
  destruct (store_sets_any_status service1 "2026-01-05T09:02:00.000Z" "a1" _ H)
    as (_ & _ & [Hr Hg] & _).
  split; [exact H|]. split; [exact Hr|]. rewrite Hg. reflexivity.
Defined.

(** ** [createOrUpdateAxe] *)

(** C2, counterexample. On the empty store a request carrying the unknown
    identifier "client-1" creates the record under "client-1"; the identifier
    the generator would have returned is not used. *)
Lemma createOrUpdate_keeps_unknown_identifier : ¬ generates_identifier_unless_known.
Proof.
  intros H.
  destruct (H [instrument0] MockAxeService.init "generated-uuid" "2026-01-05T09:00:00.000Z"
              {| CreateOrUpdateAxeRequest.id := Some "client-1";
                 CreateOrUpdateAxeRequest.isin := "US0000000000";
                 CreateOrUpdateAxeRequest.side := Offer;
                 CreateOrUpdateAxeRequest.quantity := 5%Z |}
              instrument0 eq_refl) as (axe & Hres & Hid & _).
  - apply not_elem_of_nil.
  - vm_compute in Hres. injection Hres as <-. discriminate Hid.
Qed.

(** C2, amended. For a request whose instrument code resolves, the store
    builds one record from the instrument and the request's side and
    quantity, stamps it with the time of the call, stores it and calls every
    listener with the full array of records.  The record's identifier is the
    request's when it carries one, and a generated one only when it carries
    none.  When the identifier is not yet a key of the store the record is
    appended with status ACTIVE; when the request carries a non-empty
    identifier that is a key, the record replaces the old one at its place and
    keeps the old status.  No other record and no listener changes. *)
Theorem createOrUpdate_postcondition
    (mockInstruments : list BondInstrument.t) (s : MockAxeService.t)
    (fresh now : string) (request : CreateOrUpdateAxeRequest.t)
    (instrument : BondInstrument.t) :
  MockAxeService.findInstrument mockInstruments
    (CreateOrUpdateAxeRequest.isin request) = Some instrument →
  let o := MockAxeService.createOrUpdateAxe mockInstruments fresh now request s in
  let s' := MockAxeService.final o in
  let id := default fresh (CreateOrUpdateAxeRequest.id request) in
  ∃ axe,
    MockAxeService.result o = inr axe ∧
    Axe.id axe = id ∧
    (Axe.isin axe = BondInstrument.isin instrument ∧
     Axe.description axe = BondInstrument.description instrument ∧
     Axe.maturity axe = BondInstrument.maturity instrument ∧
     Axe.issuer axe = BondInstrument.issuer instrument) ∧
    (Axe.side axe = CreateOrUpdateAxeRequest.side request ∧
     Axe.quantity axe = CreateOrUpdateAxeRequest.quantity request) ∧
    Axe.lastUpdate axe = now ∧
    (CreateOrUpdateAxeRequest.id request = None → Axe.status axe = ACTIVE) ∧
    (id ∉ JsMap.keys (MockAxeService.axes s) →
       Axe.status axe = ACTIVE ∧
       JsMap.keys (MockAxeService.axes s') = JsMap.keys (MockAxeService.axes s) ++ [id]) ∧
    (∀ old, CreateOrUpdateAxeRequest.id request = Some id → id ≠ "" →
       JsMap.get id (MockAxeService.axes s) = Some old →
       Axe.status axe = Axe.status old ∧
       JsMap.keys (MockAxeService.axes s') = JsMap.keys (MockAxeService.axes s)) ∧
    JsMap.get id (MockAxeService.axes s') = Some axe ∧
    (∀ k, k ≠ id → JsMap.get k (MockAxeService.axes s') = JsMap.get k (MockAxeService.axes s)) ∧
    MockAxeService.listeners s' = MockAxeService.listeners s ∧
    MockAxeService.emitted o = snapshotFor s'.
Proof.
  intros Hfind o s' id. subst o s'.
  rewrite (createOrUpdateAxe_found _ _ _ _ _ _ Hfind). simpl.
  eexists. split; [reflexivity|]. simpl. fold id.
  split; [done|]. split; [done|]. split; [done|]. split; [done|].
  split. { intros ->. done. }
  split.
  { intros Hnew%JsMapFacts.get_None_keys. split.
    - rewrite Hnew. by destruct (_ && _).
    - by apply JsMapFacts.keys_set_absent. }
  split.
  { intros old Hreq Hne Hold. split.
    - rewrite Hreq. simpl. rewrite bool_decide_false by done. simpl.
      unfold JsMap.has. by rewrite Hold.
    - apply JsMapFacts.keys_set_present. by rewrite Hold. }
  split; [apply JsMapFacts.get_set_eq|].
  split; [|done].
  intros k Hk. by apply JsMapFacts.get_set_ne.
Qed.

Lemma createOrUpdate_postcondition_witness :
  ∃ axe,
    MockAxeService.result
      (MockAxeService.createOrUpdateAxe [instrument0] "generated-uuid"
         "2026-01-05T09:02:00.000Z"
         {| CreateOrUpdateAxeRequest.id := Some "a1";
            CreateOrUpdateAxeRequest.isin := "US0000000000";
            CreateOrUpdateAxeRequest.side := Offer;
            CreateOrUpdateAxeRequest.quantity := 2000000%Z |}
         service1) = inr axe ∧
    Axe.id axe = "a1" ∧ Axe.status axe = PAUSED ∧ Axe.quantity axe = 2000000%Z.
Proof.
  destruct (createOrUpdate_postcondition [instrument0] service1 "generated-uuid"
              "2026-01-05T09:02:00.000Z"
              {| CreateOrUpdateAxeRequest.id := Some "a1";
                 CreateOrUpdateAxeRequest.isin := "US0000000000";
                 CreateOrUpdateAxeRequest.side := Offer;
                 CreateOrUpdateAxeRequest.quantity := 2000000%Z |}
              instrument0 eq_refl)
    as (axe & Hres & Hid & _ & [_ Hq] & _ & _ & _ & Hupd & _).
  exists axe. split; [exact Hres|]. split; [exact Hid|].
  destruct (Hupd (withStatusAt axe1 PAUSED "2026-01-05T09:01:00.000Z")
              eq_refl ltac:(discriminate) eq_refl) as [Hst _].
  split; [exact Hst | exact Hq].
Defined.

(** A view can send an identifier the store does not know: saving the draft
    of an optimistic row does.  The store then holds two records, the one it
    created under its own identifier and the one stored under the view's. *)
Example save_of_optimistic_row_is_stored_under_its_identifier :
  let final := System.run V6.handler [instrument0] createThenSave System.mount in
  JsMap.keys (MockAxeService.axes (System.service final)) = ["s1"; "c1"] ∧
  Axe.quantity <$> View.axes (System.view final) = [1000000%Z; 2000000%Z].
Proof. vm_compute. split; reflexivity. Qed.

(** ** Snapshots reach every subscriber *)

(** After listener calls that all carry the array [xs], a subscriber that was
    called holds [xs]. *)
Lemma held_uniform (xs : list Axe.t) (ds : list Delivery)
    (before : gmap AxeListener (list Axe.t)) (l : AxeListener) :
  Forall (λ d, d.2 = xs) ds →
  l ∈ ds.*1 ∨ before !! l = Some xs →
  useBondAxes.held ds before !! l = Some xs.
Proof.
  unfold useBondAxes.held. intros Hall. revert before.
  induction Hall as [|[l' xs'] ds Hd Hall IH]; intros before Hl; simpl in *.
  - destruct Hl as [Hl|Hl]; [by apply elem_of_nil in Hl | done].
  - subst xs'. apply IH.
    destruct (decide (l' = l)) as [->|Hne].
    + right. apply lookup_insert_eq.
    + destruct Hl as [Hl|Hl].
      * apply elem_of_cons in Hl as [Hl|Hl]; [congruence | by left].
      * right. by rewrite lookup_insert_ne.
Qed.

Lemma held_snapshotFor s before l :
  l ∈ MockAxeService.listeners s →
  useBondAxes.held (snapshotFor s) before !! l =
  Some (JsMap.values (MockAxeService.axes s)).
Proof.
  intros Hl. apply held_uniform.
  - unfold snapshotFor. apply Forall_fmap, Forall_forall. done.
  - left. unfold snapshotFor. rewrite <- list_fmap_compose.
    replace (MockAxeService.listeners s) with (id <$> MockAxeService.listeners s) in Hl
      by apply list_fmap_id.
    done.
Qed.

(** The mounted view, when it is among the listeners, ends with the array of
    the broadcast as its [axes]. *)
Lemma receive_uniform (xs : list Axe.t) (ds : list Delivery) (st : View.t) :
  Forall (λ d, d.2 = xs) ds →
  System.viewListener ∈ ds.*1 ∨ View.axes st = xs →
  View.axes (System.receive ds st) = xs.
Proof.
  unfold System.receive. intros Hall. revert st.
  induction Hall as [|[l' xs'] ds Hd Hall IH]; intros st Hl; simpl in *.
  - destruct Hl as [Hl|Hl]; [by apply elem_of_nil in Hl | done].
  - subst xs'. apply IH. case_decide as Hdec.
    + by right.
    + destruct Hl as [Hl|Hl]; [|by right].
      apply elem_of_cons in Hl as [Hl|Hl]; [congruence | by left].
Qed.

Lemma receive_pendingEdits (ds : list Delivery) (st : View.t) :
  View.pendingEdits (System.receive ds st) = View.pendingEdits st.
Proof.
  unfold System.receive. revert st.
  induction ds as [|d ds IH]; intros st; simpl; [done|].
  rewrite IH. by case_decide.
Qed.

(** A status command either finds its record or it does not. *)
Ltac status_cases id s :=
  let axe := fresh "axe" in
  let Hget := fresh "Hget" in
  destruct (JsMap.get id (MockAxeService.axes s)) as [axe|] eqn:Hget;
  [ rewrite (setStatus_found _ _ _ _ _ Hget)
  | rewrite (setStatus_missing _ _ _ _ Hget) ].

(** A command that succeeds ends with one broadcast of the final array. *)
Lemma run_success mockInstruments fresh now c s :
  let o := useBondAxes.run mockInstruments fresh now c s in
  MockAxeService.result o = inr tt →
  MockAxeService.listeners (MockAxeService.final o) = MockAxeService.listeners s ∧
  MockAxeService.emitted o = snapshotFor (MockAxeService.final o).
Proof.
  destruct c as [request|id|id|id|id|id]; cbn [useBondAxes.run];
    unfold MockAxeService.pauseAxe, MockAxeService.resumeAxe,
      MockAxeService.blockAxe, MockAxeService.unblockAxe.
  - unfold MockAxeService.bind.
    destruct (MockAxeService.findInstrument mockInstruments
                (CreateOrUpdateAxeRequest.isin request)) as [instrument|] eqn:Hfind.
    + rewrite (createOrUpdateAxe_found _ _ _ _ _ _ Hfind). simpl.
      by rewrite app_nil_r.
    + by rewrite (createOrUpdateAxe_missing _ _ _ _ _ Hfind).
  - by status_cases id s.
  - by status_cases id s.
  - by status_cases id s.
  - by status_cases id s.
  - destruct (JsMap.has id (MockAxeService.axes s)) eqn:Hhas.
    + by rewrite (deleteAxe_found _ _ Hhas).
    + by rewrite (deleteAxe_missing _ _ Hhas).
Qed.

(** The commands keep the keys of the record map distinct. *)
Lemma run_keys_distinct mockInstruments fresh now c s :
  NoDup (JsMap.keys (MockAxeService.axes s)) →
  NoDup (JsMap.keys
           (MockAxeService.axes
              (MockAxeService.final (useBondAxes.run mockInstruments fresh now c s)))).
Proof.
  intros Hnd.
  destruct c as [request|id|id|id|id|id]; cbn [useBondAxes.run];
    unfold MockAxeService.pauseAxe, MockAxeService.resumeAxe,
      MockAxeService.blockAxe, MockAxeService.unblockAxe.
  - unfold MockAxeService.bind.
    destruct (MockAxeService.findInstrument mockInstruments
                (CreateOrUpdateAxeRequest.isin request)) as [instrument|] eqn:Hfind.
    + rewrite (createOrUpdateAxe_found _ _ _ _ _ _ Hfind). simpl.
      by apply JsMapFacts.NoDup_set.
    + by rewrite (createOrUpdateAxe_missing _ _ _ _ _ Hfind).
  - status_cases id s; [by apply JsMapFacts.NoDup_set | done].
  - status_cases id s; [by apply JsMapFacts.NoDup_set | done].
  - status_cases id s; [by apply JsMapFacts.NoDup_set | done].
  - status_cases id s; [by apply JsMapFacts.NoDup_set | done].
  - destruct (JsMap.has id (MockAxeService.axes s)) eqn:Hhas.
    + rewrite (deleteAxe_found _ _ Hhas). by apply JsMapFacts.NoDup_delete.
    + by rewrite (deleteAxe_missing _ _ Hhas).
Qed.

(** A delete that succeeds leaves no record under the identifier. *)
Lemma deleteAxe_removes id s :
  NoDup (JsMap.keys (MockAxeService.axes s)) →
  JsMap.get id (MockAxeService.axes (MockAxeService.final (MockAxeService.deleteAxe id s))) =
  None.
Proof.
  intros Hnd. destruct (JsMap.has id (MockAxeService.axes s)) eqn:Hhas.
  - rewrite (deleteAxe_found _ _ Hhas). by apply JsMapFacts.get_delete_eq.
  - rewrite (deleteAxe_missing _ _ Hhas). by apply JsMapFacts.has_false.
Qed.

(** C8. [subscribe] registers the listener and calls it at once, and only
    it, with the store's current array of records, before the call returns.
    Every command that succeeds calls each registered listener with the
    complete array of the records the store then holds; so whatever a
    subscriber held before, it then holds exactly that array (and so does a
    mounted view as its [axes]). *)
Theorem snapshot_broadcast_contract :
  (∀ (s : MockAxeService.t) (l : AxeListener),
     let o := MockAxeService.subscribe l s in
     MockAxeService.result o = inr tt ∧
     MockAxeService.emitted o = [(l, JsMap.values (MockAxeService.axes s))] ∧
     l ∈ MockAxeService.listeners (MockAxeService.final o) ∧
     MockAxeService.axes (MockAxeService.final o) = MockAxeService.axes s) ∧
  (∀ (mockInstruments : list BondInstrument.t) (fresh now : string) (c : Command)
     (s : MockAxeService.t),
     let o := useBondAxes.run mockInstruments fresh now c s in
     let s' := MockAxeService.final o in
     MockAxeService.result o = inr tt →
     MockAxeService.listeners s' = MockAxeService.listeners s ∧
     MockAxeService.emitted o =
       (λ l, (l, JsMap.values (MockAxeService.axes s'))) <$> MockAxeService.listeners s' ∧
     (∀ before l, l ∈ MockAxeService.listeners s' →
        useBondAxes.held (MockAxeService.emitted o) before !! l =
        Some (JsMap.values (MockAxeService.axes s'))) ∧
     (∀ st, System.viewListener ∈ MockAxeService.listeners s' →
        View.axes (System.receive (MockAxeService.emitted o) st) =
        JsMap.values (MockAxeService.axes s'))).
Proof.
  split.
  - intros s l o. subst o.
    unfold MockAxeService.subscribe, MockAxeService.bind, MockAxeService.this,
      MockAxeService.setListeners, MockAxeService.getAxesArray, MockAxeService.call,
      MockAxeService.ret. simpl.
    split_and!; try done. apply JsSetFacts_elem_of_add.
  - intros mockInstruments fresh now c s o s' Hok.
    destruct (run_success mockInstruments fresh now c s Hok) as [Hls Hem].
    fold o in Hem. fold s' in Hem, Hls.
    split; [done|]. split; [done|]. rewrite Hem. split.
    + intros before l Hl. by apply held_snapshotFor.
    + intros st Hl. apply receive_uniform.
      * unfold snapshotFor. apply Forall_fmap, Forall_forall. done.
      * left. unfold snapshotFor. rewrite <- list_fmap_compose.
        replace (MockAxeService.listeners s') with (id <$> MockAxeService.listeners s') in Hl
          by apply list_fmap_id.
        done.
Qed.

Lemma snapshot_broadcast_contract_witness :
  useBondAxes.held
    (MockAxeService.emitted
       (useBondAxes.run [instrument0] "generated-uuid" "2026-01-05T09:02:00.000Z"
          (ResumeAxe "a1") service1))
    ∅ !! System.viewListener =
  Some [withStatusAt axe1 ACTIVE "2026-01-05T09:02:00.000Z"].
Proof.
  destruct snapshot_broadcast_contract as [_ H].
  destruct (H [instrument0] "generated-uuid" "2026-01-05T09:02:00.000Z"
              (ResumeAxe "a1") service1 eq_refl) as (_ & _ & Hheld & _).
  apply (Hheld ∅ System.viewListener). vm_compute. left.
Defined.

(** ** Instrument search *)

Lemma startsWith_spec (s p : string) :
  useBondInstruments.startsWith s p = true ↔ ∃ post, s = p +:+ post.
Proof.
  revert s. induction p as [|c p IH]; intros s; simpl.
  - split; [intros _; by exists s | by destruct s].
  - destruct s as [|d s]; simpl.
    + split; [done | by intros [? ?]].
    + rewrite andb_true_iff, bool_decide_eq_true, IH. split.
      * intros [-> [post ->]]. by exists post.
      * intros [post Heq]. injection Heq as -> ->. eauto.
Qed.

Lemma includes_spec (s sub : string) :
  useBondInstruments.includes s sub = true ↔ contains s sub.
Proof.
  unfold contains. induction s as [|d s IH]; cbn [useBondInstruments.includes].
  - rewrite orb_false_r, startsWith_spec. split.
    + intros [post Heq]. by exists "", post.
    + intros (pre & post & Heq). destruct pre; simpl in Heq; [eauto | done].
  - rewrite orb_true_iff, startsWith_spec, IH. split.
    + intros [[post Heq] | (pre & post & Heq)].
      * by exists "", post.
      * exists (String d pre), post. simpl. by rewrite Heq.
    + intros (pre & post & Heq). destruct pre as [|c pre]; simpl in Heq.
      * left. eauto.
      * right. injection Heq as -> ->. eauto.
Qed.

Lemma matches_spec toLowerCase query i :
  useBondInstruments.matches toLowerCase (toLowerCase query) i = true ↔
  matchesQuery toLowerCase query i.
Proof.
  unfold useBondInstruments.matches, matchesQuery.
  by rewrite orb_true_iff, !includes_spec.
Qed.

Lemma string_app_nil (b : string) : "" +:+ b = b.
Proof. reflexivity. Qed.

Lemma string_app_cons (x : ascii) (a b : string) :
  String x a +:+ b = String x (a +:+ b).
Proof. reflexivity. Qed.

Lemma lowerUnit_code (c : ascii) :
  let n := nat_of_ascii c in
  nat_of_ascii (useBondInstruments.lowerUnit c) =
  if ((65 <=? n) && (n <=? 90)) || ((192 <=? n) && (n <=? 222) && negb (n =? 215))
  then n + 32 else n.
Proof.
  intros n. unfold useBondInstruments.lowerUnit. fold n.
  destruct (((65 <=? n) && (n <=? 90)) || ((192 <=? n) && (n <=? 222) && negb (n =? 215)))
    eqn:Hcap; [|done].
  apply nat_ascii_embedding.
  apply orb_true_iff in Hcap as [H|H].
  - apply andb_true_iff in H as [_ H%Nat.leb_le]. lia.
  - apply andb_true_iff in H as [H _]. apply andb_true_iff in H as [_ H%Nat.leb_le]. lia.
Qed.

Lemma capital_test (n : nat) :
  ((65 <=? n) && (n <=? 90)) || ((192 <=? n) && (n <=? 222) && negb (n =? 215)) = true ↔
  capital n.
Proof.
  unfold capital.
  rewrite orb_true_iff, !andb_true_iff, negb_true_iff, !Nat.leb_le, Nat.eqb_neq. tauto.
Qed.

(** Two code units have the same lower case exactly when they are the same
    letter. *)
Lemma lowerUnit_sameLetter (c d : ascii) :
  useBondInstruments.lowerUnit c = useBondInstruments.lowerUnit d ↔ sameLetter c d.
Proof.
  unfold sameLetter. cbv zeta.
  assert (Hinj : useBondInstruments.lowerUnit c = useBondInstruments.lowerUnit d ↔
                 nat_of_ascii (useBondInstruments.lowerUnit c) =
                 nat_of_ascii (useBondInstruments.lowerUnit d)).
  { split; [by intros ->|]. intros H.
    rewrite <- (ascii_nat_embedding (useBondInstruments.lowerUnit c)),
            <- (ascii_nat_embedding (useBondInstruments.lowerUnit d)). by rewrite H. }
  rewrite Hinj, !lowerUnit_code. cbv zeta.
  pose proof (capital_test (nat_of_ascii c)) as Hc.
  pose proof (capital_test (nat_of_ascii d)) as Hd.
  unfold capital in *.
  destruct (((65 <=? nat_of_ascii c) && _) || _), (((65 <=? nat_of_ascii d) && _) || _).
  all: assert (Hf : ¬ false = true) by done; lia.
Qed.

Lemma latin1LowerCase_sameLetters (s t : string) :
  useBondInstruments.latin1LowerCase s = useBondInstruments.latin1LowerCase t ↔
  sameLetters s t.
Proof.
  revert t. induction s as [|c s IH]; intros [|d t]; simpl; try done.
  rewrite <- IH, <- lowerUnit_sameLetter. split.
  - intros H. by injection H.
  - by intros [-> ->].
Qed.

Lemma latin1LowerCase_app (a b : string) :
  useBondInstruments.latin1LowerCase (a +:+ b) =
  useBondInstruments.latin1LowerCase a +:+ useBondInstruments.latin1LowerCase b.
Proof.
  induction a as [|c a IH]; [done|].
  rewrite string_app_cons. simpl. by rewrite IH, string_app_cons.
Qed.

Lemma latin1LowerCase_split (s a b : string) :
  useBondInstruments.latin1LowerCase s = a +:+ b →
  ∃ s1 s2, s = s1 +:+ s2 ∧
    useBondInstruments.latin1LowerCase s1 = a ∧
    useBondInstruments.latin1LowerCase s2 = b.
Proof.
  revert s. induction a as [|c a IH]; intros s H.
  - by exists "", s.
  - rewrite string_app_cons in H. destruct s as [|d s]; [done|]. simpl in H.
    injection H as Hc Hs. destruct (IH s Hs) as (s1 & s2 & -> & <- & <-).
    exists (String d s1), s2. rewrite string_app_cons. simpl. by rewrite Hc.
Qed.

Lemma contains_caseless (s sub : string) :
  contains (useBondInstruments.latin1LowerCase s) (useBondInstruments.latin1LowerCase sub) ↔
  containsCaseless s sub.
Proof.
  split.
  - intros (pre' & post' & H).
    apply latin1LowerCase_split in H as (pre & rest & -> & _ & H).
    apply latin1LowerCase_split in H as (mid & post & -> & H & _).
    exists pre, mid, post. split; [done|]. by apply latin1LowerCase_sameLetters.
  - intros (pre & mid & post & -> & H%latin1LowerCase_sameLetters).
    exists (useBondInstruments.latin1LowerCase pre), (useBondInstruments.latin1LowerCase post).
    by rewrite !latin1LowerCase_app, H.
Qed.

Lemma matches_caseless (query : string) (i : BondInstrument.t) :
  useBondInstruments.matches useBondInstruments.latin1LowerCase
    (useBondInstruments.latin1LowerCase query) i = true ↔
  matchesCaseless query i.
Proof.
  rewrite matches_spec. unfold matchesQuery, matchesCaseless.
  by rewrite !contains_caseless.
Qed.

(** C10. For any directory and any query: a query of fewer than 2
    characters finds nothing; any other query finds the instruments whose
    code or description contains the query (both sides lower-cased), in
    directory order, cut off after 50 entries.  With the lower-casing of the
    first 256 code units, an instrument is wanted exactly when some stretch
    of its code or of its description spells the query, a capital letter and
    its small letter counting as the same: the match is blind to case and to
    nothing else. *)
Theorem search_contract (toLowerCase : string → string)
    (instruments : list BondInstrument.t) (query : string) :
  let found := useBondInstruments.searchInstruments toLowerCase instruments query in
  let wanted := useBondInstruments.matches toLowerCase (toLowerCase query) in
  let found1 :=
    useBondInstruments.searchInstruments useBondInstruments.latin1LowerCase
      instruments query in
  let wanted1 :=
    useBondInstruments.matches useBondInstruments.latin1LowerCase
      (useBondInstruments.latin1LowerCase query) in
  (String.length query < 2 → found = []) ∧
  (2 ≤ String.length query → found = take 50 (List.filter wanted instruments)) ∧
  (∀ i, wanted i = true ↔ matchesQuery toLowerCase query i) ∧
  length found ≤ 50 ∧
  (∀ i, i ∈ found → i ∈ instruments ∧ matchesQuery toLowerCase query i) ∧
  (2 ≤ String.length query → found1 = take 50 (List.filter wanted1 instruments)) ∧
  (∀ i, wanted1 i = true ↔ matchesCaseless query i) ∧
  (∀ i, i ∈ found1 → i ∈ instruments ∧ matchesCaseless query i).
Proof.
  assert (Hgen : ∀ toLowerCase,
    let found := useBondInstruments.searchInstruments toLowerCase instruments query in
    let wanted := useBondInstruments.matches toLowerCase (toLowerCase query) in
    (String.length query < 2 → found = []) ∧
    (2 ≤ String.length query → found = take 50 (List.filter wanted instruments)) ∧
    (∀ i, wanted i = true ↔ matchesQuery toLowerCase query i) ∧
    length found ≤ 50 ∧
    (∀ i, i ∈ found → i ∈ instruments ∧ matchesQuery toLowerCase query i)).
  { clear toLowerCase. intros toLowerCase found wanted.
    assert (Hlong : 2 ≤ String.length query →
      found = take 50 (List.filter wanted instruments)).
    { intros Hlen. unfold found, useBondInstruments.searchInstruments.
      case_bool_decide as Hempty; [subst query; simpl in Hlen; lia|].
      destruct (String.length query <? 2) eqn:Hltb; simpl; [|done].
      apply Nat.ltb_lt in Hltb. lia. }
    assert (Hshort : String.length query < 2 → found = []).
    { intros Hlen. unfold found, useBondInstruments.searchInstruments.
      apply Nat.ltb_lt in Hlen. rewrite Hlen. by rewrite orb_true_r. }
    split; [done|]. split; [done|]. split; [intros i; apply matches_spec|].
    destruct (decide (String.length query < 2)) as [Hlt|Hge].
    - rewrite (Hshort Hlt). split; [simpl; lia|]. by intros i ?%elem_of_nil.
    - rewrite Hlong by lia. split.
      + rewrite length_take. lia.
      + intros i Hi%subseteq_take. apply list_elem_of_In, filter_In in Hi as [Hin Hw].
        split; [by apply list_elem_of_In | by apply matches_spec]. }
  intros found wanted found1 wanted1.
  destruct (Hgen toLowerCase) as (H1 & H2 & H3 & H4 & H5).
  destruct (Hgen useBondInstruments.latin1LowerCase) as (_ & L2 & _ & _ & L5).
  split_and!; try done.
  - intros i. apply matches_caseless.
  - intros i Hi. destruct (L5 i Hi) as [Hin Hm]. split; [done|].
    by apply matches_caseless, matches_spec.
Qed.

Example search_one_character :
  useBondInstruments.searchInstruments useBondInstruments.latin1LowerCase [instrument0] "U" = [].
Proof. reflexivity. Qed.

Example search_by_description :
  useBondInstruments.searchInstruments useBondInstruments.latin1LowerCase [instrument0]
    "TREASURY" = [instrument0].
Proof. reflexivity. Qed.

(** ** The rendered rows *)

Lemma withSideQuantity_same (a : Axe.t) :
  withSideQuantity a (Axe.side a) (Axe.quantity a) = a.
Proof. by destruct a. Qed.

(** C1. Row [i] of the rendered list is record [i] of the local snapshot with
    the side and the quantity of its Pending Edit laid over it: a drafted
    field shows the draft's value, an undrafted field and every other
    attribute the record's own; a record without a Pending Edit is rendered
    unchanged (V6 adds its [_isNew: false] mark).  This holds in every state;
    once the draft is reverted the row is the record again.  The rendered
    list has one row per record, in the order of the snapshot. *)
Theorem merge_precedence (st : View.t) (i : nat) (a : Axe.t) :
  View.axes st !! i = Some a →
  let draft := View.pendingEdits st !! Axe.id a in
  let side := default (Axe.side a) (draft ≫= PendingEdit.side) in
  let quantity := default (Axe.quantity a) (draft ≫= PendingEdit.quantity) in
  let row := {|
    Axe.id := Axe.id a;
    Axe.isin := Axe.isin a;
    Axe.description := Axe.description a;
    Axe.maturity := Axe.maturity a;
    Axe.issuer := Axe.issuer a;
    Axe.side := side;
    Axe.quantity := quantity;
    Axe.status := Axe.status a;
    Axe.lastUpdate := Axe.lastUpdate a |} in
  V4.displayData st !! i = Some row ∧
  V6.rowData st !! i = Some {| AxeRow.axe := row; AxeRow._isNew := Some false |} ∧
  (draft = None → row = a) ∧
  (∀ edits s, draft = Some edits → PendingEdit.side edits = Some s → side = s) ∧
  (∀ edits q, draft = Some edits → PendingEdit.quantity edits = Some q → quantity = q) ∧
  (∀ edits, draft = Some edits → PendingEdit.side edits = None → side = Axe.side a) ∧
  (∀ edits, draft = Some edits → PendingEdit.quantity edits = None →
     quantity = Axe.quantity a) ∧
  V4.displayData (update (V4.handleRevertRow a) st) !! i = Some a ∧
  AxeRow.axe <$> V6.rowData (update (V6.handleRevertRow a) st) !! i = Some a ∧
  length (V4.displayData st) = length (View.axes st) ∧
  length (V6.rowData st) = length (View.axes st).
Proof.
  intros Hi draft side quantity row. subst row side quantity.
  unfold V4.displayData, V6.rowData. rewrite !list_lookup_fmap, !length_fmap.
  split_and!; [..|done|done].
  - rewrite Hi. simpl. fold draft. destruct draft as [edits|]; simpl; [done|].
    by destruct a.
  - rewrite Hi. simpl. by fold draft.
  - intros ->. simpl. by destruct a.
  - intros edits s -> Hs. simpl. by rewrite Hs.
  - intros edits q -> Hq. simpl. by rewrite Hq.
  - intros edits -> Hs. simpl. by rewrite Hs.
  - intros edits -> Hq. simpl. by rewrite Hq.
  - simpl. rewrite Hi. simpl. by rewrite lookup_delete_eq.
  - simpl. rewrite Hi. simpl. rewrite lookup_delete_eq. simpl.
    by rewrite withSideQuantity_same.
Qed.

(** Scenario B: the quantity of [axe1] is drafted to 2000000; the row shows
    the draft's quantity and the record's side. *)
Lemma merge_precedence_witness :
  let row := {|
    Axe.id := "a1";
    Axe.isin := "US0000000000";
    Axe.description := "US Treasury 0.250% 2026 Senior Unsecured";
    Axe.maturity := "2026-01-01";
    Axe.issuer := "US Treasury";
    Axe.side := Bid;
    Axe.quantity := 2000000%Z;
    Axe.status := ACTIVE;
    Axe.lastUpdate := "2026-01-05T09:00:00.000Z" |} in
  V4.displayData view1 !! 0 = Some row ∧
  V6.rowData view1 !! 0 = Some {| AxeRow.axe := row; AxeRow._isNew := Some false |} ∧
  Axe.quantity <$> V4.displayData view1 !! 0 = Some 2000000%Z ∧
  Axe.quantity <$> (AxeRow.axe <$> V6.rowData view1 !! 0) = Some 2000000%Z.
Proof.
  intros row.
  destruct (merge_precedence view1 0 axe1 eq_refl) as (H4 & H6 & _).
  split; [exact H4|]. split; [exact H6|]. by rewrite H4, H6.
Defined.

(** ** Staging a cell edit *)

Lemma stageEdit_other id serverAxe c prev k :
  k ≠ id → stageEdit id serverAxe c prev !! k = prev !! k.
Proof.
  intros Hk. unfold stageEdit. destruct (_ && _).
  - by rewrite lookup_delete_ne.
  - by rewrite lookup_insert_ne.
Qed.





(** ** Saving a row *)

Lemma findAxe_Some (id : string) (axes : list Axe.t) (a : Axe.t) :
  findAxe id axes = Some a → Axe.id a = id ∧ a ∈ axes.
Proof.
  unfold findAxe. intros H. apply find_some in H as [Hin Hid].
  apply bool_decide_eq_true in Hid. split; [done|]. by apply list_elem_of_In.
Qed.

Lemma ids_mapById (id : string) (f : Axe.t → Axe.t) (l : list Axe.t) :
  (∀ a, Axe.id (f a) = Axe.id a) →
  Axe.id <$> mapById id f l = Axe.id <$> l.
Proof.
  intros Hf. unfold mapById. rewrite <- list_fmap_compose.
  apply list_fmap_ext. intros i a _. simpl. by case_bool_decide.
Qed.

Lemma mapById_Forall2 (R : Axe.t → Axe.t → Prop) (id : string) (f : Axe.t → Axe.t)
    (l : list Axe.t) :
  (∀ a, a ∈ l → R a (if bool_decide (Axe.id a = id) then f a else a)) →
  Forall2 R l (mapById id f l).
Proof.
  intros H. unfold mapById. apply Forall2_fmap_r, Forall_Forall2_diag, Forall_forall.
  intros a Ha. by apply H.
Qed.

Lemma findAxe_None (id : string) (axes : list Axe.t) (a : Axe.t) :
  findAxe id axes = None → a ∈ axes → Axe.id a ≠ id.
Proof.
  unfold findAxe. intros Hfind Ha%list_elem_of_In.
  apply (find_none _ _ Hfind) in Ha. by apply bool_decide_eq_false in Ha.
Qed.

(** C5, amended.  Save on a row that has a Pending Edit.  When the record of
    that identifier is in the local snapshot: exactly one update command is
    issued, carrying the identifier, the record's instrument code, and side
    and quantity taken from the draft where it has them and from the record
    otherwise; every local record of that identifier gets that side and
    quantity and the time of the call as its last update, its other fields
    and every other record staying as they were; and the Pending Edit of that
    identifier is gone from the state the handler leaves, before the command
    settles, no other entry changing.  V6 does so whatever row it is handed;
    V4 does so when the row it is handed shows the record's instrument code
    and, for side and quantity, the record's value or the drafted one (the
    record as it is, or as rendered).  When the record is not in the local
    snapshot, V6 issues nothing and changes nothing, so the Pending Edit
    stays; V4 issues the command with the fields of the row it was handed in
    place of the record's, and removes the entry. *)
Theorem save_row_protocol (st : View.t) (now : string) (axe : Axe.t)
    (edits : PendingEdit.t) :
  View.pendingEdits st !! Axe.id axe = Some edits →
  let id := Axe.id axe in
  let saved (confirmed : Axe.t) (e : Effect) :=
    let side := default (Axe.side confirmed) (PendingEdit.side edits) in
    let quantity := default (Axe.quantity confirmed) (PendingEdit.quantity edits) in
    (∃ p, issued e = [p] ∧
       command p = CreateOrUpdateAxe {|
         CreateOrUpdateAxeRequest.id := Some id;
         CreateOrUpdateAxeRequest.isin := Axe.isin confirmed;
         CreateOrUpdateAxeRequest.side := side;
         CreateOrUpdateAxeRequest.quantity := quantity |}) ∧
    Forall2
      (λ before after,
         if bool_decide (Axe.id before = id)
         then sameButDraftable before after ∧
              Axe.side after = side ∧
              Axe.quantity after = quantity ∧
              Axe.lastUpdate after = now
         else after = before)
      (View.axes st) (View.axes (update e st)) ∧
    View.pendingEdits (update e st) !! id = None ∧
    (∀ k, k ≠ id → View.pendingEdits (update e st) !! k = View.pendingEdits st !! k) ∧
    View.pinnedRow (update e st) = View.pinnedRow st ∧
    View.notifications (update e st) = View.notifications st in
  (∀ serverAxe, findAxe id (View.axes st) = Some serverAxe →
     saved serverAxe (V6.handleSaveRow st now axe) ∧
     (Axe.isin axe = Axe.isin serverAxe →
      Axe.side axe = Axe.side serverAxe ∨
        Axe.side axe = default (Axe.side serverAxe) (PendingEdit.side edits) →
      Axe.quantity axe = Axe.quantity serverAxe ∨
        Axe.quantity axe = default (Axe.quantity serverAxe) (PendingEdit.quantity edits) →
      saved serverAxe (V4.handleSaveRow st now axe))) ∧
  (findAxe id (View.axes st) = None →
     issued (V6.handleSaveRow st now axe) = [] ∧
     update (V6.handleSaveRow st now axe) st = st ∧
     View.pendingEdits (update (V6.handleSaveRow st now axe) st) !! id = Some edits ∧
     saved axe (V4.handleSaveRow st now axe) ∧
     View.axes (update (V4.handleSaveRow st now axe) st) = View.axes st).
Proof.
  intros Hedits id saved.
  change (View.pendingEdits st !! id = Some edits) in Hedits.
  assert (Hsaved : ∀ confirmed,
            saved confirmed
              {| update := λ s,
                   View.setPendingEdits (delete id)
                     (View.setAxes
                        (mapById id
                           (λ a, withSideQuantityAt a
                                   (default (Axe.side confirmed) (PendingEdit.side edits))
                                   (default (Axe.quantity confirmed)
                                      (PendingEdit.quantity edits)) now)) s);
                 issued := [ {|
                   command := CreateOrUpdateAxe {|
                     CreateOrUpdateAxeRequest.id := Some id;
                     CreateOrUpdateAxeRequest.isin := Axe.isin confirmed;
                     CreateOrUpdateAxeRequest.side :=
                       default (Axe.side confirmed) (PendingEdit.side edits);
                     CreateOrUpdateAxeRequest.quantity :=
                       default (Axe.quantity confirmed) (PendingEdit.quantity edits) |};
                   onFulfilled := View.show (success "Axe updated");
                   onRejected := λ msg,
                     View.show (failure (orElse msg "Failed to update")) |} ] |}).
  { intros confirmed. subst saved. cbv beta zeta. cbn [update issued command].
    split_and!.
    - eexists. split; reflexivity.
    - cbn [View.setPendingEdits View.setAxes View.axes].
      apply mapById_Forall2. intros a _. by case_bool_decide.
    - apply lookup_delete_eq.
    - intros k Hk. by apply lookup_delete_ne.
    - done.
    - done. }
  assert (Hsaved4 : ∀ confirmed,
            saved confirmed
              {| update := λ s,
                   View.setPendingEdits (delete id)
                     (View.setAxes
                        (mapById id
                           (λ a, withSideQuantityAt a
                                   (default (Axe.side confirmed) (PendingEdit.side edits))
                                   (default (Axe.quantity confirmed)
                                      (PendingEdit.quantity edits)) now)) s);
                 issued := [ {|
                   command := CreateOrUpdateAxe {|
                     CreateOrUpdateAxeRequest.id := Some id;
                     CreateOrUpdateAxeRequest.isin := Axe.isin confirmed;
                     CreateOrUpdateAxeRequest.side :=
                       default (Axe.side confirmed) (PendingEdit.side edits);
                     CreateOrUpdateAxeRequest.quantity :=
                       default (Axe.quantity confirmed) (PendingEdit.quantity edits) |};
                   onFulfilled := View.show (success "Axe updated");
                   onRejected := λ msg,
                     View.show (failure (orElse msg "Failed to update axe")) |} ] |}).
  { intros confirmed. destruct (Hsaved confirmed) as ([p [Hp Hc]] & H). split; [|exact H].
    eexists. split; reflexivity. }
  split.
  - intros serverAxe Hfind. split.
    + unfold V6.handleSaveRow. fold id. rewrite Hedits, Hfind. apply Hsaved.
    + intros Hisin Hside Hqty.
      assert (default (Axe.side axe) (PendingEdit.side edits) =
              default (Axe.side serverAxe) (PendingEdit.side edits)) as Hs.
      { destruct (PendingEdit.side edits); [done|]. simpl in *. by destruct Hside. }
      assert (default (Axe.quantity axe) (PendingEdit.quantity edits) =
              default (Axe.quantity serverAxe) (PendingEdit.quantity edits)) as Hq.
      { destruct (PendingEdit.quantity edits); [done|]. simpl in *. by destruct Hqty. }
      unfold V4.handleSaveRow. fold id. rewrite Hedits. cbv zeta.
      rewrite Hisin, Hs, Hq. apply Hsaved4.
  - intros Hfind.
    assert (Hsame : mapById id
              (λ a, withSideQuantityAt a
                      (default (Axe.side axe) (PendingEdit.side edits))
                      (default (Axe.quantity axe) (PendingEdit.quantity edits)) now)
              (View.axes st) = View.axes st).
    { rewrite <- (list_fmap_id (View.axes st)) at 2. unfold mapById.
      apply list_fmap_ext. intros i a Ha%list_elem_of_lookup_2.
      rewrite bool_decide_eq_false_2; [done|]. by apply (findAxe_None _ _ _ Hfind). }
    unfold V6.handleSaveRow, V4.handleSaveRow. fold id. rewrite Hedits, Hfind. cbv zeta.
    split; [done|]. split; [done|]. split; [done|]. split; [apply Hsaved4|].
    cbn [update View.setPendingEdits View.setAxes View.axes]. exact Hsame.
Qed.

(** Scenario B, saved: the draft of [axe1] (quantity 2000000) is committed
    from V6 with the record, and from V4 with the rendered row. *)
Lemma save_row_protocol_witness :
  let now := "2026-01-05T09:03:00.000Z" in
  let rendered := {|
    Axe.id := "a1";
    Axe.isin := "US0000000000";
    Axe.description := "US Treasury 0.250% 2026 Senior Unsecured";
    Axe.maturity := "2026-01-01";
    Axe.issuer := "US Treasury";
    Axe.side := Bid;
    Axe.quantity := 2000000%Z;
    Axe.status := ACTIVE;
    Axe.lastUpdate := "2026-01-05T09:00:00.000Z" |} in
  let saved (e : Effect) :=
    (∃ p, issued e = [p] ∧
       command p = CreateOrUpdateAxe {|
         CreateOrUpdateAxeRequest.id := Some "a1";
         CreateOrUpdateAxeRequest.isin := "US0000000000";
         CreateOrUpdateAxeRequest.side := Bid;
         CreateOrUpdateAxeRequest.quantity := 2000000%Z |}) ∧
    (∃ a, View.axes (update e view1) = [a] ∧
       (Axe.id a, Axe.side a, Axe.quantity a, Axe.status a, Axe.lastUpdate a) =
       ("a1", Bid, 2000000%Z, ACTIVE, now)) ∧
    View.pendingEdits (update e view1) !! "a1" = None in
  saved (V6.handleSaveRow view1 now axe1) ∧ saved (V4.handleSaveRow view1 now rendered).
Proof.
  intros now rendered saved.
  assert (Hread : ∀ e,
    Forall2
      (λ before after,
         if bool_decide (Axe.id before = "a1")
         then sameButDraftable before after ∧
              Axe.side after = Bid ∧
              Axe.quantity after = 2000000%Z ∧
              Axe.lastUpdate after = now
         else after = before)
      [axe1] (View.axes (update e view1)) →
    ∃ a, View.axes (update e view1) = [a] ∧
      (Axe.id a, Axe.side a, Axe.quantity a, Axe.status a, Axe.lastUpdate a) =
      ("a1", Bid, 2000000%Z, ACTIVE, now)).
  { intros e H. apply Forall2_cons_inv_l in H as (a & rest & Ha & Hnil & ->).
    apply Forall2_nil_inv_l in Hnil as ->. exists a. split; [done|].
    change (bool_decide (Axe.id axe1 = "a1")) with true in Ha.
    destruct Ha as ((-> & _ & _ & _ & _ & ->) & -> & -> & ->). done. }
  split.
  - destruct (save_row_protocol view1 now axe1
                {| PendingEdit.side := None; PendingEdit.quantity := Some 2000000%Z |}
                eq_refl) as [Hfound _].
    destruct (Hfound axe1 eq_refl) as [(Hp & Haxes & Hpe & _) _].
    split; [exact Hp|]. split; [by apply Hread | exact Hpe].
  - destruct (save_row_protocol view1 now rendered
                {| PendingEdit.side := None; PendingEdit.quantity := Some 2000000%Z |}
                eq_refl) as [Hfound _].
    destruct (Hfound axe1 eq_refl) as [_ H4].
    destruct (H4 eq_refl (or_introl eq_refl) (or_intror eq_refl))
      as (Hp & Haxes & Hpe & _).
    split; [exact Hp|]. split; [by apply Hread | exact Hpe].
Defined.

(** C5, counterexample.  After [createThenEdit] the view holds a draft keyed
    by "c1" while its snapshot holds the store's record "s1" only; V6's save
    of that row finds no record, issues nothing and leaves the draft. *)
Lemma save_without_record_keeps_draft : ¬ save_consumes_every_draft.
Proof.
  intros H.
  specialize (H createThenEdit "2026-01-05T09:00:02.000Z" {|
    Axe.id := "c1";
    Axe.isin := "US0000000000";
    Axe.description := "US Treasury 0.250% 2026 Senior Unsecured";
    Axe.maturity := "2026-01-01";
    Axe.issuer := "US Treasury";
    Axe.side := Bid;
    Axe.quantity := 2000000%Z;
    Axe.status := ACTIVE;
    Axe.lastUpdate := "2026-01-05T09:00:01.000Z" |}).
  cbv zeta in H. destruct H as [(p & request & Hissued & _) _].
  - exists {| PendingEdit.side := None; PendingEdit.quantity := Some 2000000%Z |}.
    vm_compute. reflexivity.
  - vm_compute in Hissued. discriminate Hissued.
Qed.

(** ** Rejected commands *)

Lemma removeById_spec (id : string) (l : list Axe.t) (a : Axe.t) :
  a ∈ removeById id l ↔ a ∈ l ∧ Axe.id a ≠ id.
Proof.
  unfold removeById. rewrite !list_elem_of_In, filter_In, negb_true_iff.
  by rewrite bool_decide_eq_false.
Qed.

Lemma removeById_ids (id : string) (l : list Axe.t) :
  id ∉ Axe.id <$> removeById id l.
Proof.
  intros (a & Hid & Ha)%list_elem_of_fmap.
  apply removeById_spec in Ha as [_ Hne]. congruence.
Qed.

(** C3, counterexample.  A view renders [axe1]; the user deletes it and the
    store rejects the command: the rendered list stays empty. *)
Lemma rejected_delete_is_not_rolled_back : ¬ delete_is_rolled_back.
Proof.
  intros H.
  pose (st := {| View.axes := [axe1]; View.pendingEdits := ∅;
                 View.pinnedRow := DEFAULT_PINNED_ROW; View.notifications := [] |}).
  pose (p := {| command := DeleteAxe "a1";
                onFulfilled := View.show (success "Axe deleted");
                onRejected := λ msg, View.show (failure msg) |}).
  assert (Hin : axe1 ∈ V4.displayData st) by (vm_compute; left).
  assert (Hp : p ∈ issued (V4.handleDelete axe1)) by left.
  specialize (H st axe1 "Axe not found: a1" p Hin Hp).
  change (axe1 ∈ @nil Axe.t) in H.
  by apply elem_of_nil in H.
Qed.

(** C3, amended.  Delete: the handler removes the record and issues one
    delete command; when the store rejects it, the only thing done is to show
    the error, so the local snapshot and the rendered list stay as they were
    at that moment and nothing puts the record back.  Create from the pinned
    row (with an instrument selected and a quantity of at least 1): the
    handler puts the optimistic record first and issues one create command;
    when the store rejects it, the error is shown and every record carrying
    the optimistic identifier is removed, the other records staying in
    order. *)
Theorem rollback_on_rejection :
  (∀ (st : View.t) (axe : Axe.t),
     let e := V4.handleDelete axe in
     (Axe.id axe ∉ View.ids (update e st)) ∧
     ∃ p, issued e = [p] ∧ command p = DeleteAxe (Axe.id axe) ∧
       ∀ msg st',
         View.axes (onRejected p msg st') = View.axes st' ∧
         View.pendingEdits (onRejected p msg st') = View.pendingEdits st' ∧
         V4.displayData (onRejected p msg st') = V4.displayData st' ∧
         View.notifications (onRejected p msg st') =
           View.notifications st' ++ [failure msg]) ∧
  (∀ (st : View.t) (newId now : string) (quantity : Z),
     PinnedRow.isin (View.pinnedRow st) ≠ "" →
     PinnedRow.quantity (View.pinnedRow st) = Some quantity →
     (1 ≤ quantity)%Z →
     let e := V6.handleCreatePinned st newId now in
     (∃ optimisticAxe, View.axes (update e st) = optimisticAxe :: View.axes st ∧
        Axe.id optimisticAxe = newId ∧ Axe.status optimisticAxe = ACTIVE) ∧
     ∃ p, issued e = [p] ∧
       (∃ request, command p = CreateOrUpdateAxe request ∧
          CreateOrUpdateAxeRequest.id request = None) ∧
       ∀ msg st',
         View.axes (onRejected p msg st') = removeById newId (View.axes st') ∧
         (newId ∉ View.ids (onRejected p msg st')) ∧
         (∀ a, a ∈ View.axes (onRejected p msg st') ↔ a ∈ View.axes st' ∧ Axe.id a ≠ newId) ∧
         View.notifications (onRejected p msg st') =
           View.notifications st' ++ [failure (orElse msg "Failed to create axe")]).
Proof.
  split.
  - intros st axe e. split.
    + apply removeById_ids.
    + eexists. split; [reflexivity|]. split; [reflexivity|]. done.
  - intros st newId now quantity Hisin Hqty Hge e. subst e.
    unfold V6.handleCreatePinned. rewrite bool_decide_false by done.
    rewrite Hqty. destruct (Z.ltb_spec quantity 1) as [?|_]; [lia|].
    simpl. split.
    + eexists. split; [reflexivity|]. done.
    + eexists. split; [reflexivity|]. split.
      * eexists. split; reflexivity.
      * intros msg st'. simpl. split_and!; try done.
        -- apply removeById_ids.
        -- intros a. apply removeById_spec.
Qed.

Lemma rollback_on_rejection_witness :
  ∃ p,
    issued (V6.handleCreatePinned view2 "c1" "2026-01-05T09:00:00.000Z") = [p] ∧
    ∀ msg st', "c1" ∉ View.ids (onRejected p msg st').
Proof.
  destruct rollback_on_rejection as [_ H].
  destruct (H view2 "c1" "2026-01-05T09:00:00.000Z" 1000000%Z
              ltac:(discriminate) eq_refl ltac:(lia)) as (_ & p & Hp & _ & Hrej).
  exists p. split; [exact Hp|]. intros msg st'. apply (Hrej msg st').
Defined.

(** ** Pending Edits and the local snapshot *)

Lemma draftsWithin_spec pendingEdits ids :
  draftsWithin pendingEdits ids = true ↔
  ∀ id, is_Some (pendingEdits !! id) → id ∈ ids.
Proof.
  unfold draftsWithin. rewrite forallb_forall. split.
  - intros H id [x Hx]. eapply bool_decide_eq_true_1, H, list_elem_of_In.
    apply list_elem_of_fmap. exists (id, x). split; [done|].
    by apply elem_of_map_to_list.
  - intros H id Hin%list_elem_of_In. apply bool_decide_eq_true_2, H.
    apply list_elem_of_fmap in Hin as ([k x] & -> & Hkx).
    apply elem_of_map_to_list in Hkx. simpl. eauto.
Qed.

(** C6, counterexample.  The broadcast of the settled create replaces the
    snapshot by the store's one record, which carries the store's identifier
    "s1"; the draft keyed by the view's identifier "c1" stays. *)
Lemma draft_outlives_optimistic_row : ¬ drafts_always_confirmed.
Proof.
  intros H. specialize (H createThenEdit "c1").
  assert (Hdraft : View.pendingEdits
            (System.view (System.run V6.handler [instrument0] createThenEdit System.mount))
            !! "c1" =
          Some {| PendingEdit.side := None; PendingEdit.quantity := Some 2000000%Z |})
    by (vm_compute; reflexivity).
  assert (Hids : View.ids
            (System.view (System.run V6.handler [instrument0] createThenEdit System.mount)) =
          ["s1"]) by (vm_compute; reflexivity).
  rewrite Hdraft, Hids in H.
  specialize (H (mk_is_Some _ _ eq_refl)).
  apply list_elem_of_singleton in H. discriminate H.
Qed.

Lemma tame_nothing : tame nothing.
Proof. split; [done | constructor]. Qed.

Lemma tame_andThen e1 e2 : tame e1 → tame e2 → tame (andThen e1 e2).
Proof.
  intros [H1 Q1] [H2 Q2]. split; simpl.
  - intros s Hs. by apply H2, H1.
  - by apply Forall_app.
Qed.

Lemma drafts_confirmed_delete id s :
  drafts_confirmed s → drafts_confirmed (View.setPendingEdits (delete id) s).
Proof.
  intros Hs k [x Hx]. simpl in Hx. apply lookup_delete_Some in Hx as [_ Hx].
  apply Hs. eauto.
Qed.

Lemma drafts_confirmed_setAxes f s :
  (∀ k, k ∈ View.ids s → k ∈ Axe.id <$> f (View.axes s)) →
  drafts_confirmed s → drafts_confirmed (View.setAxes f s).
Proof. intros Hf Hs k Hk. apply Hf, Hs, Hk. Qed.

Lemma ids_removeById_ne (id k : string) (l : list Axe.t) :
  k ≠ id → k ∈ Axe.id <$> l → k ∈ Axe.id <$> removeById id l.
Proof.
  intros Hk (a & -> & Ha)%list_elem_of_fmap. apply list_elem_of_fmap.
  exists a. split; [done|]. by apply removeById_spec.
Qed.

Lemma tame_pauseResume now axe : tame (pauseResume now axe).
Proof.
  split.
  - intros s. apply drafts_confirmed_setAxes. intros k Hk.
    unfold View.ids in Hk. by rewrite ids_mapById.
  - repeat constructor.
Qed.

Lemma tame_blockUnblock now axe : tame (blockUnblock now axe).
Proof.
  split.
  - intros s. apply drafts_confirmed_setAxes. intros k Hk.
    unfold View.ids in Hk. by rewrite ids_mapById.
  - repeat constructor.
Qed.

Lemma tame_deleteRow axe : tame (deleteRow axe).
Proof.
  split.
  - intros s Hs k [x Hx]. simpl in *.
    apply lookup_delete_Some in Hx as [Hne Hx].
    apply ids_removeById_ne; [done|]. apply Hs. eauto.
  - repeat constructor.
Qed.

Lemma tame_revertRow id :
  tame {| update := View.setPendingEdits (delete id); issued := [] |}.
Proof. split; [apply drafts_confirmed_delete | constructor]. Qed.

Lemma tame_revertAll :
  tame {| update := View.setPendingEdits (λ _, ∅); issued := [] |}.
Proof.
  split; [|constructor]. intros s _ k [x Hx]. simpl in Hx.
  by rewrite lookup_empty in Hx.
Qed.

Lemma tame_setPinnedRow f :
  tame {| update := View.setPinnedRow f; issued := [] |}.
Proof. split; [done | constructor]. Qed.

Lemma tame_show n : tame {| update := View.show n; issued := [] |}.
Proof. split; [done | constructor]. Qed.

Lemma tame_V4_handleSaveRow st now axe : tame (V4.handleSaveRow st now axe).
Proof.
  unfold V4.handleSaveRow. destruct (View.pendingEdits st !! Axe.id axe);
    [|apply tame_nothing].
  split; [|repeat constructor].
  intros s Hs. simpl. apply drafts_confirmed_delete.
  revert Hs. apply drafts_confirmed_setAxes. intros k Hk.
  unfold View.ids in Hk. by rewrite ids_mapById.
Qed.

Lemma tame_V6_handleSaveRow st now axe : tame (V6.handleSaveRow st now axe).
Proof.
  unfold V6.handleSaveRow. destruct (View.pendingEdits st !! Axe.id axe);
    [|apply tame_nothing].
  destruct (findAxe (Axe.id axe) (View.axes st)); [|apply tame_nothing].
  split; [|repeat constructor].
  intros s Hs. simpl. apply drafts_confirmed_delete.
  revert Hs. apply drafts_confirmed_setAxes. intros k Hk.
  unfold View.ids in Hk. by rewrite ids_mapById.
Qed.

Lemma tame_saveAll (save : Axe.t → Effect) (axes : list Axe.t) (keys : list string)
    (acc : Effect) :
  (∀ axe, tame (save axe)) → tame acc →
  tame (foldl
          (λ acc axeId,
             match findAxe axeId axes with
             | Some axe => andThen acc (save axe)
             | None => acc
             end) acc keys).
Proof.
  intros Hsave. revert acc. induction keys as [|k keys IH]; intros acc Hacc; simpl.
  - done.
  - apply IH. destruct (findAxe k axes); [|done]. by apply tame_andThen.
Qed.

Lemma tame_V6_handleCreatePinned st newId now : tame (V6.handleCreatePinned st newId now).
Proof.
  unfold V6.handleCreatePinned. case_bool_decide; [apply tame_show|].
  destruct (PinnedRow.quantity (View.pinnedRow st)) as [quantity|]; [|apply tame_show].
  destruct (quantity <? 1)%Z; [apply tame_show|].
  apply tame_andThen; [|apply tame_setPinnedRow].
  split; [|repeat constructor].
  intros s. apply drafts_confirmed_setAxes. intros k Hk. simpl. by right.
Qed.

(** A staged cell edit keeps the invariant in the state it was rendered
    from: the row it drafts was found in that state's snapshot. *)
Lemma drafts_confirmed_stageEdit st id serverAxe c :
  findAxe id (View.axes st) = Some serverAxe →
  drafts_confirmed st →
  drafts_confirmed (View.setPendingEdits (stageEdit id serverAxe c) st).
Proof.
  intros Hfind Hs k Hk. simpl in Hk. change (k ∈ View.ids st).
  destruct (decide (k = id)) as [->|Hne].
  - apply findAxe_Some in Hfind as [<- Hin]. unfold View.ids.
    apply list_elem_of_fmap. eauto.
  - rewrite stageEdit_other in Hk by done. by apply Hs.
Qed.

Lemma V4_handler_keeps st now i :
  drafts_confirmed st → drafts_confirmed (update (V4.handler st now i) st).
Proof.
  intros Hs. destruct i as [event|axe|axe|axe|axe|axe|isin side quantity| |]; simpl.
  - unfold V4.onCellValueChanged.
    destruct (CellValueChangedEvent.data event) as [axe|]; [|done].
    destruct (CellValueChangedEvent.change event); try done;
      (destruct (findAxe (Axe.id axe) (View.axes st)) eqn:Hfind; [|done]);
      by apply drafts_confirmed_stageEdit.
  - by apply tame_V4_handleSaveRow.
  - by apply drafts_confirmed_delete.
  - by apply tame_pauseResume.
  - by apply tame_blockUnblock.
  - by apply tame_deleteRow.
  - done.
  - apply tame_saveAll; [apply tame_V4_handleSaveRow | apply tame_nothing | done].
  - by apply tame_revertAll.
Qed.

Lemma V4_handler_quiet st now i : Forall quiet (issued (V4.handler st now i)).
Proof.
  destruct i as [event|axe|axe|axe|axe|axe|isin side quantity| |];
    cbn [V4.handler V4.handlePauseResume V4.handleBlockUnblock V4.handleDelete].
  - unfold V4.onCellValueChanged.
    destruct (CellValueChangedEvent.data event) as [axe|]; [|constructor].
    destruct (CellValueChangedEvent.change event); try constructor;
      destruct (findAxe (Axe.id axe) (View.axes st)); constructor.
  - apply tame_V4_handleSaveRow.
  - apply tame_revertRow.
  - apply tame_pauseResume.
  - apply tame_blockUnblock.
  - apply tame_deleteRow.
  - repeat constructor.
  - apply tame_saveAll; [apply tame_V4_handleSaveRow | apply tame_nothing].
  - apply tame_revertAll.
Qed.

Lemma tame_V6_pinnedEdit st event :
  CellValueChangedEvent.rowPinned event = true →
  tame (V6.onCellValueChanged st event).
Proof.
  intros Hpinned. unfold V6.onCellValueChanged. rewrite Hpinned.
  destruct (CellValueChangedEvent.data event) as [axe|]; [|apply tame_nothing].
  destruct (CellValueChangedEvent.change event) as [v|v|field [v|]|];
    try apply tame_nothing; try apply tame_setPinnedRow.
  case_bool_decide; [apply tame_nothing | apply tame_setPinnedRow].
Qed.

Lemma tame_V6_updatePinnedRowInstrument rowId instrument :
  tame (V6.updatePinnedRowInstrument rowId instrument).
Proof.
  unfold V6.updatePinnedRowInstrument.
  destruct rowId as [r|]; simpl; [destruct (_ && _)|];
    first [apply tame_nothing | apply tame_setPinnedRow].
Qed.

Lemma V6_handler_keeps st now i :
  drafts_confirmed st → drafts_confirmed (update (V6.handler st now i) st).
Proof.
  intros Hs.
  destruct i as [event|axe|axe|axe|axe|axe|rowId instrument|newId| | |];
    cbn [V6.handler V6.handlePauseResume V6.handleBlockUnblock V6.handleDelete
         V6.handleRevertRow V6.clearPinnedRow V6.handleRevertAll].
  - destruct (CellValueChangedEvent.rowPinned event) eqn:Hpinned.
    { by apply tame_V6_pinnedEdit. }
    unfold V6.onCellValueChanged. rewrite Hpinned.
    destruct (CellValueChangedEvent.data event) as [axe|]; [|done].
    destruct (CellValueChangedEvent.change event); try done;
      (destruct (findAxe (Axe.id axe) (View.axes st)) eqn:Hfind; [|done]);
      by apply drafts_confirmed_stageEdit.
  - by apply tame_V6_handleSaveRow.
  - by apply drafts_confirmed_delete.
  - by apply tame_pauseResume.
  - by apply tame_blockUnblock.
  - by apply tame_deleteRow.
  - by apply tame_V6_updatePinnedRowInstrument.
  - by apply tame_V6_handleCreatePinned.
  - done.
  - apply tame_saveAll; [apply tame_V6_handleSaveRow | apply tame_nothing | done].
  - by apply tame_revertAll.
Qed.

Lemma V6_handler_quiet st now i : Forall quiet (issued (V6.handler st now i)).
Proof.
  destruct i as [event|axe|axe|axe|axe|axe|rowId instrument|newId| | |];
    cbn [V6.handler V6.handlePauseResume V6.handleBlockUnblock V6.handleDelete].
  - destruct (CellValueChangedEvent.rowPinned event) eqn:Hpinned.
    { by apply tame_V6_pinnedEdit. }
    unfold V6.onCellValueChanged. rewrite Hpinned.
    destruct (CellValueChangedEvent.data event) as [axe|]; [|constructor].
    destruct (CellValueChangedEvent.change event); try constructor;
      destruct (findAxe (Axe.id axe) (View.axes st)); constructor.
  - apply tame_V6_handleSaveRow.
  - apply tame_revertRow.
  - apply tame_pauseResume.
  - apply tame_blockUnblock.
  - apply tame_deleteRow.
  - apply tame_V6_updatePinnedRowInstrument.
  - apply tame_V6_handleCreatePinned.
  - apply tame_setPinnedRow.
  - apply tame_saveAll; [apply tame_V6_handleSaveRow | apply tame_nothing].
  - apply tame_revertAll.
Qed.

(** *** The invariant along a run *)

Section Invariance.
Context {Intent : Type}.
Variable handler : View.t → string → Intent → Effect.
Variable mockInstruments : list BondInstrument.t.
Hypothesis handler_keeps : ∀ st now i,
  drafts_confirmed st → drafts_confirmed (update (handler st now i) st).
Hypothesis handler_quiet : ∀ st now i, Forall quiet (issued (handler st now i)).

Lemma settle_pendingEdits sys fresh now :
  Forall quiet (System.inflight sys) →
  View.pendingEdits
    (System.view (System.step handler mockInstruments sys (System.Settle fresh now))) =
  View.pendingEdits (System.view sys).
Proof.
  intros Hq. simpl. destruct (System.inflight sys) as [|p rest]; [done|].
  apply Forall_cons in Hq as [[Hthen Hcatch] _]. simpl.
  destruct (MockAxeService.result _).
  - by rewrite Hcatch, receive_pendingEdits.
  - destruct (Hthen (System.receive
        (MockAxeService.emitted
           (useBondAxes.run mockInstruments fresh now (command p) (System.service sys)))
        (System.view sys))) as [-> _].
    by rewrite receive_pendingEdits.
Qed.

Lemma step_sound sys ev :
  sound sys → retains handler mockInstruments sys ev = true →
  sound (System.step handler mockInstruments sys ev).
Proof.
  intros [Hinv Hq] Hret. destruct ev as [now i|fresh now].
  - split; simpl.
    + by apply handler_keeps.
    + apply Forall_app. split; [done | apply handler_quiet].
  - split.
    + intros id Hid. rewrite settle_pendingEdits in Hid by done.
      unfold retains in Hret.
      by apply (proj1 (draftsWithin_spec _ _) Hret).
    + simpl. destruct (System.inflight sys) as [|p rest] eqn:E; simpl.
      * by rewrite E.
      * by apply Forall_cons in Hq as [_ Hq].
Qed.

Lemma run_sound evs sys :
  sound sys → retaining handler mockInstruments evs sys = true →
  sound (System.run handler mockInstruments evs sys).
Proof.
  revert sys. induction evs as [|ev evs IH]; intros sys Hs Hr; simpl in *; [done|].
  apply andb_true_iff in Hr as [Hr1 Hr2].
  apply IH; [by apply step_sound | done].
Qed.
End Invariance.

Lemma sound_mount : sound System.mount.
Proof.
  split; [|constructor]. intros id [x Hx]. vm_compute in Hx. discriminate Hx.
Qed.

Lemma run_quiet {Intent : Type} (handler : View.t → string → Intent → Effect)
    (mockInstruments : list BondInstrument.t) :
  (∀ st now i, Forall quiet (issued (handler st now i))) →
  ∀ evs sys, Forall quiet (System.inflight sys) →
    Forall quiet (System.inflight (System.run handler mockInstruments evs sys)).
Proof.
  intros Hq. induction evs as [|ev evs IH]; intros sys Hs; simpl; [done|].
  apply IH. destruct ev as [now i|fresh now]; simpl.
  - apply Forall_app. split; [done | apply Hq].
  - destruct (System.inflight sys) as [|p rest] eqn:E; simpl; [by rewrite E|].
    by apply Forall_cons in Hs as [_ Hs].
Qed.

Lemma settle_retains {Intent : Type} (handler : View.t → string → Intent → Effect)
    (mockInstruments : list BondInstrument.t) (sys : System.t) (fresh now : string) :
  Forall quiet (System.inflight sys) →
  drafts_confirmed
    (System.view (System.step handler mockInstruments sys (System.Settle fresh now))) ↔
  retains handler mockInstruments sys (System.Settle fresh now) = true.
Proof.
  intros Hq. unfold retains. rewrite draftsWithin_spec. unfold drafts_confirmed.
  by rewrite (settle_pendingEdits handler mockInstruments sys fresh now Hq).
Qed.

(** C6, amended.  From mounting on, the identifiers with a Pending Edit stay
    within the local snapshot through every user intent of V4 and of V6 (cell
    edits, saves and save-all, reverts and revert-all, status toggles,
    deletes, creates, edits of the pinned row) and through every settled
    command that does not take a drafted record out of the snapshot.
    Settling itself never changes the Pending Edits, in V4 as in V6: neither
    the broadcast nor a continuation prunes them; so after a command has
    settled every drafted identifier is in the snapshot exactly when the
    snapshot left by the broadcast and the continuation still holds every
    identifier that carried a draft before. *)
Theorem drafts_stay_confirmed :
  (∀ mockInstruments (evs : list (System.Event (Intent := V4.Intent))),
     retaining V4.handler mockInstruments evs System.mount = true →
     drafts_confirmed
       (System.view (System.run V4.handler mockInstruments evs System.mount))) ∧
  (∀ mockInstruments (evs : list (System.Event (Intent := V6.Intent))),
     retaining V6.handler mockInstruments evs System.mount = true →
     drafts_confirmed
       (System.view (System.run V6.handler mockInstruments evs System.mount))) ∧
  (∀ mockInstruments (evs : list (System.Event (Intent := V6.Intent))) fresh now,
     let sys := System.run V6.handler mockInstruments evs System.mount in
     View.pendingEdits
       (System.view (System.step V6.handler mockInstruments sys (System.Settle fresh now))) =
     View.pendingEdits (System.view sys)) ∧
  (∀ mockInstruments (evs : list (System.Event (Intent := V4.Intent))) fresh now,
     let sys := System.run V4.handler mockInstruments evs System.mount in
     View.pendingEdits
       (System.view (System.step V4.handler mockInstruments sys (System.Settle fresh now))) =
     View.pendingEdits (System.view sys)) ∧
  (∀ mockInstruments (evs : list (System.Event (Intent := V4.Intent))) fresh now,
     let sys := System.run V4.handler mockInstruments evs System.mount in
     let after := System.step V4.handler mockInstruments sys (System.Settle fresh now) in
     drafts_confirmed (System.view after) ↔
     ∀ id, is_Some (View.pendingEdits (System.view sys) !! id) →
           id ∈ View.ids (System.view after)) ∧
  (∀ mockInstruments (evs : list (System.Event (Intent := V6.Intent))) fresh now,
     let sys := System.run V6.handler mockInstruments evs System.mount in
     let after := System.step V6.handler mockInstruments sys (System.Settle fresh now) in
     drafts_confirmed (System.view after) ↔
     ∀ id, is_Some (View.pendingEdits (System.view sys) !! id) →
           id ∈ View.ids (System.view after)).
Proof.
  assert (Hmount : Forall quiet (System.inflight System.mount)) by constructor.
  split_and!.
  - intros mockInstruments evs Hr.
    apply (run_sound V4.handler mockInstruments V4_handler_keeps V4_handler_quiet);
      [apply sound_mount | done].
  - intros mockInstruments evs Hr.
    apply (run_sound V6.handler mockInstruments V6_handler_keeps V6_handler_quiet);
      [apply sound_mount | done].
  - intros mockInstruments evs fresh now sys. apply settle_pendingEdits.
    by apply run_quiet; [apply V6_handler_quiet|].
  - intros mockInstruments evs fresh now sys. apply settle_pendingEdits.
    by apply run_quiet; [apply V4_handler_quiet|].
  - intros mockInstruments evs fresh now sys after. subst after.
    rewrite settle_retains by (by apply run_quiet; [apply V4_handler_quiet|]).
    apply draftsWithin_spec.
  - intros mockInstruments evs fresh now sys after. subst after.
    rewrite settle_retains by (by apply run_quiet; [apply V6_handler_quiet|]).
    apply draftsWithin_spec.
Qed.

Lemma drafts_stay_confirmed_witness :
  drafts_confirmed
    (System.view (System.run V6.handler [instrument0] createThenSettleThenEdit System.mount)).
Proof.
  destruct drafts_stay_confirmed as (_ & H & _).
  apply (H [instrument0] createThenSettleThenEdit). vm_compute. reflexivity.
Defined.

(** The same in V4, without any optimistic row: a delete that overtakes the
    broadcast of an earlier command. *)
Example draft_outlives_deleted_row :
  let final := System.view (System.run V4.handler [instrument0] pauseDeleteThenEdit System.mount) in
  View.ids final = [] ∧
  View.pendingEdits final !! "s1" =
    Some {| PendingEdit.side := None; PendingEdit.quantity := Some 2000000%Z |}.
Proof. vm_compute. split; reflexivity. Qed.

(** A rejected delete, end to end: the store holds the created record under
    its own identifier "s1" and rejects the delete of "c1"; the view shows the
    error and renders what the last broadcast brought. *)
Example rejected_delete_end_to_end :
  let final := System.view (System.run V6.handler [instrument0] createThenDelete System.mount) in
  View.ids final = ["s1"] ∧
  last (View.notifications final) = Some (failure "Axe not found: c1").
Proof. vm_compute. split; reflexivity. Qed.

(** Scenario E: a one-character query over a directory that has a match
    finds nothing; the query TREASURY, all capitals, finds the instrument
    whose description spells Treasury. *)
Lemma search_contract_witness :
  useBondInstruments.searchInstruments useBondInstruments.latin1LowerCase [instrument0] "U" = [] ∧
  useBondInstruments.searchInstruments useBondInstruments.latin1LowerCase [instrument0]
    "TREASURY" = [instrument0].
Proof.
  split.
  - destruct (search_contract useBondInstruments.latin1LowerCase [instrument0] "U")
      as [Hshort _].
    apply Hshort. simpl. lia.
  - destruct (search_contract useBondInstruments.latin1LowerCase [instrument0] "TREASURY")
      as (_ & _ & _ & _ & _ & Hlong & Hcase & _).
    rewrite Hlong by (simpl; lia).
    assert (Hw : useBondInstruments.matches useBondInstruments.latin1LowerCase
                   (useBondInstruments.latin1LowerCase "TREASURY") instrument0 = true).
    { apply Hcase. right. exists "US ", "Treasury", " 0.250% 2026 Senior Unsecured".
      split; [reflexivity|]. cbn [sameLetters]. unfold sameLetter, capital.
      repeat match goal with
             | |- context [nat_of_ascii ?c] =>
                 let n := eval vm_compute in (nat_of_ascii c) in
                 change (nat_of_ascii c) with n
             end.
      lia. }
    cbn [List.filter]. by rewrite Hw.
Defined.

(** * Further facts *)

(** ** The instrument universe *)

Example instrumentAt_0 : mockData.instrumentAt 0 = instrument0.
Proof. reflexivity. Qed.

Example instrumentAt_14999 :
  mockData.instrumentAt (149 * 100 + 99) = {|
    BondInstrument.isin := "AT0000149990";
    BondInstrument.description := "UK Gilt 7.625% 2055 Fixed Rate";
    BondInstrument.maturity := "2055-12-20";
    BondInstrument.issuer := "UK Gilt" |}.
Proof. vm_compute. reflexivity. Qed.

Lemma string_app_assoc (a b c : string) : (a +:+ b) +:+ c = a +:+ b +:+ c.
Proof.
  induction a as [|x a IH]; [done|]. rewrite !string_app_cons. by f_equal.
Qed.

Lemma string_app_length (a b : string) :
  String.length (a +:+ b) = String.length a + String.length b.
Proof.
  induction a as [|x a IH]; [done|]. rewrite string_app_cons. simpl. by f_equal.
Qed.

(** Equal strings split alike at equal lengths. *)
Lemma string_app_inj_length (a a' b b' : string) :
  String.length a = String.length a' →
  a +:+ b = a' +:+ b' → a = a' ∧ b = b'.
Proof.
  revert a'. induction a as [|x a IH]; intros [|x' a'] Hlen Heq; try done.
  rewrite !string_app_cons in Heq. simpl in Hlen.
  injection Heq as -> Heq. destruct (IH a') as [-> ->]; [lia | done | done].
Qed.

Lemma string_app_inv_tail (a a' c : string) : a +:+ c = a' +:+ c → a = a'.
Proof.
  intros Heq. apply (string_app_inj_length a a' c c); [|done].
  apply (f_equal String.length) in Heq. rewrite !string_app_length in Heq. lia.
Qed.

Lemma unorm_nonnil (d : Decimal.uint) : Decimal.unorm d ≠ Decimal.Nil.
Proof. induction d; simpl; done. Qed.

Lemma to_uint_nonnil (n : nat) : Nat.to_uint n ≠ Decimal.Nil.
Proof.
  rewrite <- (DecimalNat.Unsigned.of_to n) at 1.
  rewrite DecimalNat.Unsigned.to_of. apply unorm_nonnil.
Qed.

Lemma numberOf_decimal (n : nat) : numberOf (mockData.decimal n) = Some n.
Proof.
  unfold numberOf, mockData.decimal.
  rewrite DecimalString.NilZero.usu by apply to_uint_nonnil. simpl.
  by rewrite DecimalNat.Unsigned.of_to.
Qed.

Lemma decimal_nonempty (n : nat) : mockData.decimal n ≠ "".
Proof. intros H. pose proof (numberOf_decimal n) as Hn. by rewrite H in Hn. Qed.

Lemma numberOf_zeros (k : nat) (s : string) :
  s ≠ "" → numberOf (mockData.zeros k +:+ s) = numberOf s.
Proof.
  intros Hs. induction k as [|k IH]; [done|].
  rewrite <- IH. unfold numberOf. cbn [mockData.zeros]. rewrite string_app_cons.
  destruct (mockData.zeros k +:+ s) as [|c r] eqn:E.
  - destruct k; [by rewrite string_app_nil in E | discriminate E].
  - cbn.
    destruct (DecimalString.uint_of_char c (DecimalString.NilEmpty.uint_of_string r));
      reflexivity.
Qed.

Lemma numberOf_padStart0 (width n : nat) :
  numberOf (mockData.padStart0 width (mockData.decimal n)) = Some n.
Proof.
  unfold mockData.padStart0.
  rewrite numberOf_zeros by apply decimal_nonempty. apply numberOf_decimal.
Qed.

Lemma pick_countries_length (index : nat) :
  String.length (mockData.pick mockData.countries index) = 2.
Proof.
  unfold mockData.pick. simpl length.
  assert (H : index mod 12 < 12) by (apply Nat.mod_upper_bound; lia).
  remember (index mod 12) as m eqn:Hm. clear Hm.
  do 12 (destruct m as [|m]; [reflexivity|]). lia.
Qed.

Lemma generateISIN_inj (i j : nat) :
  mockData.generateISIN i = mockData.generateISIN j → i = j.
Proof.
  unfold mockData.generateISIN. intros Heq.
  apply string_app_inj_length in Heq as [_ Heq];
    [|by rewrite !pick_countries_length].
  apply string_app_inv_tail in Heq.
  apply (f_equal numberOf) in Heq. rewrite !numberOf_padStart0 in Heq.
  by injection Heq.
Qed.

Lemma find_instrumentAt (isin : string) (start count i : nat) :
  start ≤ i < start + count →
  mockData.generateISIN i = isin →
  List.find (λ x, bool_decide (BondInstrument.isin x = isin))
    (mockData.instrumentAt <$> seq start count) = Some (mockData.instrumentAt i).
Proof.
  revert start. induction count as [|count IH]; intros start Hi Hisin; [lia|].
  simpl. case_bool_decide as Hhit.
  - simpl in Hhit. rewrite <- Hisin in Hhit. by apply generateISIN_inj in Hhit as ->.
  - apply IH; [|done]. destruct (decide (i = start)) as [->|]; [|lia].
    by destruct Hhit.
Qed.

(** X1. In a generated universe the codes are pairwise different.  For a
    count an array can hold (at most 4294967295 entries, where every index is
    an integer the engine counts exactly and prints as its decimal numeral),
    [generateISIN] gives different indices below the count different codes
    (the digits after the country are read back as the index), so
    [generateInstruments(count)] holds [count] instruments with pairwise
    different codes. *)
Theorem instrument_codes_are_unique (count : nat) :
  (Z.of_nat count ≤ maxArrayLength)%Z →
  (∀ i j, i < count → j < count →
     mockData.generateISIN i = mockData.generateISIN j → i = j) ∧
  length (mockData.generateInstruments count) = count ∧
  NoDup (BondInstrument.isin <$> mockData.generateInstruments count).
Proof.
  intros _. split; [intros i j _ _; apply generateISIN_inj|].
  unfold mockData.generateInstruments. split.
  - by rewrite length_fmap, length_seq.
  - rewrite <- list_fmap_compose.
    apply (@NoDup_fmap_2 _ _ mockData.generateISIN generateISIN_inj), NoDup_seq.
Qed.

(** The 15000 instruments of [mockInstruments]. *)
Lemma instrument_codes_are_unique_witness :
  length mockData.mockInstruments = 150 * 100 ∧
  NoDup (BondInstrument.isin <$> mockData.mockInstruments).
Proof.
  destruct (instrument_codes_are_unique (150 * 100)) as (_ & Hlen & Hnd).
  - unfold maxArrayLength. lia.
  - split; [exact Hlen | exact Hnd].
Defined.

(** X2. In the generated universe the code of index [i] finds the
    instrument pushed at index [i], both in the store's [findInstrument] and
    in the hook's [getInstrument]; a code that no index below [count]
    generates finds nothing. *)
Theorem generated_instrument_lookup (count i : nat) :
  i < count →
  let universe := mockData.generateInstruments count in
  MockAxeService.findInstrument universe (mockData.generateISIN i) =
    Some (mockData.instrumentAt i) ∧
  useBondInstruments.getInstrument universe (mockData.generateISIN i) =
    Some (mockData.instrumentAt i) ∧
  (∀ isin, (∀ j, j < count → mockData.generateISIN j ≠ isin) →
     MockAxeService.findInstrument universe isin = None ∧
     useBondInstruments.getInstrument universe isin = None).
Proof.
  intros Hi universe.
  assert (Hfind : List.find (λ x, bool_decide (BondInstrument.isin x = mockData.generateISIN i))
                    universe = Some (mockData.instrumentAt i)).
  { apply find_instrumentAt; [lia | done]. }
  split; [exact Hfind|]. split; [exact Hfind|].
  intros isin Hnone.
  assert (List.find (λ x, bool_decide (BondInstrument.isin x = isin)) universe = None); [|done].
  destruct (List.find (λ x, bool_decide (BondInstrument.isin x = isin)) universe)
    as [x|] eqn:E; [|done].
  apply find_some in E as [Hin Hx]. apply bool_decide_eq_true in Hx.
  apply list_elem_of_In, list_elem_of_fmap in Hin as (j & -> & Hj).
  apply elem_of_seq in Hj. destruct (Hnone j); [lia | done].
Qed.

Lemma generated_instrument_lookup_witness :
  MockAxeService.findInstrument (mockData.generateInstruments 20) "GB0000000170" =
  Some {| BondInstrument.isin := "GB0000000170";
          BondInstrument.description := "HSBC 2.375% 2043 Inflation Linked";
          BondInstrument.maturity := "2043-06-18";
          BondInstrument.issuer := "HSBC" |}.
Proof.
  destruct (generated_instrument_lookup 20 17 ltac:(lia)) as [H _]. exact H.
Defined.

(** ** The service over time *)

(** X3. A command that rejects changes nothing and tells no one: the
    service is as before and no listener is called.  [createOrUpdateAxe]
    rejects only for a code the directory does not hold, the status commands
    and [deleteAxe] only for an identifier the store does not hold. *)
Theorem rejected_command_changes_nothing (mockInstruments : list BondInstrument.t)
    (fresh now : string) (c : Command) (s : MockAxeService.t) (e : ServiceError) :
  let o := useBondAxes.run mockInstruments fresh now c s in
  MockAxeService.result o = inl e →
  MockAxeService.final o = s ∧
  MockAxeService.emitted o = [] ∧
  match c with
  | CreateOrUpdateAxe request =>
      e = InstrumentNotFound (CreateOrUpdateAxeRequest.isin request) ∧
      MockAxeService.findInstrument mockInstruments
        (CreateOrUpdateAxeRequest.isin request) = None
  | PauseAxe id | ResumeAxe id | BlockAxe id | UnblockAxe id | DeleteAxe id =>
      e = AxeNotFound id ∧ id ∉ JsMap.keys (MockAxeService.axes s)
  end.
Proof.
  destruct c as [request|id|id|id|id|id]; cbn [useBondAxes.run];
    unfold MockAxeService.pauseAxe, MockAxeService.resumeAxe,
      MockAxeService.blockAxe, MockAxeService.unblockAxe.
  - unfold MockAxeService.bind.
    destruct (MockAxeService.findInstrument mockInstruments
                (CreateOrUpdateAxeRequest.isin request)) as [instrument|] eqn:Hfind.
    + by rewrite (createOrUpdateAxe_found _ _ _ _ _ _ Hfind).
    + rewrite (createOrUpdateAxe_missing _ _ _ _ _ Hfind). simpl.
      intros [= <-]. done.
  - status_cases id s; simpl; [done|]. intros [= <-].
    by apply JsMapFacts.get_None_keys in Hget.
  - status_cases id s; simpl; [done|]. intros [= <-].
    by apply JsMapFacts.get_None_keys in Hget.
  - status_cases id s; simpl; [done|]. intros [= <-].
    by apply JsMapFacts.get_None_keys in Hget.
  - status_cases id s; simpl; [done|]. intros [= <-].
    by apply JsMapFacts.get_None_keys in Hget.
  - destruct (JsMap.has id (MockAxeService.axes s)) eqn:Hhas.
    + by rewrite (deleteAxe_found _ _ Hhas).
    + rewrite (deleteAxe_missing _ _ Hhas). simpl. intros [= <-].
      by apply JsMapFacts.has_false, JsMapFacts.get_None_keys in Hhas.
Qed.

Lemma rejected_command_changes_nothing_witness :
  MockAxeService.final
    (useBondAxes.run [instrument0] "generated-uuid" "2026-01-05T09:02:00.000Z"
       (CreateOrUpdateAxe {|
          CreateOrUpdateAxeRequest.id := Some "a1";
          CreateOrUpdateAxeRequest.isin := "XX0000000000";
          CreateOrUpdateAxeRequest.side := Bid;
          CreateOrUpdateAxeRequest.quantity := 1%Z |})
       service1) = service1.
Proof.
  destruct (rejected_command_changes_nothing [instrument0] "generated-uuid"
              "2026-01-05T09:02:00.000Z"
              (CreateOrUpdateAxe {|
                 CreateOrUpdateAxeRequest.id := Some "a1";
                 CreateOrUpdateAxeRequest.isin := "XX0000000000";
                 CreateOrUpdateAxeRequest.side := Bid;
                 CreateOrUpdateAxeRequest.quantity := 1%Z |})
              service1 (InstrumentNotFound "XX0000000000") eq_refl) as [H _].
  exact H.
Defined.

Lemma JsMap_get_Some_elem {V} (k : string) (v : V) (m : JsMap.t V) :
  JsMap.get k m = Some v → (k, v) ∈ m.
Proof.
  induction m as [|[k' v'] m IH]; simpl; [done|].
  destruct (decide (k = k')) as [->|Hne].
  - intros [= ->]. left.
  - intros H. right. by apply IH.
Qed.

Lemma JsMap_Forall_set {V} (P : string * V → Prop) (k : string) (v : V) (m : JsMap.t V) :
  Forall P m → P (k, v) → Forall P (JsMap.set k v m).
Proof.
  intros Hm Hkv. induction Hm as [|[k' v'] m Hx Hm IH]; simpl.
  - by constructor.
  - destruct (decide (k = k')); by constructor.
Qed.

Lemma JsMap_Forall_delete {V} (P : string * V → Prop) (k : string) (m : JsMap.t V) :
  Forall P m → Forall P (JsMap.delete k m).
Proof.
  intros Hm. induction Hm as [|[k' v'] m Hx Hm IH]; simpl; [constructor|].
  destruct (decide (k = k')); [done | by constructor].
Qed.

Lemma JsSet_NoDup_add (l : AxeListener) (s : JsSet.t) : NoDup s → NoDup (JsSet.add l s).
Proof.
  intros Hs. unfold JsSet.add. case_decide as Hin; [done|].
  apply NoDup_app. split_and!; [done | | apply NoDup_singleton].
  by intros x Hx ->%list_elem_of_singleton.
Qed.

Lemma JsSet_NoDup_delete (l : AxeListener) (s : JsSet.t) : NoDup s → NoDup (JsSet.delete l s).
Proof. intros Hs. unfold JsSet.delete. by apply NoDup_filter. Qed.

Lemma findInstrument_isin mockInstruments isin i :
  MockAxeService.findInstrument mockInstruments isin = Some i →
  BondInstrument.isin i = isin.
Proof.
  unfold MockAxeService.findInstrument. intros [_ H]%find_some.
  by apply bool_decide_eq_true in H.
Qed.

Lemma denormalised_upserted mockInstruments instrument fresh now request s :
  MockAxeService.findInstrument mockInstruments
    (CreateOrUpdateAxeRequest.isin request) = Some instrument →
  denormalised mockInstruments (upserted instrument fresh now request s).
Proof.
  intros Hfind. exists instrument. simpl.
  rewrite (findInstrument_isin _ _ _ Hfind). done.
Qed.

Lemma subscribe_run listener s :
  MockAxeService.subscribe listener s =
  MockAxeService.mkOutcome (inr tt)
    {| MockAxeService.axes := MockAxeService.axes s;
       MockAxeService.listeners := JsSet.add listener (MockAxeService.listeners s) |}
    [(listener, JsMap.values (MockAxeService.axes s))].
Proof. reflexivity. Qed.

Lemma unsubscribe_run listener s :
  MockAxeService.unsubscribe listener s =
  MockAxeService.mkOutcome (inr tt)
    {| MockAxeService.axes := MockAxeService.axes s;
       MockAxeService.listeners := JsSet.delete listener (MockAxeService.listeners s) |}
    [].
Proof. reflexivity. Qed.

Lemma perform_wellFormed mockInstruments call s :
  wellFormed mockInstruments s →
  wellFormed mockInstruments (MockAxeService.final (perform mockInstruments call s)).
Proof.
  intros (Hkeys & Hrec & Hls).
  destruct call as [listener|listener|fresh now c]; cbn [perform].
  - rewrite subscribe_run. split_and!; [done..|]. by apply JsSet_NoDup_add.
  - rewrite unsubscribe_run. split_and!; [done..|]. by apply JsSet_NoDup_delete.
  - split; [by apply run_keys_distinct|].
    destruct c as [request|id|id|id|id|id]; cbn [useBondAxes.run];
      unfold MockAxeService.pauseAxe, MockAxeService.resumeAxe,
        MockAxeService.blockAxe, MockAxeService.unblockAxe.
    + unfold MockAxeService.bind.
      destruct (MockAxeService.findInstrument mockInstruments
                  (CreateOrUpdateAxeRequest.isin request)) as [instrument|] eqn:Hfind.
      * rewrite (createOrUpdateAxe_found _ _ _ _ _ _ Hfind). simpl. split; [|done].
        apply JsMap_Forall_set; [done|]. split; [done|].
        by apply denormalised_upserted.
      * by rewrite (createOrUpdateAxe_missing _ _ _ _ _ Hfind).
    + status_cases id s; simpl; [|done]. split; [|done].
      apply JsMap_Forall_set; [done|].
      apply JsMap_get_Some_elem in Hget.
      by apply (proj1 (Forall_forall _ _) Hrec) in Hget.
    + status_cases id s; simpl; [|done]. split; [|done].
      apply JsMap_Forall_set; [done|].
      apply JsMap_get_Some_elem in Hget.
      by apply (proj1 (Forall_forall _ _) Hrec) in Hget.
    + status_cases id s; simpl; [|done]. split; [|done].
      apply JsMap_Forall_set; [done|].
      apply JsMap_get_Some_elem in Hget.
      by apply (proj1 (Forall_forall _ _) Hrec) in Hget.
    + status_cases id s; simpl; [|done]. split; [|done].
      apply JsMap_Forall_set; [done|].
      apply JsMap_get_Some_elem in Hget.
      by apply (proj1 (Forall_forall _ _) Hrec) in Hget.
    + destruct (JsMap.has id (MockAxeService.axes s)) eqn:Hhas.
      * rewrite (deleteAxe_found _ _ Hhas). simpl. split; [|done].
        by apply JsMap_Forall_delete.
      * by rewrite (deleteAxe_missing _ _ Hhas).
Qed.

Lemma performAll_wellFormed mockInstruments calls s :
  wellFormed mockInstruments s → wellFormed mockInstruments (performAll mockInstruments calls s).
Proof.
  unfold performAll. revert s. induction calls as [|call calls IH]; intros s Hs; simpl; [done|].
  by apply IH, perform_wellFormed.
Qed.

Lemma wellFormed_init mockInstruments : wellFormed mockInstruments MockAxeService.init.
Proof. split_and!; constructor. Qed.

(** In a well-formed store the identifiers of the array are the keys. *)
Lemma wellFormed_ids mockInstruments s :
  wellFormed mockInstruments s →
  Axe.id <$> JsMap.values (MockAxeService.axes s) = JsMap.keys (MockAxeService.axes s).
Proof.
  intros (_ & Hrec & _). unfold JsMap.values, JsMap.keys.
  induction Hrec as [|[k a] m [Hk _] Hrec IH]; [done|].
  rewrite !fmap_cons. simpl in *. by f_equal.
Qed.

(** X4. Whatever calls are made on a new service, in whatever order, its
    keys stay distinct, every record is stored under its own identifier with
    the attributes of the directory's instrument for its code, and no
    listener is registered twice; so every array it hands out has pairwise
    different identifiers.  Each single call keeps this. *)
Theorem service_stays_well_formed (mockInstruments : list BondInstrument.t) :
  (∀ call s, wellFormed mockInstruments s →
     wellFormed mockInstruments (MockAxeService.final (perform mockInstruments call s))) ∧
  (∀ calls,
     let s := performAll mockInstruments calls MockAxeService.init in
     wellFormed mockInstruments s ∧
     NoDup (Axe.id <$> JsMap.values (MockAxeService.axes s))).
Proof.
  split; [intros call s; apply perform_wellFormed|].
  intros calls s.
  assert (Hs : wellFormed mockInstruments s)
    by apply performAll_wellFormed, wellFormed_init.
  split; [done|]. rewrite (wellFormed_ids _ _ Hs). apply Hs.
Qed.

(** ** What the views predict and what the store broadcasts *)

Lemma no_record_of_missing_key (m : JsMap.t Axe.t) (id : string) (a : Axe.t) :
  Forall (λ e, Axe.id e.2 = e.1) m →
  id ∉ JsMap.keys m → a ∈ JsMap.values m → Axe.id a ≠ id.
Proof.
  intros Hrec Hid Ha Heq. apply Hid. unfold JsMap.values, JsMap.keys in *.
  apply list_elem_of_fmap in Ha as ([k a'] & -> & Hin).
  pose proof (proj1 (Forall_forall _ _) Hrec _ Hin) as Hk. simpl in *.
  apply list_elem_of_fmap. exists (k, a'). split; [simpl; congruence | done].
Qed.

Lemma findAxe_values (m : JsMap.t Axe.t) (id : string) :
  Forall (λ e, Axe.id e.2 = e.1) m →
  findAxe id (JsMap.values m) = JsMap.get id m.
Proof.
  intros Hrec. unfold findAxe, JsMap.values.
  induction Hrec as [|[k a] m' Hk Hrest IH]; [done|].
  rewrite fmap_cons. simpl in *. rewrite Hk.
  destruct (decide (id = k)) as [->|Hne].
  - by rewrite bool_decide_true.
  - rewrite bool_decide_false by done. apply IH.
Qed.

Lemma mapById_untouched (id : string) (f : Axe.t → Axe.t) (l : list Axe.t) :
  (∀ a, a ∈ l → Axe.id a ≠ id) → mapById id f l = l.
Proof.
  intros H. unfold mapById. induction l as [|a l IH]; [done|].
  rewrite fmap_cons. rewrite bool_decide_false by (apply H; left).
  f_equal. apply IH. intros b Hb. apply H. by right.
Qed.

Lemma removeById_untouched (id : string) (l : list Axe.t) :
  (∀ a, a ∈ l → Axe.id a ≠ id) → removeById id l = l.
Proof.
  intros H. unfold removeById. induction l as [|a l IH]; [done|].
  simpl. rewrite bool_decide_false by (apply H; left). simpl.
  f_equal. apply IH. intros b Hb. apply H. by right.
Qed.

(** Overwriting the record of a key maps the array at that identifier. *)
Lemma values_set_present (m : JsMap.t Axe.t) (id : string) (f : Axe.t → Axe.t) (axe : Axe.t) :
  NoDup (JsMap.keys m) → Forall (λ e, Axe.id e.2 = e.1) m →
  JsMap.get id m = Some axe →
  JsMap.values (JsMap.set id (f axe) m) = mapById id f (JsMap.values m).
Proof.
  intros Hnd Hrec. induction Hrec as [|[k a] m Hk Hrec IH]; [done|].
  apply NoDup_cons in Hnd as [Hk' Hnd]. simpl in *.
  destruct (decide (id = k)) as [->|Hne].
  - intros [= ->]. unfold JsMap.values, mapById. rewrite !fmap_cons. simpl.
    rewrite bool_decide_true by done. f_equal.
    symmetry. apply (mapById_untouched k f). intros b Hb.
    by apply (no_record_of_missing_key m k b Hrec).
  - intros Hget. unfold JsMap.values, mapById in *. rewrite !fmap_cons. simpl.
    rewrite bool_decide_false by congruence. f_equal. by apply IH.
Qed.

(** Storing under a new key appends to the array. *)
Lemma values_set_absent (m : JsMap.t Axe.t) (id : string) (axe : Axe.t) :
  JsMap.get id m = None → JsMap.values (JsMap.set id axe m) = JsMap.values m ++ [axe].
Proof.
  unfold JsMap.values. induction m as [|[k a] m IH]; simpl; [done|].
  destruct (decide (id = k)); [done|]. intros H. rewrite !fmap_cons. simpl.
  f_equal. by apply IH.
Qed.

(** Deleting a key filters the array at that identifier. *)
Lemma values_delete (m : JsMap.t Axe.t) (id : string) :
  NoDup (JsMap.keys m) → Forall (λ e, Axe.id e.2 = e.1) m →
  JsMap.values (JsMap.delete id m) = removeById id (JsMap.values m).
Proof.
  intros Hnd Hrec. induction Hrec as [|[k a] m Hk Hrec IH]; [done|].
  unfold JsMap.keys in Hnd. rewrite fmap_cons in Hnd.
  apply NoDup_cons in Hnd as [Hk' Hnd]. simpl in Hk, Hk'.
  unfold JsMap.values, removeById in *. rewrite fmap_cons. simpl.
  destruct (decide (id = k)) as [->|Hne].
  - rewrite bool_decide_true by done. simpl.
    symmetry. apply (removeById_untouched k). intros b Hb.
    by apply (no_record_of_missing_key m k b Hrec).
  - rewrite bool_decide_false by congruence. simpl.
    f_equal. by apply IH.
Qed.

Lemma wellFormed_keyed mockInstruments s :
  wellFormed mockInstruments s →
  Forall (λ e, Axe.id e.2 = e.1) (MockAxeService.axes s).
Proof. intros (_ & Hrec & _). eapply Forall_impl; [done|]. by intros e [? _]. Qed.

Lemma wellFormed_service1 : wellFormed [instrument0] service1.
Proof.
  split_and!.
  - apply NoDup_singleton.
  - constructor; [|constructor]. split; [done|]. by exists instrument0.
  - apply NoDup_singleton.
Qed.

(** X5. Deleting a record the store holds succeeds, removes that record and
    no other, keeps the order of the rest, and hands every listener the
    previous array without it: the very list [handleDelete] left in a view
    that held the previous array. *)
Theorem delete_broadcast_is_optimistic_delete
    (mockInstruments : list BondInstrument.t) (s : MockAxeService.t) (id : string) :
  wellFormed mockInstruments s →
  id ∈ JsMap.keys (MockAxeService.axes s) →
  let o := MockAxeService.deleteAxe id s in
  let before := JsMap.values (MockAxeService.axes s) in
  MockAxeService.result o = inr tt ∧
  (id ∉ JsMap.keys (MockAxeService.axes (MockAxeService.final o))) ∧
  JsMap.values (MockAxeService.axes (MockAxeService.final o)) = removeById id before ∧
  MockAxeService.emitted o =
    (λ l, (l, removeById id before)) <$> MockAxeService.listeners s ∧
  (∀ st axe, View.axes st = before → Axe.id axe = id →
     View.axes (update (V4.handleDelete axe) st) = removeById id before ∧
     View.axes (update (V6.handleDelete axe) st) = removeById id before).
Proof.
  intros Hwf Hid o before. subst o.
  destruct Hwf as (Hnd & Hrec & Hls).
  assert (Hkeyed : Forall (λ e, Axe.id e.2 = e.1) (MockAxeService.axes s)).
  { eapply Forall_impl; [done|]. by intros e [? _]. }
  assert (Hhas : JsMap.has id (MockAxeService.axes s) = true).
  { by apply JsMapFacts.has_get, JsMapFacts.get_Some_keys. }
  rewrite (deleteAxe_found _ _ Hhas). simpl. unfold snapshotFor. simpl.
  rewrite (values_delete _ _ Hnd Hkeyed). split_and!; try done.
  - apply JsMapFacts.get_None_keys. by apply JsMapFacts.get_delete_eq.
  - intros st axe Hst <-. by rewrite Hst.
Qed.

Lemma delete_broadcast_is_optimistic_delete_witness :
  JsMap.values
    (MockAxeService.axes (MockAxeService.final (MockAxeService.deleteAxe "a1" service1))) = [].
Proof.
  destruct (delete_broadcast_is_optimistic_delete [instrument0] service1 "a1"
              wellFormed_service1 ltac:(left)) as (_ & _ & H & _).
  exact H.
Defined.

Lemma predicts_intro (mockInstruments : list BondInstrument.t) (fresh now' : string)
    (s : MockAxeService.t) (st : View.t) (e : Effect) (id now : string) (p : Issued)
    (f g : Axe.t → Axe.t) :
  issued e = [p] →
  (let o := useBondAxes.run mockInstruments fresh now' (command p) s in
   MockAxeService.result o = inr tt ∧
   JsMap.values (MockAxeService.axes (MockAxeService.final o)) =
     mapById id f (View.axes st)) →
  View.axes (update e st) = mapById id g (View.axes st) →
  (∀ a, a ∈ View.axes st → Axe.id a = id →
     sameButLastUpdate (f a) (g a) ∧ Axe.id (f a) = id ∧
     Axe.lastUpdate (f a) = now' ∧ Axe.lastUpdate (g a) = now) →
  predicts mockInstruments fresh now' s st e id now.
Proof.
  intros Hp [Hres Hstore] Hview Hfg. exists p. split; [done|]. cbv zeta.
  split; [done|]. rewrite Hstore, Hview. unfold mapById.
  apply Forall2_fmap, Forall_Forall2_diag, Forall_forall. intros a Ha.
  destruct (decide (Axe.id a = id)) as [Hid|Hid].
  - rewrite (bool_decide_eq_true_2 _ Hid).
    destruct (Hfg a Ha Hid) as (Hsame & Hfid & Hf & Hg).
    split; [done|]. by rewrite (bool_decide_eq_true_2 _ Hfid).
  - rewrite !(bool_decide_eq_false_2 _ Hid). by split.
Qed.

(** X6. The status buttons predict the store.  For a view that holds the
    store's array and a row whose record the store holds, [handlePauseResume]
    and [handleBlockUnblock] leave every record of the row's identifier with
    the new status (ACTIVE when the row was PAUSED, or BLOCKED, and that
    status otherwise) and the time of the click, its other fields and every
    other record as they were; the command they issue succeeds on the store,
    whenever it runs, and the array the store then broadcasts is the list the
    handler left in the view up to the time of the last update of that
    record, which is the store's own, later, reading of the clock. *)
Theorem status_broadcast_is_optimistic_update
    (mockInstruments : list BondInstrument.t) (s : MockAxeService.t) (st : View.t)
    (row : Axe.t) (fresh now now' : string) :
  wellFormed mockInstruments s →
  View.axes st = JsMap.values (MockAxeService.axes s) →
  Axe.id row ∈ JsMap.keys (MockAxeService.axes s) →
  let toggled (other : AxeStatus) :=
    if bool_decide (Axe.status row = other) then ACTIVE else other in
  let spec (e : Effect) (status : AxeStatus) :=
    Forall2
      (λ before after,
         if bool_decide (Axe.id before = Axe.id row)
         then sameButStatus before after ∧
              Axe.status after = status ∧
              Axe.lastUpdate after = now
         else after = before)
      (View.axes st) (View.axes (update e st)) ∧
    predicts mockInstruments fresh now' s st e (Axe.id row) now in
  spec (V4.handlePauseResume now row) (toggled PAUSED) ∧
  spec (V4.handleBlockUnblock now row) (toggled BLOCKED) ∧
  spec (V6.handlePauseResume now row) (toggled PAUSED) ∧
  spec (V6.handleBlockUnblock now row) (toggled BLOCKED).
Proof.
  intros (Hnd & Hrec & Hls) Hst Hid toggled spec.
  assert (Hkeyed : Forall (λ e, Axe.id e.2 = e.1) (MockAxeService.axes s)).
  { eapply Forall_impl; [done|]. by intros e [? _]. }
  apply JsMapFacts.get_Some_keys in Hid as [axe Hget].
  assert (Hset : ∀ status,
    let o := MockAxeService.setStatus now' (Axe.id row) status s in
    MockAxeService.result o = inr tt ∧
    JsMap.values (MockAxeService.axes (MockAxeService.final o)) =
      mapById (Axe.id row) (λ a, withStatusAt a status now') (View.axes st)).
  { intros status. rewrite (setStatus_found _ _ _ _ _ Hget). simpl. split; [done|].
    rewrite Hst. by apply (values_set_present _ _ (λ a, withStatusAt a status now')). }
  assert (Hspec : ∀ e p status,
    issued e = [p] →
    useBondAxes.run mockInstruments fresh now' (command p) s =
      MockAxeService.setStatus now' (Axe.id row) status s →
    update e = View.setAxes (mapById (Axe.id row) (λ a, withStatusAt a status now)) →
    spec e status).
  { intros e p status Hp Hrun Hupd. subst spec. cbv beta. split.
    - rewrite Hupd. cbn [View.setAxes View.axes]. apply mapById_Forall2. intros a _.
      by case_bool_decide.
    - apply (predicts_intro _ _ _ _ _ _ _ _ p
               (λ a, withStatusAt a status now') (λ a, withStatusAt a status now));
        [done| |by rewrite Hupd|done].
      cbv zeta. rewrite Hrun. apply Hset. }
  assert (Hpr : spec (pauseResume now row) (toggled PAUSED)).
  { subst toggled. cbv beta.
    eapply Hspec; [reflexivity| |]; cbn [pauseResume command update];
      by destruct (bool_decide (Axe.status row = PAUSED)). }
  assert (Hbu : spec (blockUnblock now row) (toggled BLOCKED)).
  { subst toggled. cbv beta.
    eapply Hspec; [reflexivity| |]; cbn [blockUnblock command update];
      by destruct (bool_decide (Axe.status row = BLOCKED)). }
  done.
Qed.

(** The paused record of [service1] is resumed: the view shows it ACTIVE
    with the time of the click, the store holds it ACTIVE with its own. *)
Lemma status_broadcast_is_optimistic_update_witness :
  let now := "2026-01-05T09:02:00.000Z" in
  let now' := "2026-01-05T09:02:00.300Z" in
  let st := useBondAxes.listener (JsMap.values (MockAxeService.axes service1)) View.init in
  let e := V4.handlePauseResume now (withStatusAt axe1 PAUSED "2026-01-05T09:01:00.000Z") in
  ∃ p stored shown,
    issued e = [p] ∧
    JsMap.values
      (MockAxeService.axes
         (MockAxeService.final
            (useBondAxes.run [instrument0] "generated-uuid" now' (command p) service1))) =
      [stored] ∧
    View.axes (update e st) = [shown] ∧
    (Axe.id stored, Axe.status stored, Axe.lastUpdate stored) = ("a1", ACTIVE, now') ∧
    (Axe.id shown, Axe.status shown, Axe.lastUpdate shown) = ("a1", ACTIVE, now).
Proof.
  intros now now' st e.
  destruct (status_broadcast_is_optimistic_update [instrument0] service1 st
              (withStatusAt axe1 PAUSED "2026-01-05T09:01:00.000Z")
              "generated-uuid" now now'
              wellFormed_service1 eq_refl ltac:(left)) as [[Hshown (p & Hp & _ & Hall)] _].
  fold e in Hshown, Hp, Hall. cbv zeta in Hall.
  change (View.axes st) with [withStatusAt axe1 PAUSED "2026-01-05T09:01:00.000Z"] in Hshown.
  apply Forall2_cons_inv_l in Hshown as (shown & rest & Hs & Hnil & Hview).
  apply Forall2_nil_inv_l in Hnil as ->. rewrite Hview in Hall.
  apply Forall2_cons_inv_r in Hall as (stored & rest & Hr & Hnil & Hstore).
  apply Forall2_nil_inv_r in Hnil as ->.
  exists p, stored, shown. split; [done|]. split; [done|]. split; [done|].
  change (bool_decide _) with true in Hs.
  destruct Hs as ((Hid & _) & Hstatus & Hlast).
  destruct Hr as ((Hid' & _ & _ & _ & _ & _ & _ & Hstatus') & Hif).
  change (Axe.id (withStatusAt axe1 PAUSED "2026-01-05T09:01:00.000Z")) with "a1"
    in Hid, Hif.
  rewrite Hid in Hid'. rewrite Hid' in Hif.
  change (bool_decide ("a1" = "a1")) with true in Hif. destruct Hif as [Hlast' _].
  rewrite Hid, Hid', Hstatus', Hstatus, Hlast, Hlast'. done.
Defined.

(** X7. Saving a row predicts the store.  For a view that holds the store's
    array and a row with a Pending Edit whose record the store holds under a
    non-empty identifier, [handleSaveRow] leaves the record with the drafted
    side and quantity (the record's own where the draft has none) and the
    time of the click, its other fields and every other record as they were;
    the update command it issues succeeds on the store, whenever it runs,
    and the array the store then broadcasts is the list the handler left in
    the view up to the time of the last update of that record, which is the
    store's own, later, reading of the clock: the record keeps its place, its
    status and its instrument attributes and takes the saved side and
    quantity. *)
Theorem save_broadcast_is_optimistic_save
    (mockInstruments : list BondInstrument.t) (s : MockAxeService.t) (st : View.t)
    (axe : Axe.t) (edits : PendingEdit.t) (fresh now now' : string) :
  wellFormed mockInstruments s →
  View.axes st = JsMap.values (MockAxeService.axes s) →
  View.pendingEdits st !! Axe.id axe = Some edits →
  JsMap.get (Axe.id axe) (MockAxeService.axes s) = Some axe →
  Axe.id axe ≠ "" →
  let spec (e : Effect) :=
    Forall2
      (λ before after,
         if bool_decide (Axe.id before = Axe.id axe)
         then sameButDraftable before after ∧
              Axe.side after = default (Axe.side axe) (PendingEdit.side edits) ∧
              Axe.quantity after =
                default (Axe.quantity axe) (PendingEdit.quantity edits) ∧
              Axe.lastUpdate after = now
         else after = before)
      (View.axes st) (View.axes (update e st)) ∧
    predicts mockInstruments fresh now' s st e (Axe.id axe) now in
  spec (V6.handleSaveRow st now axe) ∧ spec (V4.handleSaveRow st now axe).
Proof.
  intros (Hnd & Hrec & Hls) Hst Hedits Hget Hne spec.
  assert (Hkeyed : Forall (λ e, Axe.id e.2 = e.1) (MockAxeService.axes s)).
  { eapply Forall_impl; [done|]. by intros e [? _]. }
  assert (Hfind : findAxe (Axe.id axe) (View.axes st) = Some axe).
  { by rewrite Hst, findAxe_values. }
  pose proof (JsMap_get_Some_elem _ _ _ Hget) as Hin.
  apply (proj1 (Forall_forall _ _) Hrec) in Hin as [_ (i & Hi & Hisin & Hdesc & Hmat & Hiss)].
  simpl in *.
  set (side := default (Axe.side axe) (PendingEdit.side edits)).
  set (quantity := default (Axe.quantity axe) (PendingEdit.quantity edits)).
  assert (Hrun :
    let o := useBondAxes.run mockInstruments fresh now'
      (CreateOrUpdateAxe {|
         CreateOrUpdateAxeRequest.id := Some (Axe.id axe);
         CreateOrUpdateAxeRequest.isin := Axe.isin axe;
         CreateOrUpdateAxeRequest.side := side;
         CreateOrUpdateAxeRequest.quantity := quantity |}) s in
    MockAxeService.result o = inr tt ∧
    JsMap.values (MockAxeService.axes (MockAxeService.final o)) =
      mapById (Axe.id axe) (λ a, withSideQuantityAt a side quantity now') (View.axes st)).
  { cbn [useBondAxes.run]. unfold MockAxeService.bind.
    rewrite (createOrUpdateAxe_found mockInstruments fresh now'
               {| CreateOrUpdateAxeRequest.id := Some (Axe.id axe);
                  CreateOrUpdateAxeRequest.isin := Axe.isin axe;
                  CreateOrUpdateAxeRequest.side := side;
                  CreateOrUpdateAxeRequest.quantity := quantity |} s i Hi). simpl.
    split; [done|]. rewrite Hst.
    rewrite <- (values_set_present _ _ (λ a, withSideQuantityAt a side quantity now') axe
                  Hnd Hkeyed Hget).
    f_equal. f_equal. unfold upserted, withSideQuantityAt. simpl.
    rewrite bool_decide_false by done. simpl.
    unfold JsMap.has. rewrite Hget. simpl.
    by rewrite Hisin, Hdesc, Hmat, Hiss. }
  assert (Hspec : ∀ e p,
    issued e = [p] →
    command p = CreateOrUpdateAxe {|
      CreateOrUpdateAxeRequest.id := Some (Axe.id axe);
      CreateOrUpdateAxeRequest.isin := Axe.isin axe;
      CreateOrUpdateAxeRequest.side := side;
      CreateOrUpdateAxeRequest.quantity := quantity |} →
    View.axes (update e st) =
      mapById (Axe.id axe) (λ a, withSideQuantityAt a side quantity now) (View.axes st) →
    spec e).
  { intros e p Hp Hc Hupd. subst spec. cbv beta. split.
    - rewrite Hupd. apply mapById_Forall2. intros a _. by case_bool_decide.
    - apply (predicts_intro _ _ _ _ _ _ _ _ p
               (λ a, withSideQuantityAt a side quantity now')
               (λ a, withSideQuantityAt a side quantity now)); [done| |done|done].
      rewrite Hc. exact Hrun. }
  split.
  - unfold V6.handleSaveRow. rewrite Hedits, Hfind. eapply Hspec; reflexivity.
  - unfold V4.handleSaveRow. rewrite Hedits. eapply Hspec; reflexivity.
Qed.

(** The draft of [axe1] is saved: the view shows quantity 2000000 with the
    time of the click, the store holds it with its own. *)
Lemma save_broadcast_is_optimistic_save_witness :
  let now := "2026-01-05T09:03:00.000Z" in
  let now' := "2026-01-05T09:03:00.300Z" in
  let s := {| MockAxeService.axes := [("a1", axe1)];
              MockAxeService.listeners := [System.viewListener] |} in
  let e := V6.handleSaveRow view1 now axe1 in
  ∃ p stored shown,
    issued e = [p] ∧
    JsMap.values
      (MockAxeService.axes
         (MockAxeService.final
            (useBondAxes.run [instrument0] "generated-uuid" now' (command p) s))) =
      [stored] ∧
    View.axes (update e view1) = [shown] ∧
    (Axe.id stored, Axe.side stored, Axe.quantity stored, Axe.lastUpdate stored) =
      ("a1", Bid, 2000000%Z, now') ∧
    (Axe.id shown, Axe.side shown, Axe.quantity shown, Axe.lastUpdate shown) =
      ("a1", Bid, 2000000%Z, now).
Proof.
  intros now now' s e.
  assert (Hwf : wellFormed [instrument0] s).
  { split_and!; [apply NoDup_singleton | | apply NoDup_singleton].
    constructor; [|constructor]. split; [reflexivity|]. by exists instrument0. }
  destruct (save_broadcast_is_optimistic_save [instrument0] s view1 axe1
              {| PendingEdit.side := None; PendingEdit.quantity := Some 2000000%Z |}
              "generated-uuid" now now'
              Hwf eq_refl eq_refl eq_refl ltac:(discriminate))
    as [[Hshown (p & Hp & _ & Hall)] _].
  fold e in Hshown, Hp, Hall. cbv zeta in Hall.
  change (View.axes view1) with [axe1] in Hshown.
  apply Forall2_cons_inv_l in Hshown as (shown & rest & Hs & Hnil & Hview).
  apply Forall2_nil_inv_l in Hnil as ->. rewrite Hview in Hall.
  apply Forall2_cons_inv_r in Hall as (stored & rest & Hr & Hnil & Hstore).
  apply Forall2_nil_inv_r in Hnil as ->.
  exists p, stored, shown. split; [done|]. split; [done|]. split; [done|].
  change (bool_decide _) with true in Hs.
  destruct Hs as ((Hid & _) & Hside & Hqty & Hlast).
  destruct Hr as ((Hid' & _ & _ & _ & _ & Hside' & Hqty' & _) & Hif).
  change (Axe.id axe1) with "a1" in Hid, Hif.
  rewrite Hid in Hid'. rewrite Hid' in Hif.
  change (bool_decide ("a1" = "a1")) with true in Hif. destruct Hif as [Hlast' _].
  rewrite Hid, Hid', Hside', Hqty', Hside, Hqty, Hlast, Hlast'. done.
Defined.

(** X8. A create from the pinned row does not predict the store.  With an
    instrument of the directory selected and a quantity of at least 1, the
    handler puts its optimistic record first in the view, under the
    identifier the view generated; the store appends the record it creates
    last, under the identifier it generates itself.  The two records agree on
    instrument, side, quantity and status. *)
Theorem created_record_goes_last
    (mockInstruments : list BondInstrument.t) (s : MockAxeService.t) (st : View.t)
    (instrument : BondInstrument.t) (quantity : Z) (newId fresh now now' : string) :
  View.axes st = JsMap.values (MockAxeService.axes s) →
  PinnedRow.isin (View.pinnedRow st) ≠ "" →
  MockAxeService.findInstrument mockInstruments (PinnedRow.isin (View.pinnedRow st)) =
    Some instrument →
  PinnedRow.quantity (View.pinnedRow st) = Some quantity →
  (1 ≤ quantity)%Z →
  fresh ∉ JsMap.keys (MockAxeService.axes s) →
  let e := V6.handleCreatePinned st newId now in
  ∃ p optimistic confirmed,
    issued e = [p] ∧
    View.axes (update e st) = optimistic :: View.axes st ∧
    let o := useBondAxes.run mockInstruments fresh now' (command p) s in
    MockAxeService.result o = inr tt ∧
    JsMap.values (MockAxeService.axes (MockAxeService.final o)) =
      View.axes st ++ [confirmed] ∧
    Axe.id optimistic = newId ∧ Axe.id confirmed = fresh ∧
    Axe.isin confirmed = Axe.isin optimistic ∧
    Axe.side confirmed = Axe.side optimistic ∧
    Axe.quantity confirmed = Axe.quantity optimistic ∧
    Axe.status confirmed = ACTIVE ∧ Axe.status optimistic = ACTIVE.
Proof.
  intros Hst Hisin Hfind Hqty Hge Hfresh e. subst e.
  unfold V6.handleCreatePinned. rewrite bool_decide_false by done.
  rewrite Hqty. destruct (Z.ltb_spec quantity 1) as [?|_]; [lia|].
  eexists _, _, _. split; [reflexivity|]. split; [reflexivity|].
  cbn [command useBondAxes.run]. unfold MockAxeService.bind.
  rewrite (createOrUpdateAxe_found mockInstruments fresh now'
             {| CreateOrUpdateAxeRequest.id := None;
                CreateOrUpdateAxeRequest.isin := PinnedRow.isin (View.pinnedRow st);
                CreateOrUpdateAxeRequest.side := PinnedRow.side (View.pinnedRow st);
                CreateOrUpdateAxeRequest.quantity := quantity |} s instrument Hfind).
  simpl. split; [done|]. split.
  - rewrite Hst. apply values_set_absent. by apply JsMapFacts.get_None_keys.
  - split_and!; try done. by apply findInstrument_isin in Hfind.
Qed.

Lemma created_record_goes_last_witness :
  ∃ p, issued (V6.handleCreatePinned
                 (View.setAxes (λ _, [axe1]) view2) "c1" "2026-01-05T09:00:01.000Z") = [p] ∧
    Axe.id <$>
      JsMap.values
        (MockAxeService.axes
           (MockAxeService.final
              (useBondAxes.run [instrument0] "s1" "2026-01-05T09:00:01.300Z" (command p)
                 {| MockAxeService.axes := [("a1", axe1)];
                    MockAxeService.listeners := [System.viewListener] |}))) =
    ["a1"; "s1"].
Proof.
  destruct (created_record_goes_last [instrument0]
              {| MockAxeService.axes := [("a1", axe1)];
                 MockAxeService.listeners := [System.viewListener] |}
              (View.setAxes (λ _, [axe1]) view2) instrument0 1000000%Z
              "c1" "s1" "2026-01-05T09:00:01.000Z" "2026-01-05T09:00:01.300Z"
              eq_refl ltac:(discriminate) eq_refl eq_refl ltac:(lia)
              ltac:(apply (bool_decide_unpack _); vm_compute; reflexivity))
    as (p & optimistic & confirmed & Hp & _ & _ & Hvals & _ & Hid & _).
  exists p. split; [exact Hp|]. rewrite Hvals, fmap_app. simpl.
  by rewrite Hid.
Defined.

(** ** Listeners *)

(** A command either succeeds and broadcasts, or rejects and does neither. *)
Lemma run_outcome mockInstruments fresh now c s :
  let o := useBondAxes.run mockInstruments fresh now c s in
  (MockAxeService.result o = inr tt ∧
   MockAxeService.listeners (MockAxeService.final o) = MockAxeService.listeners s ∧
   MockAxeService.emitted o = snapshotFor (MockAxeService.final o)) ∨
  (∃ e, MockAxeService.result o = inl e ∧
        MockAxeService.final o = s ∧ MockAxeService.emitted o = []).
Proof.
  intros o. destruct (MockAxeService.result o) as [e|[]] eqn:Hres.
  - right. exists e. split; [done|]. subst o. revert Hres.
    destruct c as [request|id|id|id|id|id]; cbn [useBondAxes.run];
      unfold MockAxeService.pauseAxe, MockAxeService.resumeAxe,
        MockAxeService.blockAxe, MockAxeService.unblockAxe.
    + unfold MockAxeService.bind.
      destruct (MockAxeService.findInstrument mockInstruments
                  (CreateOrUpdateAxeRequest.isin request)) as [instrument|] eqn:Hfind.
      * by rewrite (createOrUpdateAxe_found _ _ _ _ _ _ Hfind).
      * by rewrite (createOrUpdateAxe_missing _ _ _ _ _ Hfind).
    + by status_cases id s.
    + by status_cases id s.
    + by status_cases id s.
    + by status_cases id s.
    + destruct (JsMap.has id (MockAxeService.axes s)) eqn:Hhas.
      * by rewrite (deleteAxe_found _ _ Hhas).
      * by rewrite (deleteAxe_missing _ _ Hhas).
  - left. split; [done|]. by apply run_success.
Qed.

Lemma JsSet_elem_of_delete (l l' : AxeListener) (s : JsSet.t) :
  l' ∈ JsSet.delete l s ↔ l' ∈ s ∧ l' ≠ l.
Proof. unfold JsSet.delete, JsSet.t. rewrite list_elem_of_filter. tauto. Qed.

Lemma JsSet_delete_add (l : AxeListener) (s : JsSet.t) :
  l ∉ s → JsSet.delete l (JsSet.add l s) = s.
Proof.
  unfold JsSet.add, JsSet.delete, JsSet.t. intros Hl.
  rewrite decide_False by done.
  induction s as [|x s IH].
  - rewrite app_nil_l, filter_cons, decide_False; [done|]. intros H. by apply H.
  - rewrite <- app_comm_cons, filter_cons, decide_True.
    + f_equal. apply IH; intros H; apply Hl; by right.
    + intros ->. apply Hl. left.
Qed.

(** X9. The function [subscribe] returns takes the listener out of the set
    and touches nothing else: no later command calls that listener, every
    other registered listener is still called with the full array by every
    command that succeeds, and unsubscribing a listener that was newly
    subscribed gives back the service as it was. *)
Theorem unsubscribed_listener_is_not_called
    (mockInstruments : list BondInstrument.t) (s : MockAxeService.t) (l : AxeListener)
    (fresh now : string) (c : Command) :
  let s1 := MockAxeService.final (MockAxeService.unsubscribe l s) in
  let o := useBondAxes.run mockInstruments fresh now c s1 in
  MockAxeService.axes s1 = MockAxeService.axes s ∧
  (∀ l', l' ∈ MockAxeService.listeners s1 ↔ l' ∈ MockAxeService.listeners s ∧ l' ≠ l) ∧
  (∀ d, d ∈ MockAxeService.emitted o → d.1 ≠ l) ∧
  (MockAxeService.result o = inr tt →
     ∀ l', l' ∈ MockAxeService.listeners s → l' ≠ l →
       (l', JsMap.values (MockAxeService.axes (MockAxeService.final o))) ∈
         MockAxeService.emitted o) ∧
  (l ∉ MockAxeService.listeners s →
     MockAxeService.final
       (MockAxeService.unsubscribe l
          (MockAxeService.final (MockAxeService.subscribe l s))) = s).
Proof.
  intros s1 o. subst s1 o. rewrite unsubscribe_run. cbn [MockAxeService.final].
  set (s1 := {| MockAxeService.axes := MockAxeService.axes s;
                MockAxeService.listeners := JsSet.delete l (MockAxeService.listeners s) |}).
  assert (Hback : l ∉ MockAxeService.listeners s →
            MockAxeService.final
              (MockAxeService.unsubscribe l
                 (MockAxeService.final (MockAxeService.subscribe l s))) = s).
  { intros Hl. rewrite subscribe_run, unsubscribe_run. simpl.
    rewrite JsSet_delete_add by done. by destruct s. }
  split; [done|]. split; [intros l'; apply JsSet_elem_of_delete|].
  destruct (run_outcome mockInstruments fresh now c s1)
    as [(Hok & Hls & Hem)|(e & Hrej & _ & Hem)]; rewrite Hem.
  - split_and!; [| |done].
    + intros d Hd. unfold snapshotFor in Hd.
      apply list_elem_of_fmap in Hd as (l' & -> & Hl'). simpl.
      rewrite Hls in Hl'. by apply JsSet_elem_of_delete in Hl' as [_ ?].
    + intros _ l' Hl' Hne. unfold snapshotFor.
      apply list_elem_of_fmap. exists l'. split; [done|].
      rewrite Hls. by apply JsSet_elem_of_delete.
  - split_and!; [| |done].
    + intros d Hd. by apply elem_of_nil in Hd.
    + intros Hok. congruence.
Qed.

Lemma not_called (xs : list Axe.t) (l : AxeListener) (ls : list AxeListener) :
  l ∉ ls → filter (λ d : Delivery, d.1 = l) ((λ l', (l', xs)) <$> ls) = [].
Proof.
  induction ls as [|x ls IH]; intros Hl; [done|].
  rewrite fmap_cons, filter_cons. simpl. rewrite decide_False.
  - apply IH. intros H. apply Hl. by right.
  - intros ->. apply Hl. left.
Qed.

Lemma called_once (xs : list Axe.t) (l : AxeListener) (ls : list AxeListener) :
  NoDup ls → l ∈ ls →
  length (filter (λ d : Delivery, d.1 = l) ((λ l', (l', xs)) <$> ls)) = 1.
Proof.
  intros Hnd. induction Hnd as [|x ls Hx Hnd IH]; intros Hl.
  - by apply elem_of_nil in Hl.
  - rewrite fmap_cons, filter_cons. simpl. destruct (decide (x = l)) as [->|Hne].
    + by rewrite not_called.
    + apply IH. apply elem_of_cons in Hl as [->|Hl]; done.
Qed.

(** X10. Subscribing a listener that is already registered registers
    nothing new but calls it again, at once, with the current array; and a
    registered listener is called exactly once by each command that succeeds,
    however often it subscribed. *)
Theorem resubscribing_registers_once
    (mockInstruments : list BondInstrument.t) (s : MockAxeService.t) (l : AxeListener)
    (fresh now : string) (c : Command) :
  NoDup (MockAxeService.listeners s) →
  let s1 := MockAxeService.final (MockAxeService.subscribe l s) in
  let again := MockAxeService.subscribe l s1 in
  let o := useBondAxes.run mockInstruments fresh now c (MockAxeService.final again) in
  MockAxeService.final again = s1 ∧
  MockAxeService.emitted again = [(l, JsMap.values (MockAxeService.axes s))] ∧
  (MockAxeService.result o = inr tt →
     length (filter (λ d : Delivery, d.1 = l) (MockAxeService.emitted o)) = 1).
Proof.
  intros Hnd s1 again o. subst s1 again o. rewrite !subscribe_run.
  cbn [MockAxeService.final MockAxeService.emitted MockAxeService.axes
       MockAxeService.listeners].
  assert (Hadd : JsSet.add l (JsSet.add l (MockAxeService.listeners s)) =
                 JsSet.add l (MockAxeService.listeners s)).
  { unfold JsSet.add at 1. rewrite decide_True; [done|]. apply JsSetFacts_elem_of_add. }
  rewrite Hadd. split; [done|]. split; [done|].
  set (s1 := {| MockAxeService.axes := MockAxeService.axes s;
                MockAxeService.listeners := JsSet.add l (MockAxeService.listeners s) |}).
  intros Hok.
  destruct (run_outcome mockInstruments fresh now c s1)
    as [(_ & Hls & Hem)|(e & Hrej & _)]; [|congruence].
  rewrite Hem. unfold snapshotFor. rewrite Hls.
  apply called_once; [by apply JsSet_NoDup_add | apply JsSetFacts_elem_of_add].
Qed.

Lemma resubscribing_registers_once_witness :
  MockAxeService.listeners
    (MockAxeService.final
       (MockAxeService.subscribe System.viewListener
          (MockAxeService.final (MockAxeService.subscribe System.viewListener service1)))) =
  [System.viewListener].
Proof.
  destruct (resubscribing_registers_once [instrument0] service1 System.viewListener
              "generated-uuid" "2026-01-05T09:02:00.000Z" (ResumeAxe "a1")
              ltac:(apply NoDup_singleton)) as [H _].
  rewrite H. reflexivity.
Defined.

(** ** The action buttons *)

(** X11. The buttons keep the status moves that the store does not check.
    Whatever an enabled button of a row issues is about that row, and a status
    command is issued only from the status it leaves: pause and block from
    ACTIVE, resume from PAUSED, unblock from BLOCKED.  While the row has a
    Pending Edit no enabled button issues a status command at all.  A
    disabled button would have issued a command from another status: the
    flag, not the handler, is what prevents it. *)
Theorem enabled_buttons_issue_legal_moves
    (st : View.t) (now newId : string) (axe : Axe.t) (isNew : option bool) :
  let row := AxeRow.mk axe isNew in
  (∀ icon p,
     icon ∈ V4Actions.ActionsRenderer (View.pendingEdits st) (Some axe) →
     p ∈ issued (V4.handler st now (ActionIcon.onClick icon)) →
     target (command p) = Some (Axe.id axe) ∧
     (ActionIcon.disabled icon = false →
        moves (Axe.status axe) (command p) ∧
        (is_Some (View.pendingEdits st !! Axe.id axe) →
           (∃ request, command p = CreateOrUpdateAxe request) ∨ command p = DeleteAxe (Axe.id axe))) ∧
     (ActionIcon.disabled icon = true → ¬ moves (Axe.status axe) (command p))) ∧
  (∀ icon p,
     icon ∈ V6Actions.ActionsRenderer (View.pendingEdits st) (Some (V6Actions.Body row)) →
     p ∈ issued (V6.handler st now (ActionIcon.onClick icon newId)) →
     target (command p) = Some (Axe.id axe) ∧
     (ActionIcon.disabled icon = false →
        moves (Axe.status axe) (command p) ∧
        (is_Some (View.pendingEdits st !! Axe.id axe) →
           (∃ request, command p = CreateOrUpdateAxe request) ∨ command p = DeleteAxe (Axe.id axe))) ∧
     (ActionIcon.disabled icon = true → ¬ moves (Axe.status axe) (command p))).
Proof.
  intros row. subst row. split.
  - intros icon p Hicon Hp.
    unfold V4Actions.ActionsRenderer in Hicon.
    destruct (View.pendingEdits st !! Axe.id axe) as [edits|] eqn:Hpe.
    + rewrite bool_decide_eq_true_2 in Hicon by done.
      cbn [app] in Hicon.
      repeat (apply elem_of_cons in Hicon as [->|Hicon]);
        [| | |by apply elem_of_nil in Hicon];
        cbn [ActionIcon.onClick ActionIcon.disabled V4.handler] in *.
      * unfold V4.handleSaveRow in Hp. rewrite Hpe in Hp. cbn [issued] in Hp.
        apply list_elem_of_singleton in Hp as ->. cbn [command target moves].
        split_and!; [done| |done]. intros _. split; [done|]. intros _. left. eauto.
      * by apply elem_of_nil in Hp.
      * apply list_elem_of_singleton in Hp as ->. cbn [command target moves].
        split_and!; [done| |done]. intros _. split; [done|]. intros _.
        by right.
    + rewrite bool_decide_eq_false_2 in Hicon by (by intros [? ?]).
      cbn [app] in Hicon.
      repeat (apply elem_of_cons in Hicon as [->|Hicon]);
        [| | |by apply elem_of_nil in Hicon];
        cbn [ActionIcon.onClick ActionIcon.disabled V4.handler] in *;
        unfold V4.handlePauseResume, V4.handleBlockUnblock, V4.handleDelete,
          pauseResume, blockUnblock, deleteRow in Hp; cbn [issued] in Hp;
        apply list_elem_of_singleton in Hp as ->; cbn [command];
        destruct (Axe.status axe); simpl;
        (split_and!; [done| |done || (intros _; congruence)]);
        try done; intros _; (split; [done|]); by intros [? ?].
  - intros icon p Hicon Hp.
    unfold V6Actions.ActionsRenderer in Hicon. cbn [AxeRow.axe] in Hicon.
    destruct (View.pendingEdits st !! Axe.id axe) as [edits|] eqn:Hpe.
    + rewrite bool_decide_eq_true_2 in Hicon by done.
      cbn [app] in Hicon.
      repeat (apply elem_of_cons in Hicon as [->|Hicon]);
        [| | |by apply elem_of_nil in Hicon];
        cbn [ActionIcon.onClick ActionIcon.disabled V6.handler] in *.
      * unfold V6.handleSaveRow in Hp. rewrite Hpe in Hp.
        destruct (findAxe (Axe.id axe) (View.axes st)); cbn [issued nothing] in Hp;
          [|by apply elem_of_nil in Hp].
        apply list_elem_of_singleton in Hp as ->. cbn [command target moves].
        split_and!; [done| |done]. intros _. split; [done|]. intros _. left. eauto.
      * by apply elem_of_nil in Hp.
      * apply list_elem_of_singleton in Hp as ->. cbn [command target moves].
        split_and!; [done| |done]. intros _. split; [done|]. intros _.
        by right.
    + rewrite bool_decide_eq_false_2 in Hicon by (by intros [? ?]).
      cbn [app] in Hicon.
      repeat (apply elem_of_cons in Hicon as [->|Hicon]);
        [| | |by apply elem_of_nil in Hicon];
        cbn [ActionIcon.onClick ActionIcon.disabled V6.handler] in *;
        unfold V6.handlePauseResume, V6.handleBlockUnblock, V6.handleDelete,
          pauseResume, blockUnblock, deleteRow in Hp; cbn [issued] in Hp;
        apply list_elem_of_singleton in Hp as ->; cbn [command];
        destruct (Axe.status axe); simpl;
        (split_and!; [done| |done || (intros _; congruence)]);
        try done; intros _; (split; [done|]); by intros [? ?].
Qed.

(** X12. The pinned row's buttons and [handleCreatePinned] apply the same
    test.  When the buttons are enabled, a click on Create passes the
    handler's validation: it issues one create command without identifier for
    the pinned row's instrument, side and quantity, puts the optimistic row
    first, and clears the pinned row so that both buttons are disabled again.
    When they are disabled, the handler would only have shown a validation
    notification: no command, no change to the rows, the drafts or the pinned
    row. *)
Theorem create_button_matches_validation (st : View.t) (newId now : string) :
  let pinned := View.pinnedRow st in
  let icons := V6Actions.ActionsRenderer (View.pendingEdits st)
                 (Some (V6Actions.PinnedTop pinned)) in
  let e := V6.handler st now (V6.CreatePinned newId) in
  Forall (λ icon, ActionIcon.disabled icon = negb (V6Actions.canCreate pinned)) icons ∧
  (V6Actions.canCreate pinned = true →
     ∃ p quantity,
       issued e = [p] ∧
       PinnedRow.quantity pinned = Some quantity ∧
       command p = CreateOrUpdateAxe {|
         CreateOrUpdateAxeRequest.id := None;
         CreateOrUpdateAxeRequest.isin := PinnedRow.isin pinned;
         CreateOrUpdateAxeRequest.side := PinnedRow.side pinned;
         CreateOrUpdateAxeRequest.quantity := quantity |} ∧
       View.ids (update e st) = newId :: View.ids st ∧
       View.pendingEdits (update e st) = View.pendingEdits st ∧
       V6Actions.canCreate (View.pinnedRow (update e st)) = false) ∧
  (V6Actions.canCreate pinned = false →
     issued e = [] ∧
     View.axes (update e st) = View.axes st ∧
     View.pendingEdits (update e st) = View.pendingEdits st ∧
     View.pinnedRow (update e st) = pinned ∧
     ∃ msg, View.notifications (update e st) = View.notifications st ++ [validation msg]).
Proof.
  intros pinned icons e. subst icons e. cbn [V6.handler].
  unfold V6.handleCreatePinned, V6Actions.canCreate. fold pinned.
  split_and!.
  - by repeat constructor.
  - intros Hcan. apply andb_true_iff in Hcan as [Hisin Hq].
    apply negb_true_iff in Hisin. rewrite Hisin.
    destruct (PinnedRow.quantity pinned) as [quantity|]; [|done].
    apply Z.leb_le in Hq. rewrite (proj2 (Z.ltb_ge quantity 1)) by done.
    eexists _, quantity. by split_and!.
  - intros Hcan. apply andb_false_iff in Hcan as [Hisin|Hq].
    + apply negb_false_iff in Hisin. rewrite Hisin. split_and!; try done. by eexists.
    + destruct (bool_decide (PinnedRow.isin pinned = "")); [split_and!; try done; by eexists|].
      destruct (PinnedRow.quantity pinned) as [quantity|];
        [|split_and!; try done; by eexists].
      apply Z.leb_gt in Hq. rewrite (proj2 (Z.ltb_lt quantity 1)) by done.
      split_and!; try done. by eexists.
Qed.

Lemma create_button_matches_validation_witness :
  V6Actions.canCreate (View.pinnedRow View.init) = false ∧
  issued (V6.handler View.init "2026-01-05T09:00:00.000Z" (V6.CreatePinned "generated-uuid")) = [] ∧
  View.notifications
    (update (V6.handler View.init "2026-01-05T09:00:00.000Z" (V6.CreatePinned "generated-uuid"))
       View.init) = [validation "Please select a bond instrument"].
Proof.
  destruct (create_button_matches_validation View.init "generated-uuid"
              "2026-01-05T09:00:00.000Z") as (_ & _ & H).
  destruct (H eq_refl) as (Hi & _ & _ & _ & _). split; [reflexivity|]. split; [exact Hi|].
  reflexivity.
Defined.

(** ** Choosing an instrument *)

Lemma uint_of_char_None (c : ascii) : DecimalString.uint_of_char c None = None.
Proof. by destruct c as [[] [] [] [] [] [] [] []]. Qed.

Lemma digits_spaceFree (s : string) :
  is_Some (DecimalString.NilZero.uint_of_string s) → spaceFree s.
Proof.
  unfold DecimalString.NilZero.uint_of_string.
  destruct s as [|c0 r0]; [done|]. generalize (String c0 r0). clear. intros s.
  induction s as [|c r IH]; [done|]. cbn [DecimalString.NilEmpty.uint_of_string spaceFree].
  intros [d Hd]. destruct (DecimalString.NilEmpty.uint_of_string r) as [d'|] eqn:E.
  - split; [|apply IH; eauto]. intros ->. discriminate Hd.
  - by rewrite uint_of_char_None in Hd.
Qed.

Lemma spaceFree_app (a b : string) : spaceFree a → spaceFree b → spaceFree (a +:+ b).
Proof.
  intros Ha Hb. induction a as [|c a IH]; [done|].
  rewrite string_app_cons. destruct Ha as [Hc Ha]. split; [done|]. by apply IH.
Qed.

(** Equal strings split alike at their first space. *)
Lemma split_at_space (a a' b b' : string) :
  spaceFree a → spaceFree a' →
  a +:+ String " " b = a' +:+ String " " b' → a = a' ∧ b = b'.
Proof.
  revert a'. induction a as [|c a IH]; intros [|c' a'] Ha Ha' Heq.
  - rewrite !string_app_nil in Heq. by injection Heq as ->.
  - rewrite string_app_nil, string_app_cons in Heq. injection Heq as <- _.
    by destruct Ha' as [[] _].
  - rewrite string_app_nil, string_app_cons in Heq. injection Heq as -> _.
    by destruct Ha as [[] _].
  - rewrite !string_app_cons in Heq. injection Heq as -> Heq.
    destruct Ha as [_ Ha], Ha' as [_ Ha'].
    by destruct (IH a' Ha Ha' Heq) as [-> ->].
Qed.

Lemma generateISIN_spaceFree (index : nat) : spaceFree (mockData.generateISIN index).
Proof.
  unfold mockData.generateISIN. apply spaceFree_app; [|apply spaceFree_app].
  - unfold mockData.pick. simpl length.
    assert (H : index mod 12 < 12) by (apply Nat.mod_upper_bound; lia).
    remember (index mod 12) as m eqn:Hm. clear Hm.
    do 12 (destruct m as [|m]; [by repeat split|]). lia.
  - apply digits_spaceFree. pose proof (numberOf_padStart0 9 index) as H.
    unfold numberOf in H.
    destruct (DecimalString.NilZero.uint_of_string
                (mockData.padStart0 9 (mockData.decimal index))); [eauto|done].
  - by repeat split.
Qed.

(** In the generated universe the option text tells the instrument. *)
Lemma displayValue_inj (i j : nat) :
  displayValue (mockData.instrumentAt i) = displayValue (mockData.instrumentAt j) → i = j.
Proof.
  unfold displayValue. cbn [mockData.instrumentAt BondInstrument.isin].
  intros Heq. apply generateISIN_inj.
  by apply (split_at_space _ _ _ _ (generateISIN_spaceFree i) (generateISIN_spaceFree j)) in Heq
    as [? _].
Qed.

Lemma generated_instrument (count : nat) (x : BondInstrument.t) :
  x ∈ mockData.generateInstruments count ↔ ∃ i, i < count ∧ x = mockData.instrumentAt i.
Proof.
  unfold mockData.generateInstruments. rewrite list_elem_of_fmap. split.
  - intros (i & -> & Hi). apply elem_of_seq in Hi. exists i. split; [lia|done].
  - intros (i & Hi & ->). exists i. split; [done|]. apply elem_of_seq. lia.
Qed.

(** X13. Picking an option of the toolbar's search box selects the
    instrument the option was made from, in any generated universe and for
    any lower-casing: the option text is found again among the options, its
    code is the instrument's, and [getInstrument] resolves the code to that
    instrument.  Text that is none of the options selects nothing. *)
Theorem picking_an_option_selects_its_instrument
    (toLowerCase : string → string) (count : nat) (st : SearchBox.t)
    (i : BondInstrument.t) :
  let universe := mockData.generateInstruments count in
  i ∈ useBondInstruments.searchInstruments toLowerCase universe (SearchBox.searchValue st) →
  SearchBox.handleAutocompleteChange toLowerCase universe st (displayValue i) =
    {| SearchBox.searchValue := displayValue i; SearchBox.selectedInstrument := Some i |} ∧
  (∀ text,
     (∀ d, d ∈ SearchBox.autocompleteData toLowerCase universe (SearchBox.searchValue st) →
           SearchBox.value d ≠ text) →
     SearchBox.selectedInstrument
       (SearchBox.handleAutocompleteChange toLowerCase universe st text) = None).
Proof.
  intros universe Hi. unfold SearchBox.handleAutocompleteChange. split.
  - f_equal.
    assert (Hin : i ∈ universe).
    { revert Hi. unfold useBondInstruments.searchInstruments.
      destruct (_ || _); [by intros ?%elem_of_nil|].
      intros Hi%subseteq_take. apply list_elem_of_In, filter_In in Hi as [Hi _].
      by apply list_elem_of_In. }
    apply generated_instrument in Hin as (k & Hk & ->).
    destruct (List.find _ _) as [d|] eqn:Hfind.
    + apply find_some in Hfind as [Hd Hv]. apply bool_decide_eq_true_1 in Hv.
      apply list_elem_of_In in Hd. unfold SearchBox.autocompleteData in Hd.
      apply list_elem_of_fmap in Hd as (j & -> & Hj).
      cbn [SearchBox.value SearchBox.isin] in *.
      assert (Hjin : j ∈ universe).
      { revert Hj. unfold useBondInstruments.searchInstruments.
        destruct (_ || _); [by intros ?%elem_of_nil|].
        intros Hj%subseteq_take. apply list_elem_of_In, filter_In in Hj as [Hj _].
        by apply list_elem_of_In. }
      apply generated_instrument in Hjin as (k' & Hk' & ->).
      apply displayValue_inj in Hv as ->.
      unfold useBondInstruments.getInstrument, universe, mockData.generateInstruments.
      apply find_instrumentAt; [lia|done].
    + exfalso.
      assert (Hd : In {| SearchBox.value := displayValue (mockData.instrumentAt k);
                         SearchBox.isin := BondInstrument.isin (mockData.instrumentAt k) |}
                     (SearchBox.autocompleteData toLowerCase universe
                        (SearchBox.searchValue st))).
      { apply list_elem_of_In. unfold SearchBox.autocompleteData.
        apply list_elem_of_fmap. by exists (mockData.instrumentAt k). }
      apply (find_none _ _ Hfind) in Hd. cbn [SearchBox.value] in Hd.
      by apply bool_decide_eq_false_1 in Hd.
  - intros text Hnone. cbn [SearchBox.selectedInstrument].
    destruct (List.find _ _) as [d|] eqn:Hfind; [|done].
    apply find_some in Hfind as [Hd Hv]. apply bool_decide_eq_true_1 in Hv.
    apply list_elem_of_In in Hd. by destruct (Hnone d Hd).
Qed.

Lemma picking_an_option_selects_its_instrument_witness :
  SearchBox.selectedInstrument
    (SearchBox.handleAutocompleteChange useBondInstruments.latin1LowerCase
       (mockData.generateInstruments 20)
       {| SearchBox.searchValue := "gb0000000170"; SearchBox.selectedInstrument := None |}
       "GB0000000170 - HSBC 2.375% 2043 Inflation Linked") =
  Some (mockData.instrumentAt 17).
Proof.
  assert (Hs : useBondInstruments.searchInstruments useBondInstruments.latin1LowerCase
                 (mockData.generateInstruments 20) "gb0000000170" =
               [mockData.instrumentAt 17]) by (vm_compute; reflexivity).
  destruct (picking_an_option_selects_its_instrument useBondInstruments.latin1LowerCase 20
              {| SearchBox.searchValue := "gb0000000170";
                 SearchBox.selectedInstrument := None |}
              (mockData.instrumentAt 17)) as [H _].
  - cbn [SearchBox.searchValue]. rewrite Hs. apply list_elem_of_singleton. reflexivity.
  - change (displayValue (mockData.instrumentAt 17))
      with "GB0000000170 - HSBC 2.375% 2043 Inflation Linked" in H.
    rewrite H. reflexivity.
Defined.

Lemma displayToInstrument_snoc (l : list BondInstrument.t) (x : BondInstrument.t) :
  InstrumentSearchEditor.displayToInstrument (l ++ [x]) =
  JsMap.set (displayValue x) x (InstrumentSearchEditor.displayToInstrument l).
Proof. unfold InstrumentSearchEditor.displayToInstrument. by rewrite foldl_app. Qed.

Lemma displayToInstrument_get (l : list BondInstrument.t) (i : BondInstrument.t) :
  NoDup (displayValue <$> l) → i ∈ l →
  JsMap.get (displayValue i) (InstrumentSearchEditor.displayToInstrument l) = Some i.
Proof.
  induction l as [|x l IH] using rev_ind; intros Hnd Hi; [by apply elem_of_nil in Hi|].
  rewrite displayToInstrument_snoc. rewrite fmap_app in Hnd.
  apply NoDup_app in Hnd as (Hnd & Hx & _).
  apply elem_of_app in Hi as [Hi|Hi].
  - rewrite JsMapFacts.get_set_ne; [by apply IH|].
    intros Heq. apply (Hx (displayValue i)).
    + apply list_elem_of_fmap. by exists i.
    + rewrite <- Heq. apply list_elem_of_fmap. exists x. split; [done|].
      by apply list_elem_of_singleton.
  - apply list_elem_of_singleton in Hi as ->. apply JsMapFacts.get_set_eq.
Qed.

Lemma displayToInstrument_miss (l : list BondInstrument.t) (text : string) :
  text ∉ InstrumentSearchEditor.displayData l →
  JsMap.get text (InstrumentSearchEditor.displayToInstrument l) = None.
Proof.
  unfold InstrumentSearchEditor.displayData.
  induction l as [|x l IH] using rev_ind; intros Hmiss; [done|].
  rewrite displayToInstrument_snoc. rewrite fmap_app in Hmiss.
  rewrite JsMapFacts.get_set_ne.
  - apply IH. intros H. apply Hmiss, elem_of_app. by left.
  - intros Heq. apply Hmiss, elem_of_app. right. rewrite <- Heq.
    apply list_elem_of_fmap. exists x. split; [done|]. by apply list_elem_of_singleton.
Qed.

Lemma displayValue_NoDup (count : nat) :
  NoDup (displayValue <$> mockData.generateInstruments count).
Proof.
  unfold mockData.generateInstruments. rewrite <- list_fmap_compose.
  apply (@NoDup_fmap_2 _ _ (displayValue ∘ mockData.instrumentAt)); [|apply NoDup_seq].
  intros i j. apply displayValue_inj.
Qed.

(** X14. Submitting an option of the grid's instrument editor hands the
    manager the instrument the option was made from, in any generated
    universe.  V6's callback then writes the instrument's code, description,
    maturity and issuer into the pinned row and keeps its side and quantity,
    issues no command and leaves rows and drafts alone; for the identifier of
    any other row it does nothing.  Text that is none of the options does
    nothing. *)
Theorem submitted_option_fills_pinned_row
    (count : nat) (st : View.t) (i : BondInstrument.t) :
  let universe := mockData.generateInstruments count in
  let submit := InstrumentSearchEditor.onOptionSubmit universe V6.updatePinnedRowInstrument in
  i ∈ universe →
  JsMap.get (displayValue i) (InstrumentSearchEditor.displayToInstrument universe) = Some i ∧
  (let e := submit (Some PINNED_ROW_ID) (displayValue i) in
   let pinned := View.pinnedRow (update e st) in
   issued e = [] ∧
   View.axes (update e st) = View.axes st ∧
   View.pendingEdits (update e st) = View.pendingEdits st ∧
   PinnedRow.isin pinned = BondInstrument.isin i ∧
   PinnedRow.description pinned = BondInstrument.description i ∧
   PinnedRow.maturity pinned = BondInstrument.maturity i ∧
   PinnedRow.issuer pinned = BondInstrument.issuer i ∧
   PinnedRow.side pinned = PinnedRow.side (View.pinnedRow st) ∧
   PinnedRow.quantity pinned = PinnedRow.quantity (View.pinnedRow st)) ∧
  (∀ rowId, rowId ≠ "" → rowId ≠ PINNED_ROW_ID →
     submit (Some rowId) (displayValue i) = nothing) ∧
  (∀ rowId text, text ∉ InstrumentSearchEditor.displayData universe →
     submit rowId text = nothing).
Proof.
  intros universe submit Hi.
  pose proof (displayToInstrument_get universe i (displayValue_NoDup count) Hi) as Hget.
  subst submit. unfold InstrumentSearchEditor.onOptionSubmit. rewrite Hget.
  split_and!; try done.
  - intros rowId Hne Hpin. unfold V6.updatePinnedRowInstrument.
    by rewrite !bool_decide_eq_false_2.
  - intros rowId text Hmiss. by rewrite displayToInstrument_miss.
Qed.

Lemma submitted_option_fills_pinned_row_witness :
  PinnedRow.isin
    (View.pinnedRow
       (update
          (InstrumentSearchEditor.onOptionSubmit (mockData.generateInstruments 20)
             V6.updatePinnedRowInstrument (Some PINNED_ROW_ID)
             "GB0000000170 - HSBC 2.375% 2043 Inflation Linked")
          View.init)) = "GB0000000170".
Proof.
  destruct (submitted_option_fills_pinned_row 20 View.init (mockData.instrumentAt 17))
    as (_ & (_ & _ & _ & H & _) & _).
  - apply generated_instrument. exists 17. split; [lia|reflexivity].
  - change (displayValue (mockData.instrumentAt 17))
      with "GB0000000170 - HSBC 2.375% 2043 Inflation Linked" in H.
    rewrite H. reflexivity.
Defined.

(** ** The closed system *)

Section Attached.
Context {Intent : Type}.
Variable handler : View.t → string → Intent → Effect.
Variable mockInstruments : list BondInstrument.t.
Hypothesis handler_quiet : ∀ st now i, Forall quiet (issued (handler st now i)).

Lemma step_attached sys ev :
  attached sys → attached (System.step handler mockInstruments sys ev).
Proof.
  intros [Hl Hq]. destruct ev as [now i|fresh now]; cbn [System.step].
  - split; [done|]. cbn [System.inflight]. apply Forall_app. split; [done|].
    apply handler_quiet.
  - destruct (System.inflight sys) as [|p rest] eqn:Hin.
    { split; [exact Hl|]. cbn [System.inflight]. rewrite Hin. constructor. }
    split; cbn [System.service System.inflight].
    + destruct (run_outcome mockInstruments fresh now (command p) (System.service sys))
        as [(_ & Hls & _)|(e & _ & Hfinal & _)].
      * by rewrite Hls.
      * by rewrite Hfinal.
    + by apply Forall_cons in Hq as [_ ?].
Qed.

Lemma run_attached evs sys :
  attached sys → attached (System.run handler mockInstruments evs sys).
Proof.
  revert sys. induction evs as [|ev evs IH]; intros sys Hsys; [done|].
  apply IH. by apply step_attached.
Qed.

Lemma settle_inSync sys fresh now :
  attached sys → nextSucceeds mockInstruments fresh now sys →
  inSync (System.step handler mockInstruments sys (System.Settle fresh now)).
Proof.
  intros [Hl Hq] (p & rest & Hin & Hok). unfold inSync. cbn [System.step].
  rewrite Hin in Hq |- *. cbn [System.view System.service]. rewrite Hok.
  apply Forall_cons in Hq as [[Hf _] _]. rewrite (proj2 (Hf _)).
  destruct (run_success mockInstruments fresh now (command p) (System.service sys) Hok)
    as [Hls Hem].
  apply receive_uniform.
  - rewrite Hem. unfold snapshotFor. apply Forall_fmap, Forall_forall. by intros.
  - left. rewrite Hem. unfold snapshotFor. rewrite <- list_fmap_compose.
    apply list_elem_of_fmap. exists System.viewListener. split; [done|]. by rewrite Hls.
Qed.
End Attached.

Lemma attached_mount : attached System.mount.
Proof. split; [|by constructor]. apply JsSetFacts_elem_of_add. Qed.

(** X15. Every command that succeeds brings the view back to the store.
    In a mounted V4 or V6 view, after any sequence of user intents and
    settled commands (optimistic changes, rejected commands and rollbacks
    included), when the oldest command in flight succeeds the view's local
    snapshot is, after its broadcast and its continuation, exactly the
    store's array. *)
Theorem successful_settle_resynchronises
    (mockInstruments : list BondInstrument.t) (fresh now : string)
    (evs4 : list (System.Event (Intent := V4.Intent)))
    (evs6 : list (System.Event (Intent := V6.Intent))) :
  let sys4 := System.run V4.handler mockInstruments evs4 System.mount in
  let sys6 := System.run V6.handler mockInstruments evs6 System.mount in
  (nextSucceeds mockInstruments fresh now sys4 →
     inSync (System.step V4.handler mockInstruments sys4 (System.Settle fresh now))) ∧
  (nextSucceeds mockInstruments fresh now sys6 →
     inSync (System.step V6.handler mockInstruments sys6 (System.Settle fresh now))).
Proof.
  intros sys4 sys6. split; intros Hnext.
  - apply settle_inSync; [|done].
    apply run_attached; [apply V4_handler_quiet | apply attached_mount].
  - apply settle_inSync; [|done].
    apply run_attached; [apply V6_handler_quiet | apply attached_mount].
Qed.

Lemma successful_settle_resynchronises_witness :
  let sys := System.run V6.handler [instrument0] (take 2 createThenEdit) System.mount in
  ¬ inSync sys ∧
  inSync (System.step V6.handler [instrument0] sys
            (System.Settle "s1" "2026-01-05T09:00:01.300Z")).
Proof.
  split.
  - intros H. vm_compute in H. discriminate H.
  - apply (successful_settle_resynchronises [instrument0] "s1" "2026-01-05T09:00:01.300Z"
             [] (take 2 createThenEdit)).
    eexists _, _. split; reflexivity.
Defined.

(** ** New rows *)

Lemma removeById_fresh (id : string) (axes : list Axe.t) :
  id ∉ Axe.id <$> axes → removeById id axes = axes.
Proof.
  intros Hid. unfold removeById. induction axes as [|a axes IH]; [done|].
  rewrite fmap_cons in Hid. apply not_elem_of_cons in Hid as [Hne Hid].
  simpl. rewrite bool_decide_eq_false_2 by done. simpl. f_equal. by apply IH.
Qed.

(** X16. New rows of V3 and V5.  Adding a row and cancelling it gives the
    state back when the identifier is new among the new rows.  Confirming a
    row with an instrument and a quantity above 0 takes every new row of that
    identifier out of [newRows], puts the optimistic record first in the
    snapshot under the row's own identifier, and issues one create command
    without identifier; if the store rejects it, the rollback leaves the
    records of the snapshot whose identifier is not the row's, so it takes
    out, with the optimistic record, any record that was already there under
    that identifier, and gives back the snapshot exactly when the identifier
    was not in it; the row is not put back among the new rows.  A row that fails the test only gets a
    validation notification.  Selecting an instrument writes its four fields
    into the new rows of the given identifier and into no other row, and
    without an identifier does nothing. *)
Theorem new_row_protocol (st : V5.t) (now : string) :
  (∀ newId, newId ∉ PinnedRow.id <$> V5.newRows st →
     V5.change (V5.cancelNewRow newId) (V5.change (V5.addNewRow newId) st) = st ∧
     V5.rowData (V5.change (V5.addNewRow newId) st) !! length (V5.newRows st) =
       Some (PinnedRow.mk newId "" "" "" "" Bid (Some 1000000%Z) ACTIVE "" true)) ∧
  (∀ axe quantity,
     PinnedRow.isin axe ≠ "" → PinnedRow.quantity axe = Some quantity → (0 < quantity)%Z →
     let e := V5.confirmNewRow now axe in
     let st' := V5.change e st in
     (PinnedRow.id axe ∉ PinnedRow.id <$> V5.newRows st') ∧
     (∀ r, PinnedRow.id r ≠ PinnedRow.id axe → r ∈ V5.newRows st' ↔ r ∈ V5.newRows st) ∧
     View.pendingEdits (V5.view st') = View.pendingEdits (V5.view st) ∧
     ∃ p optimistic,
       V5.commands e = [p] ∧
       command p = CreateOrUpdateAxe {|
         CreateOrUpdateAxeRequest.id := None;
         CreateOrUpdateAxeRequest.isin := PinnedRow.isin axe;
         CreateOrUpdateAxeRequest.side := PinnedRow.side axe;
         CreateOrUpdateAxeRequest.quantity := quantity |} ∧
       View.axes (V5.view st') = optimistic :: View.axes (V5.view st) ∧
       Axe.id optimistic = PinnedRow.id axe ∧ Axe.status optimistic = ACTIVE ∧
       ∀ msg,
         let rolledBack := View.axes (onRejected p msg (V5.view st')) in
         (∀ a, a ∈ rolledBack ↔
               a ∈ View.axes (V5.view st) ∧ Axe.id a ≠ PinnedRow.id axe) ∧
         (rolledBack = View.axes (V5.view st) ↔
          PinnedRow.id axe ∉ View.ids (V5.view st))) ∧
  (∀ axe,
     PinnedRow.isin axe = "" ∨ PinnedRow.quantity axe = None ∨
       (∃ quantity, PinnedRow.quantity axe = Some quantity ∧ (quantity ≤ 0)%Z) →
     let e := V5.confirmNewRow now axe in
     V5.commands e = [] ∧
     V5.newRows (V5.change e st) = V5.newRows st ∧
     View.axes (V5.view (V5.change e st)) = View.axes (V5.view st) ∧
     ∃ msg, View.notifications (V5.view (V5.change e st)) =
            View.notifications (V5.view st) ++ [validation msg]) ∧
  (∀ rowId instrument,
     let e := V5.updateNewRowInstrument rowId instrument in
     V5.commands e = [] ∧ V5.view (V5.change e st) = V5.view st ∧
     length (V5.newRows (V5.change e st)) = length (V5.newRows st) ∧
     (∀ k r, V5.newRows st !! k = Some r →
        V5.newRows (V5.change e st) !! k =
          Some (if bool_decide (rowId = Some (PinnedRow.id r) ∧ PinnedRow.id r ≠ "")
                then V6.setPinnedInstrument instrument r else r))).
Proof.
  split_and!.
  - intros newId Hnew. split.
    + destruct st as [v rows]. unfold V5.cancelNewRow, V5.addNewRow, V5.setNewRows.
      cbn [V5.change V5.view V5.newRows] in *. f_equal.
      rewrite List.filter_app. simpl. rewrite bool_decide_eq_true_2 by done. simpl.
      rewrite app_nil_r. induction rows as [|r rows IH]; [done|].
      rewrite fmap_cons in Hnew. apply not_elem_of_cons in Hnew as [Hne Hnew].
      simpl. rewrite bool_decide_eq_false_2 by done. simpl. f_equal. by apply IH.
    + unfold V5.rowData, V5.addNewRow, V5.setNewRows. cbn [V5.change V5.newRows].
      rewrite <- app_assoc, lookup_app_r by done. by rewrite Nat.sub_diag.
  - intros axe quantity Hisin Hqty Hpos e st'. subst e st'.
    unfold V5.confirmNewRow. rewrite bool_decide_eq_false_2 by done. rewrite Hqty.
    rewrite (proj2 (Z.leb_gt quantity 0)) by done.
    cbn [V5.change V5.commands V5.setView V5.setNewRows V5.view V5.newRows View.setAxes
         View.axes View.pendingEdits].
    split_and!.
    + intros (r & Hr & Hin)%list_elem_of_fmap.
      apply list_elem_of_In, filter_In in Hin as [_ Hin].
      apply negb_true_iff, bool_decide_eq_false_1 in Hin. congruence.
    + intros r Hr. rewrite !list_elem_of_In, filter_In.
      rewrite bool_decide_eq_false_2 by done. simpl. tauto.
    + done.
    + eexists _, _. split_and!; try reflexivity.
      intros msg.
      set (rolledBack := View.axes (onRejected _ msg _)).
      assert (Hrb : rolledBack =
                removeById (PinnedRow.id axe) (View.axes (V5.view st))).
      { subst rolledBack. cbn [onRejected View.setAxes View.show View.axes].
        unfold removeById at 1. simpl. by rewrite bool_decide_eq_true_2. }
      rewrite Hrb. split.
      * intros a. apply removeById_spec.
      * split; [|apply removeById_fresh].
        intros Heq. unfold View.ids. rewrite <- Heq. apply removeById_ids.
  - intros axe Hbad e. subst e. unfold V5.confirmNewRow.
    destruct (bool_decide (PinnedRow.isin axe = "")) eqn:Hisin;
      [split_and!; try done; by eexists|].
    destruct Hbad as [Hbad|[Hbad|(quantity & Hq & Hle)]].
    + by rewrite bool_decide_eq_true_2 in Hisin.
    + rewrite Hbad. split_and!; try done. by eexists.
    + rewrite Hq, (proj2 (Z.leb_le quantity 0)) by done.
      split_and!; try done. by eexists.
  - intros rowId instrument e. subst e. unfold V5.updateNewRowInstrument.
    destruct rowId as [rowId|].
    + destruct (bool_decide (rowId = "")) eqn:Hempty.
      * apply bool_decide_eq_true_1 in Hempty as ->.
        cbn [V5.change V5.commands]. split; [done|]. split; [done|]. split; [done|].
        intros k r Hk. rewrite Hk. f_equal.
        rewrite bool_decide_eq_false_2; [done|]. by intros [[= <-] Hne].
      * apply bool_decide_eq_false_1 in Hempty.
        cbn [V5.change V5.commands V5.setNewRows V5.view V5.newRows].
        split; [done|]. split; [done|]. split; [by rewrite length_fmap|].
        intros k r Hk. rewrite list_lookup_fmap, Hk. simpl. f_equal.
        destruct (decide (PinnedRow.id r = rowId)) as [<-|Hne].
        -- by rewrite !bool_decide_eq_true_2.
        -- rewrite !bool_decide_eq_false_2; [done| |done]. by intros [[= ->] _].
    + cbn [V5.change V5.commands]. split; [done|]. split; [done|]. split; [done|].
      intros k r Hk. by rewrite Hk.
Qed.

(** ** Save All *)

Lemma mapById_same (k : string) (l : list Axe.t) : mapById k (λ x, x) l = l.
Proof.
  unfold mapById. rewrite <- (list_fmap_id l) at 2. apply list_fmap_ext.
  intros i a _. by destruct (bool_decide _).
Qed.

Lemma stampWith_id st now k x : Axe.id (stampWith st now k x) = Axe.id x.
Proof. unfold stampWith. by repeat case_match. Qed.

Lemma findAxe_unique (axes : list Axe.t) (a : Axe.t) :
  NoDup (Axe.id <$> axes) → a ∈ axes → findAxe (Axe.id a) axes = Some a.
Proof.
  unfold findAxe. induction axes as [|x axes IH]; intros Hnd Ha.
  - by apply elem_of_nil in Ha.
  - rewrite fmap_cons in Hnd. apply NoDup_cons in Hnd as [Hx Hnd]. simpl.
    apply elem_of_cons in Ha as [->|Ha].
    + by rewrite bool_decide_eq_true_2.
    + rewrite bool_decide_eq_false_2; [by apply IH|].
      intros Heq. apply Hx. rewrite Heq. apply list_elem_of_fmap. by exists a.
Qed.

Lemma findAxe_is_Some (k : string) (axes : list Axe.t) :
  is_Some (findAxe k axes) ↔ k ∈ Axe.id <$> axes.
Proof.
  unfold findAxe. induction axes as [|x axes IH]; cbn [List.find].
  - split; [by intros [? ?]|by intros ?%elem_of_nil].
  - rewrite fmap_cons, elem_of_cons. case_bool_decide as Hx.
    + split; [by left|eauto].
    + rewrite IH. split; [by right|]. by intros [?|?].
Qed.

Section SaveAll.
Variable st : View.t.
Variable now : string.
Variable h : Axe.t → Effect.

(** What the two views' [handleSaveRow] have in common when the row handed
    over is the record found for its identifier. *)
Hypothesis h_step : ∀ k a, findAxe k (View.axes st) = Some a →
  (∀ s, update (h a) s =
        match View.pendingEdits st !! k with
        | Some _ =>
            View.setPendingEdits (delete k)
              (View.setAxes (mapById k (stampWith st now k)) s)
        | None => s
        end) ∧
  command <$> issued (h a) = option_list (updateOf st k).

Let saveAll (acc : Effect) (keys : list string) : Effect :=
  foldl
    (λ acc axeId,
       match findAxe axeId (View.axes st) with
       | Some axe => andThen acc (h axe)
       | None => acc
       end) acc keys.

Let settled (s : View.t) (keys : list string) : View.t :=
  foldl
    (λ s' k,
       match findAxe k (View.axes st) with
       | Some axe => update (h axe) s'
       | None => s'
       end) s keys.

Lemma saveAll_update acc keys s :
  update (saveAll acc keys) s = settled (update acc s) keys.
Proof.
  subst saveAll settled. revert acc. induction keys as [|k keys IH]; intros acc; [done|].
  simpl. rewrite IH. by destruct (findAxe k (View.axes st)).
Qed.

Lemma saveAll_issued acc keys :
  command <$> issued (saveAll acc keys) =
  (command <$> issued acc) ++ omap (updateOf st) keys.
Proof.
  subst saveAll. revert acc. induction keys as [|k keys IH]; intros acc.
  - simpl. by rewrite app_nil_r.
  - simpl. rewrite IH. destruct (findAxe k (View.axes st)) as [a|] eqn:Hfind.
    + cbn [andThen issued]. rewrite fmap_app, <- app_assoc. f_equal.
      rewrite (proj2 (h_step k a Hfind)). by destruct (updateOf st k).
    + unfold updateOf at 2. rewrite Hfind. by destruct (View.pendingEdits st !! k).
Qed.

Lemma settled_step k s :
  let s' := settled s [k] in
  View.axes s' = mapById k (stampWith st now k) (View.axes s) ∧
  View.pendingEdits s' =
    (if bool_decide (is_Some (View.pendingEdits st !! k) ∧
                     is_Some (findAxe k (View.axes st)))
     then delete k (View.pendingEdits s) else View.pendingEdits s) ∧
  View.pinnedRow s' = View.pinnedRow s ∧
  View.notifications s' = View.notifications s.
Proof.
  subst settled. simpl.
  assert (Hid : mapById k (stampWith st now k) (View.axes s) = View.axes s →
          View.axes s = mapById k (stampWith st now k) (View.axes s)) by done.
  destruct (findAxe k (View.axes st)) as [a|] eqn:Hfind.
  - rewrite (proj1 (h_step k a Hfind)).
    destruct (View.pendingEdits st !! k) as [edits|] eqn:Hpe.
    + rewrite bool_decide_eq_true_2 by (split; eauto). done.
    + rewrite bool_decide_eq_false_2 by (by intros [[? ?] _]). split_and!; try done.
      apply Hid. rewrite <- (mapById_same k (View.axes s)) at 2.
      unfold mapById. apply list_fmap_ext. intros i x _.
      unfold stampWith. by rewrite Hpe.
  - rewrite bool_decide_eq_false_2 by (by intros [_ [? ?]]). split_and!; try done.
    apply Hid. rewrite <- (mapById_same k (View.axes s)) at 2.
    unfold mapById. apply list_fmap_ext. intros i x _.
    unfold stampWith. rewrite Hfind. by destruct (View.pendingEdits st !! k).
Qed.

Lemma settled_cons k keys s : settled s (k :: keys) = settled (settled s [k]) keys.
Proof. done. Qed.

Lemma settled_axes keys s :
  NoDup keys →
  View.axes (settled s keys) =
  (λ a, if bool_decide (Axe.id a ∈ keys) then stampWith st now (Axe.id a) a else a) <$>
    View.axes s.
Proof.
  revert s. induction keys as [|k keys IH]; intros s Hnd.
  - simpl. rewrite <- (list_fmap_id (View.axes s)) at 1. apply list_fmap_ext.
    by intros i a _.
  - apply NoDup_cons in Hnd as [Hk Hnd]. rewrite settled_cons, IH by done.
    destruct (settled_step k s) as (-> & _). unfold mapById.
    rewrite <- list_fmap_compose. apply list_fmap_ext. intros i a _. simpl.
    destruct (decide (Axe.id a = k)) as [<-|Hne].
    + rewrite (bool_decide_eq_true_2 (Axe.id a = Axe.id a)) by done.
      rewrite stampWith_id. rewrite bool_decide_eq_false_2 by done.
      rewrite bool_decide_eq_true_2; [done|left].
    + rewrite (bool_decide_eq_false_2 (Axe.id a = k)) by done.
      destruct (decide (Axe.id a ∈ keys)) as [Hin|Hout].
      * rewrite !bool_decide_eq_true_2; [done|by right|done].
      * rewrite !bool_decide_eq_false_2; [done| |done].
        by intros [?|?]%elem_of_cons.
Qed.

Lemma settled_pendingEdits keys s j :
  View.pendingEdits (settled s keys) !! j =
  if bool_decide (j ∈ keys ∧ is_Some (View.pendingEdits st !! j) ∧
                  is_Some (findAxe j (View.axes st)))
  then None else View.pendingEdits s !! j.
Proof.
  revert s. induction keys as [|k keys IH]; intros s; [done|].
  rewrite settled_cons, IH. destruct (settled_step k s) as (_ & -> & _).
  destruct (decide (j = k)) as [->|Hne].
  - destruct (decide (is_Some (View.pendingEdits st !! k) ∧
                      is_Some (findAxe k (View.axes st)))) as [Hk|Hk].
    + rewrite (bool_decide_eq_true_2 (k ∈ k :: keys ∧ _)) by (split; [left|done]).
      rewrite (bool_decide_eq_true_2 (is_Some _ ∧ is_Some _)) by done.
      rewrite lookup_delete_eq. by destruct (bool_decide _).
    + rewrite (bool_decide_eq_false_2 (k ∈ k :: keys ∧ _)) by (by intros [_ ?]).
      rewrite (bool_decide_eq_false_2 (k ∈ keys ∧ _)) by (by intros [_ ?]).
      by rewrite (bool_decide_eq_false_2 (is_Some _ ∧ is_Some _)) by done.
  - assert (Hsame : (if bool_decide (is_Some (View.pendingEdits st !! k) ∧
                                     is_Some (findAxe k (View.axes st)))
                     then delete k (View.pendingEdits s) else View.pendingEdits s) !! j =
                    View.pendingEdits s !! j).
    { destruct (bool_decide (is_Some (View.pendingEdits st !! k) ∧ _));
        [by apply lookup_delete_ne|done]. }
    rewrite Hsame.
    assert (Htest : bool_decide (j ∈ keys ∧ is_Some (View.pendingEdits st !! j) ∧
                                 is_Some (findAxe j (View.axes st))) =
                    bool_decide (j ∈ k :: keys ∧ is_Some (View.pendingEdits st !! j) ∧
                                 is_Some (findAxe j (View.axes st)))).
    { apply bool_decide_ext. rewrite elem_of_cons. split.
      - intros [? ?]. split; [by right|done].
      - intros [[?|?] ?]; [done|by split]. }
    by rewrite Htest.
Qed.

Lemma settled_rest keys s :
  View.pinnedRow (settled s keys) = View.pinnedRow s ∧
  View.notifications (settled s keys) = View.notifications s.
Proof.
  revert s. induction keys as [|k keys IH]; intros s; [done|].
  rewrite settled_cons. destruct (IH (settled s [k])) as [-> ->].
  by destruct (settled_step k s) as (_ & _ & -> & ->).
Qed.

Lemma saveAll_spec keys :
  NoDup (View.ids st) →
  NoDup keys →
  (∀ k, k ∈ keys ↔ is_Some (View.pendingEdits st !! k)) →
  let e := saveAll nothing keys in
  View.axes (update e st) = stamped st now <$> View.axes st ∧
  (∀ k, View.pendingEdits (update e st) !! k =
        if bool_decide (k ∈ View.ids st) then None else View.pendingEdits st !! k) ∧
  command <$> issued e = omap (updateOf st) keys ∧
  View.pinnedRow (update e st) = View.pinnedRow st ∧
  View.notifications (update e st) = View.notifications st.
Proof.
  intros Hnd Hndk Hkeys e. subst e. rewrite saveAll_update, saveAll_issued.
  cbn [nothing update issued fmap list_fmap app].
  split_and!.
  - rewrite settled_axes by done.
    apply list_fmap_ext. intros i a Ha. apply list_elem_of_lookup_2 in Ha.
    unfold stamped, stampWith. rewrite (findAxe_unique _ _ Hnd Ha).
    destruct (View.pendingEdits st !! Axe.id a) as [edits|] eqn:Hpe.
    + rewrite bool_decide_eq_true_2; [done|]. apply Hkeys. eauto.
    + by destruct (bool_decide _).
  - intros k. rewrite settled_pendingEdits. unfold View.ids.
    case_bool_decide as Hk.
    + destruct Hk as (_ & _ & Hk). apply findAxe_is_Some in Hk.
      by rewrite bool_decide_eq_true_2.
    + case_bool_decide as Hid; [|done].
      destruct (View.pendingEdits st !! k) as [edits|] eqn:Hpe; [|done].
      destruct Hk. split_and!; [apply Hkeys; eauto | eauto | by apply findAxe_is_Some].
  - done.
  - apply settled_rest.
  - apply settled_rest.
Qed.
End SaveAll.

Lemma stamped_committed (st : View.t) (now : string) (a : Axe.t) :
  committed (View.pendingEdits st !! Axe.id a) now a (stamped st now a).
Proof. unfold stamped. by destruct (View.pendingEdits st !! Axe.id a). Qed.

Lemma committed_all (st : View.t) (now : string) (axes : list Axe.t) :
  Forall2 (λ before after, committed (View.pendingEdits st !! Axe.id before) now before after)
    axes (stamped st now <$> axes).
Proof.
  induction axes as [|a axes IH]; [by constructor|].
  rewrite fmap_cons. constructor; [apply stamped_committed|done].
Qed.

Lemma updateOf_spelled (st : View.t) (keys : list string) :
  omap (updateOf st) keys =
  omap
    (λ k,
       edits ← View.pendingEdits st !! k;
       a ← findAxe k (View.axes st);
       Some (CreateOrUpdateAxe {|
         CreateOrUpdateAxeRequest.id := Some k;
         CreateOrUpdateAxeRequest.isin := Axe.isin a;
         CreateOrUpdateAxeRequest.side := default (Axe.side a) (PendingEdit.side edits);
         CreateOrUpdateAxeRequest.quantity :=
           default (Axe.quantity a) (PendingEdit.quantity edits) |}))
    keys.
Proof.
  induction keys as [|k keys IH]; [done|].
  cbn [omap list_omap]. rewrite <- IH. fold (omap (updateOf st) keys).
  unfold updateOf at 1.
  by destruct (View.pendingEdits st !! k), (findAxe k (View.axes st)).
Qed.

(** X17. Save All commits every draft whose record is in the local
    snapshot, and only those.  The handler walks the keys of the Pending
    Edits in the order the object gives them, each drafted identifier once
    ([ownKeys]).
    With pairwise different identifiers in the snapshot, it leaves the
    snapshot with the same records in the same order, each drafted record
    with its drafted side and quantity (an undrafted field keeps the
    record's value) and the time of the call as its last update, its other
    fields untouched, and each undrafted record as it was; it issues one
    update command per drafted identifier found in the snapshot, in the order
    of the keys, carrying the record's instrument code and the drafted side
    and quantity; it removes exactly the drafts of identifiers in the
    snapshot, so a draft whose record is gone stays; and it changes neither
    the pinned row nor the notifications before a command settles.  V4 and V6
    agree. *)
Theorem save_all_commits_confirmed_drafts (st : View.t) (now : string)
    (keys : list string) :
  NoDup (View.ids st) →
  ownKeys (View.pendingEdits st) keys →
  let spec (e : Effect) :=
    Forall2
      (λ before after, committed (View.pendingEdits st !! Axe.id before) now before after)
      (View.axes st) (View.axes (update e st)) ∧
    (∀ k, View.pendingEdits (update e st) !! k =
          if bool_decide (k ∈ View.ids st) then None else View.pendingEdits st !! k) ∧
    command <$> issued e =
      omap
        (λ k,
           edits ← View.pendingEdits st !! k;
           a ← findAxe k (View.axes st);
           Some (CreateOrUpdateAxe {|
             CreateOrUpdateAxeRequest.id := Some k;
             CreateOrUpdateAxeRequest.isin := Axe.isin a;
             CreateOrUpdateAxeRequest.side :=
               default (Axe.side a) (PendingEdit.side edits);
             CreateOrUpdateAxeRequest.quantity :=
               default (Axe.quantity a) (PendingEdit.quantity edits) |}))
        keys ∧
    View.pinnedRow (update e st) = View.pinnedRow st ∧
    View.notifications (update e st) = View.notifications st in
  spec (V4.handleSaveAll st now keys) ∧ spec (V6.handleSaveAll st now keys).
Proof.
  intros Hnd [Hndk Hkeys] spec. subst spec. cbv beta.
  rewrite <- updateOf_spelled. split.
  - destruct (saveAll_spec st now (V4.handleSaveRow st now)) with (keys := keys)
      as (Haxes & Hpe & Hissued & Hpin & Hnote); try done.
    { intros k a Hfind. destruct (findAxe_Some _ _ _ Hfind) as [Hid _].
      unfold V4.handleSaveRow, updateOf, stampWith. rewrite Hid, Hfind.
      by destruct (View.pendingEdits st !! k). }
    split_and!; try done.
    unfold V4.handleSaveAll. rewrite Haxes. apply committed_all.
  - destruct (saveAll_spec st now (V6.handleSaveRow st now)) with (keys := keys)
      as (Haxes & Hpe & Hissued & Hpin & Hnote); try done.
    { intros k a Hfind. destruct (findAxe_Some _ _ _ Hfind) as [Hid _].
      unfold V6.handleSaveRow, updateOf, stampWith. rewrite Hid, Hfind.
      by destruct (View.pendingEdits st !! k). }
    split_and!; try done.
    unfold V6.handleSaveAll. rewrite Haxes. apply committed_all.
Qed.

Lemma save_all_commits_confirmed_drafts_witness :
  let e := V6.handleSaveAll view3 "2026-01-05T09:05:00.000Z" ["a2"; "a1"] in
  command <$> issued e =
    [CreateOrUpdateAxe {|
       CreateOrUpdateAxeRequest.id := Some "a2";
       CreateOrUpdateAxeRequest.isin := "US0000000000";
       CreateOrUpdateAxeRequest.side := Bid;
       CreateOrUpdateAxeRequest.quantity := 500000%Z |};
     CreateOrUpdateAxe {|
       CreateOrUpdateAxeRequest.id := Some "a1";
       CreateOrUpdateAxeRequest.isin := "US0000000000";
       CreateOrUpdateAxeRequest.side := Bid;
       CreateOrUpdateAxeRequest.quantity := 2000000%Z |}] ∧
  ∃ a b, View.axes (update e view3) = [a; b] ∧
    (Axe.side a, Axe.quantity a, Axe.lastUpdate a) =
      (Bid, 2000000%Z, "2026-01-05T09:05:00.000Z") ∧
    (Axe.side b, Axe.quantity b, Axe.lastUpdate b) =
      (Bid, 500000%Z, "2026-01-05T09:05:00.000Z") ∧
    View.pendingEdits (update e view3) !! "a1" = None.
Proof.
  intros e.
  assert (Hnd : NoDup (View.ids view3)).
  { apply (bool_decide_unpack _). by vm_compute. }
  assert (Hndk : NoDup ["a2"; "a1"]).
  { apply (bool_decide_unpack _). by vm_compute. }
  assert (Hkeys : ∀ k, k ∈ ["a2"; "a1"] ↔ is_Some (View.pendingEdits view3 !! k)).
  { intros k. cbn [view3 View.pendingEdits].
    rewrite lookup_insert_is_Some, lookup_singleton_is_Some.
    rewrite !elem_of_cons, elem_of_nil.
    destruct (decide ("a2" = k)); intuition congruence. }
  destruct (save_all_commits_confirmed_drafts view3 "2026-01-05T09:05:00.000Z"
              ["a2"; "a1"] Hnd (conj Hndk Hkeys)) as [_ (Haxes & Hpe & Hissued & _)].
  fold e in Haxes, Hpe, Hissued. split; [by rewrite Hissued|].
  cbn [view3 View.axes] in Haxes.
  apply Forall2_cons_inv_l in Haxes as (a & rest & Ha & Hrest & ->).
  apply Forall2_cons_inv_l in Hrest as (b & rest' & Hb & Hnil & ->).
  apply Forall2_nil_inv_l in Hnil as ->.
  exists a, b. split; [done|].
  change (View.pendingEdits view3 !! Axe.id axe1) with
    (Some {| PendingEdit.side := None; PendingEdit.quantity := Some 2000000%Z |}) in Ha.
  change (View.pendingEdits view3 !! Axe.id axe2) with
    (Some {| PendingEdit.side := Some Bid; PendingEdit.quantity := None |}) in Hb.
  destruct Ha as (_ & -> & -> & ->), Hb as (_ & -> & -> & ->).
  split; [done|]. split; [done|]. by rewrite Hpe.
Defined.

(** ** The store as a map transformer *)

Lemma JsMap_set_set (k : string) (v v' : Axe.t) (m : JsMap.t Axe.t) :
  JsMap.set k v (JsMap.set k v' m) = JsMap.set k v m.
Proof.
  induction m as [|[k0 v0] m IH]; simpl.
  - by rewrite decide_True.
  - destruct (decide (k = k0)) as [->|Hne]; simpl.
    + by rewrite decide_True.
    + rewrite decide_False by done. by rewrite IH.
Qed.

Lemma JsMap_set_set_ne (k k' : string) (v v' : Axe.t) (m : JsMap.t Axe.t) :
  k ≠ k' → is_Some (JsMap.get k m) →
  JsMap.set k v (JsMap.set k' v' m) = JsMap.set k' v' (JsMap.set k v m).
Proof.
  intros Hne. induction m as [|[k0 v0] m IH]; simpl; [by intros [? ?]|].
  destruct (decide (k = k0)) as [->|Hk], (decide (k' = k0)) as [->|Hk']; simpl.
  - done.
  - intros _. rewrite decide_True by done. by rewrite decide_False.
  - intros _. rewrite decide_False by done. by rewrite decide_True.
  - intros Hget. rewrite !decide_False by done. by rewrite IH.
Qed.

Lemma JsMap_set_delete_ne (k k' : string) (v : Axe.t) (m : JsMap.t Axe.t) :
  k ≠ k' → JsMap.set k v (JsMap.delete k' m) = JsMap.delete k' (JsMap.set k v m).
Proof.
  intros Hne. induction m as [|[k0 v0] m IH]; simpl.
  - by rewrite decide_False.
  - destruct (decide (k = k0)) as [->|Hk], (decide (k' = k0)) as [->|Hk']; simpl.
    + done.
    + rewrite decide_True by done. by rewrite decide_False.
    + by rewrite decide_True.
    + rewrite !decide_False by done. by rewrite IH.
Qed.

Lemma JsMap_delete_delete (k k' : string) (m : JsMap.t Axe.t) :
  JsMap.delete k (JsMap.delete k' m) = JsMap.delete k' (JsMap.delete k m).
Proof.
  destruct (decide (k = k')) as [->|Hne]; [done|].
  induction m as [|[k0 v0] m IH]; simpl; [done|].
  destruct (decide (k = k0)) as [->|Hk], (decide (k' = k0)) as [->|Hk']; simpl.
  - done.
  - by rewrite decide_True.
  - by rewrite decide_True.
  - rewrite !decide_False by done. by rewrite IH.
Qed.

(** A command's outcome is its action on the record map. *)
Lemma run_action mockInstruments fresh now c s :
  let o := useBondAxes.run mockInstruments fresh now c s in
  let a := action mockInstruments fresh now c (MockAxeService.axes s) in
  MockAxeService.final o =
    {| MockAxeService.axes := act a (MockAxeService.axes s);
       MockAxeService.listeners := MockAxeService.listeners s |} ∧
  MockAxeService.result o = (if a is Skip then inl (rejection c) else inr tt).
Proof.
  intros o a. subst o a.
  destruct c as [request|id|id|id|id|id]; cbn [useBondAxes.run action rejection];
    unfold MockAxeService.pauseAxe, MockAxeService.resumeAxe,
      MockAxeService.blockAxe, MockAxeService.unblockAxe, statusAction.
  - unfold MockAxeService.bind.
    destruct (MockAxeService.findInstrument mockInstruments
                (CreateOrUpdateAxeRequest.isin request)) as [instrument|] eqn:Hfind.
    + by rewrite (createOrUpdateAxe_found _ _ _ _ _ _ Hfind).
    + rewrite (createOrUpdateAxe_missing _ _ _ _ _ Hfind). simpl. by destruct s.
  - status_cases id s; simpl; [done|by destruct s].
  - status_cases id s; simpl; [done|by destruct s].
  - status_cases id s; simpl; [done|by destruct s].
  - status_cases id s; simpl; [done|by destruct s].
  - destruct (JsMap.has id (MockAxeService.axes s)) eqn:Hhas.
    + by rewrite (deleteAxe_found _ _ Hhas).
    + rewrite (deleteAxe_missing _ _ Hhas). simpl. by destruct s.
Qed.

(** The action of a command that names a record depends on the map only
    through the entry of that record. *)
Lemma action_local mockInstruments fresh now c k (m m' : JsMap.t Axe.t) :
  target c = Some k → JsMap.get k m = JsMap.get k m' →
  action mockInstruments fresh now c m = action mockInstruments fresh now c m'.
Proof.
  intros Htarget Hget.
  destruct c as [request|id|id|id|id|id]; cbn [target] in Htarget;
    try (injection Htarget as ->); cbn [action]; unfold statusAction, JsMap.has;
    try by rewrite Hget.
  destruct (MockAxeService.findInstrument _ _) as [instrument|]; [|done].
  unfold upserted. rewrite Htarget. cbn [default MockAxeService.axes].
  unfold JsMap.has, id. by rewrite Hget.
Qed.

Lemma action_key mockInstruments fresh now c k m :
  target c = Some k →
  match action mockInstruments fresh now c m with
  | Put k' _ | Drop k' => k' = k
  | Skip => True
  end.
Proof.
  intros Htarget.
  destruct c as [request|id|id|id|id|id]; cbn [target] in Htarget;
    try (injection Htarget as ->); cbn [action]; unfold statusAction;
    try by destruct (JsMap.get _ _).
  - destruct (MockAxeService.findInstrument _ _); [|done].
    unfold upserted. by rewrite Htarget.
  - by destruct (JsMap.has _ _).
Qed.

Lemma get_act_ne (a : Action) (k j : string) (m : JsMap.t Axe.t) :
  match a with Put k' _ | Drop k' => k' = k | Skip => True end →
  k ≠ j → JsMap.get j (act a m) = JsMap.get j m.
Proof.
  intros Hkey Hne. destruct a as [k' v|k'|]; simpl; [| |done]; subst k'.
  - by apply JsMapFacts.get_set_ne.
  - by apply JsMapFacts.get_delete_ne.
Qed.

Lemma act_comm (a b : Action) (i j : string) (m : JsMap.t Axe.t) :
  match a with Put k _ | Drop k => k = i | Skip => True end →
  match b with Put k _ | Drop k => k = j | Skip => True end →
  i ≠ j → is_Some (JsMap.get i m) → is_Some (JsMap.get j m) →
  act a (act b m) = act b (act a m).
Proof.
  intros Ha Hb Hne Hi Hj.
  destruct a as [k v|k|], b as [k' v'|k'|]; simpl; try done; subst.
  - by apply JsMap_set_set_ne.
  - by apply JsMap_set_delete_ne.
  - symmetry. by apply JsMap_set_delete_ne.
  - apply JsMap_delete_delete.
Qed.

(** X18. Commands about different records of the store commute.  For two
    commands that name different identifiers, both held by the store, running
    them in either order (each with its own clock reading) leaves the same
    record map, in the same order, and the same listeners, and each command
    succeeds or rejects as it would have alone. *)
Theorem commands_on_different_records_commute
    (mockInstruments : list BondInstrument.t) (s : MockAxeService.t)
    (c1 c2 : Command) (i j fresh1 now1 fresh2 now2 : string) :
  target c1 = Some i → target c2 = Some j → i ≠ j →
  i ∈ JsMap.keys (MockAxeService.axes s) → j ∈ JsMap.keys (MockAxeService.axes s) →
  let run1 := useBondAxes.run mockInstruments fresh1 now1 c1 in
  let run2 := useBondAxes.run mockInstruments fresh2 now2 c2 in
  MockAxeService.final (run2 (MockAxeService.final (run1 s))) =
    MockAxeService.final (run1 (MockAxeService.final (run2 s))) ∧
  MockAxeService.result (run1 (MockAxeService.final (run2 s))) =
    MockAxeService.result (run1 s) ∧
  MockAxeService.result (run2 (MockAxeService.final (run1 s))) =
    MockAxeService.result (run2 s).
Proof.
  intros Ht1 Ht2 Hne Hi Hj run1 run2. subst run1 run2.
  apply JsMapFacts.get_Some_keys in Hi, Hj.
  pose proof (action_key mockInstruments fresh1 now1 c1 i (MockAxeService.axes s) Ht1) as Hk1.
  pose proof (action_key mockInstruments fresh2 now2 c2 j (MockAxeService.axes s) Ht2) as Hk2.
  destruct (run_action mockInstruments fresh1 now1 c1 s) as [Hf1 Hr1].
  destruct (run_action mockInstruments fresh2 now2 c2 s) as [Hf2 Hr2].
  destruct (run_action mockInstruments fresh2 now2 c2
              (MockAxeService.final (useBondAxes.run mockInstruments fresh1 now1 c1 s)))
    as [Hf21 Hr21].
  destruct (run_action mockInstruments fresh1 now1 c1
              (MockAxeService.final (useBondAxes.run mockInstruments fresh2 now2 c2 s)))
    as [Hf12 Hr12].
  rewrite Hf1 in Hf21, Hr21. rewrite Hf2 in Hf12, Hr12.
  cbn [MockAxeService.axes MockAxeService.listeners] in Hf21, Hr21, Hf12, Hr12.
  rewrite (action_local _ _ _ c2 j _ (MockAxeService.axes s) Ht2) in Hf21, Hr21
    by (by apply (get_act_ne _ i)).
  rewrite (action_local _ _ _ c1 i _ (MockAxeService.axes s) Ht1) in Hf12, Hr12
    by (by apply (get_act_ne _ j)).
  split_and!.
  - rewrite Hf1, Hf2, Hf21, Hf12. f_equal. symmetry. by apply (act_comm _ _ i j).
  - by rewrite Hf2, Hr12, Hr1.
  - by rewrite Hf1, Hr21, Hr2.
Qed.

Lemma commands_on_different_records_commute_witness :
  let pause := useBondAxes.run [instrument0] "u1" "2026-01-05T09:02:00.000Z" (PauseAxe "a1") in
  let delete := useBondAxes.run [instrument0] "u2" "2026-01-05T09:03:00.000Z" (DeleteAxe "a2") in
  let s := {| MockAxeService.axes := [("a1", axe1); ("a2", withSideQuantity axe1 Offer 5%Z)];
              MockAxeService.listeners := [] |} in
  MockAxeService.final (delete (MockAxeService.final (pause s))) =
  MockAxeService.final (pause (MockAxeService.final (delete s))).
Proof.
  intros pause delete s.
  refine (proj1 (commands_on_different_records_commute [instrument0] s
                   (PauseAxe "a1") (DeleteAxe "a2") "a1" "a2"
                   "u1" "2026-01-05T09:02:00.000Z" "u2" "2026-01-05T09:03:00.000Z"
                   eq_refl eq_refl _ _ _)).
  - discriminate.
  - apply (bool_decide_unpack _). vm_compute. reflexivity.
  - apply (bool_decide_unpack _). vm_compute. reflexivity.
Defined.

Lemma statusAction_again now id status (m : JsMap.t Axe.t) axe :
  statusAction now id status (JsMap.set id (withStatusAt axe status now) m) =
  Put id (withStatusAt axe status now).
Proof. unfold statusAction. by rewrite JsMapFacts.get_set_eq. Qed.

(** Running a command that names a record a second time, with the same
    clock reading, acts on the map as the first run did, except for a delete,
    which finds nothing left. *)
Lemma action_again mockInstruments fresh fresh' now c k (m : JsMap.t Axe.t) :
  NoDup (JsMap.keys m) → target c = Some k →
  let a := action mockInstruments fresh now c m in
  a ≠ Skip →
  action mockInstruments fresh' now c (act a m) =
    (if a is Drop _ then Skip else a) ∧
  act (if a is Drop _ then Skip else a) (act a m) = act a m.
Proof.
  intros Hnd Htarget a Ha. subst a.
  destruct c as [request|id|id|id|id|id]; cbn [target] in Htarget;
    try (injection Htarget as ->); cbn [action] in *.
  - destruct (MockAxeService.findInstrument _ _) as [instrument|]; [|done].
    unfold upserted. rewrite Htarget. cbn [default MockAxeService.axes act]. unfold id.
    rewrite JsMapFacts.get_set_eq.
    assert (Hhas : ∀ v, JsMap.has k (JsMap.set k v m) = true).
    { intros v. apply JsMapFacts.has_get. rewrite JsMapFacts.get_set_eq. eauto. }
    rewrite Hhas. split; [|apply JsMap_set_set].
    f_equal. f_equal. destruct (MockAxeService.truthy (Some k)); [|done].
    cbn [andb fmap option_fmap option_map default from_option Axe.status]. done.
  - unfold statusAction in *. destruct (JsMap.get k m) as [axe|]; [|done]. cbn [act].
    rewrite JsMapFacts.get_set_eq. split; [done|apply JsMap_set_set].
  - unfold statusAction in *. destruct (JsMap.get k m) as [axe|]; [|done]. cbn [act].
    rewrite JsMapFacts.get_set_eq. split; [done|apply JsMap_set_set].
  - unfold statusAction in *. destruct (JsMap.get k m) as [axe|]; [|done]. cbn [act].
    rewrite JsMapFacts.get_set_eq. split; [done|apply JsMap_set_set].
  - unfold statusAction in *. destruct (JsMap.get k m) as [axe|]; [|done]. cbn [act].
    rewrite JsMapFacts.get_set_eq. split; [done|apply JsMap_set_set].
  - destruct (JsMap.has k m); [|done]. cbn [act]. split; [|done].
    by rewrite (proj2 (JsMapFacts.has_false _ _) (JsMapFacts.get_delete_eq k m Hnd)).
Qed.

(** X19. Sending a command twice.  A command that names a record and
    succeeded leaves, when run again with the same clock reading, the store as
    the first run left it: a status command or an update succeeds again and
    broadcasts the same array, a delete rejects with "Axe not found" and calls
    no listener.  A create without identifier is not absorbed: run again, it
    appends a second record under the new identifier. *)
Theorem repeated_command_is_absorbed
    (mockInstruments : list BondInstrument.t) (s : MockAxeService.t) (c : Command)
    (fresh fresh' now : string) :
  NoDup (JsMap.keys (MockAxeService.axes s)) →
  let o1 := useBondAxes.run mockInstruments fresh now c s in
  let o2 := useBondAxes.run mockInstruments fresh' now c (MockAxeService.final o1) in
  MockAxeService.result o1 = inr tt →
  (is_Some (target c) →
     MockAxeService.final o2 = MockAxeService.final o1 ∧
     match c with
     | DeleteAxe id =>
         MockAxeService.result o2 = inl (AxeNotFound id) ∧ MockAxeService.emitted o2 = []
     | _ =>
         MockAxeService.result o2 = inr tt ∧
         MockAxeService.emitted o2 = MockAxeService.emitted o1
     end) ∧
  (target c = None → fresh' ∉ JsMap.keys (MockAxeService.axes (MockAxeService.final o1)) →
     MockAxeService.result o2 = inr tt ∧
     JsMap.keys (MockAxeService.axes (MockAxeService.final o2)) =
       JsMap.keys (MockAxeService.axes (MockAxeService.final o1)) ++ [fresh']).
Proof.
  intros Hnd o1 o2 Hok. subst o1 o2.
  destruct (run_action mockInstruments fresh now c s) as [Hf1 Hr1].
  assert (Ha : action mockInstruments fresh now c (MockAxeService.axes s) ≠ Skip).
  { intros Ha. rewrite Ha in Hr1. congruence. }
  rewrite Hf1.
  destruct (run_action mockInstruments fresh' now c
              {| MockAxeService.axes :=
                   act (action mockInstruments fresh now c (MockAxeService.axes s))
                     (MockAxeService.axes s);
                 MockAxeService.listeners := MockAxeService.listeners s |}) as [Hf2 Hr2].
  cbn [MockAxeService.axes MockAxeService.listeners] in Hf2, Hr2.
  split.
  - intros [k Htarget].
    destruct (action_again mockInstruments fresh fresh' now c k (MockAxeService.axes s)
                Hnd Htarget Ha) as [Hagain Hact].
    rewrite Hagain in Hf2, Hr2. rewrite Hact in Hf2. split; [exact Hf2|].
    destruct (run_outcome mockInstruments fresh now c s)
      as [(_ & _ & Hem1)|(e & Hrej & _)]; [|congruence].
    rewrite Hf1 in Hem1.
    destruct (run_outcome mockInstruments fresh' now c
                {| MockAxeService.axes :=
                     act (action mockInstruments fresh now c (MockAxeService.axes s))
                       (MockAxeService.axes s);
                   MockAxeService.listeners := MockAxeService.listeners s |})
      as [(Hok2 & _ & Hem2)|(e & Hrej2 & _ & Hem2)].
    + rewrite Hf2 in Hem2.
      destruct c as [request|id|id|id|id|id]; cbn [action rejection] in *;
        unfold statusAction in *;
        try (destruct (MockAxeService.findInstrument _ _); [|congruence]);
        try (destruct (JsMap.get id (MockAxeService.axes s)); [|congruence]);
        try (destruct (JsMap.has id (MockAxeService.axes s)); [|congruence]);
        try congruence; by rewrite Hem1, Hem2.
    + destruct c as [request|id|id|id|id|id]; cbn [action rejection] in *;
        unfold statusAction in *;
        try (destruct (MockAxeService.findInstrument _ _); [|congruence]);
        try (destruct (JsMap.get id (MockAxeService.axes s)); [|congruence]);
        try (destruct (JsMap.has id (MockAxeService.axes s)); [|congruence]);
        try congruence; by split.
  - intros Htarget Hfresh.
    destruct c as [request|id|id|id|id|id]; try discriminate Htarget.
    cbn [target] in Htarget. cbn [action] in *.
    destruct (MockAxeService.findInstrument _ _) as [instrument|]; [|done].
    cbn [act MockAxeService.axes] in *.
    assert (Hid : ∀ f st, Axe.id (upserted instrument f now request st) = f).
    { intros f st. unfold upserted. by rewrite Htarget. }
    split; [done|]. rewrite Hf2. cbn [MockAxeService.axes]. rewrite !Hid in *.
    apply JsMapFacts.keys_set_absent. by apply JsMapFacts.get_None_keys.
Qed.

Lemma repeated_command_is_absorbed_witness :
  let o1 := useBondAxes.run [instrument0] "u1" "2026-01-05T09:02:00.000Z"
              (DeleteAxe "a1") service1 in
  let o2 := useBondAxes.run [instrument0] "u2" "2026-01-05T09:02:00.000Z"
              (DeleteAxe "a1") (MockAxeService.final o1) in
  MockAxeService.result o2 = inl (AxeNotFound "a1") ∧ MockAxeService.emitted o2 = [].
Proof.
  intros o1 o2.
  destruct (repeated_command_is_absorbed [instrument0] service1 (DeleteAxe "a1")
              "u1" "u2" "2026-01-05T09:02:00.000Z") as [H _].
  - apply NoDup_singleton.
  - reflexivity.
  - destruct H as [_ H]; [by eexists|]. exact H.
Defined.

(** ** Drafts: edit and revert *)

Lemma revert_after_stage (id : string) (serverAxe : Axe.t) (c : CellChange)
    (prev : gmap string PendingEdit.t) :
  delete id (stageEdit id serverAxe c prev) = delete id prev.
Proof.
  unfold stageEdit. destruct (_ && _).
  - apply map_eq. intros k. destruct (decide (k = id)) as [->|Hne].
    + by rewrite !lookup_delete_eq.
    + by rewrite !lookup_delete_ne.
  - apply delete_insert_eq.
Qed.

(** X20. Drafting is local and revert undoes it.  A cell edit of a row of
    the grid (not the pinned row) issues no command and changes neither the
    local snapshot, the pinned row nor the notifications, and no draft but
    the row's own.  Reverting the row after the edit leaves the state the view
    had before the edit with the row's draft removed; so when the row had no
    draft, edit and revert give the state back.  Revert All leaves no draft,
    and the rendered rows are then the records of the local snapshot. *)
Theorem edit_then_revert_restores (st : View.t) (event : CellValueChangedEvent.t)
    (axe : Axe.t) :
  CellValueChangedEvent.data event = Some axe →
  CellValueChangedEvent.rowPinned event = false →
  let spec (edit revert revertAll : Effect) :=
    issued edit = [] ∧ issued revert = [] ∧ issued revertAll = [] ∧
    View.axes (update edit st) = View.axes st ∧
    View.pinnedRow (update edit st) = View.pinnedRow st ∧
    View.notifications (update edit st) = View.notifications st ∧
    (∀ k, k ≠ Axe.id axe →
       View.pendingEdits (update edit st) !! k = View.pendingEdits st !! k) ∧
    update revert (update edit st) = View.setPendingEdits (delete (Axe.id axe)) st ∧
    (View.pendingEdits st !! Axe.id axe = None → update revert (update edit st) = st) ∧
    View.pendingEdits (update revertAll (update edit st)) = ∅ ∧
    V4.displayData (update revertAll (update edit st)) = View.axes st ∧
    AxeRow.axe <$> V6.rowData (update revertAll (update edit st)) = View.axes st in
  spec (V4.onCellValueChanged st event) (V4.handleRevertRow axe) V4.handleRevertAll ∧
  spec (V6.onCellValueChanged st event) (V6.handleRevertRow axe) V6.handleRevertAll.
Proof.
  intros Hdata Hpinned spec. subst spec.
  assert (Hrender4 : ∀ s, View.pendingEdits s = ∅ → V4.displayData s = View.axes s).
  { intros s Hs. unfold V4.displayData. rewrite <- (list_fmap_id (View.axes s)) at 2.
    apply list_fmap_ext. intros i a _. by rewrite Hs, lookup_empty. }
  assert (Hrender6 : ∀ s, View.pendingEdits s = ∅ →
            AxeRow.axe <$> V6.rowData s = View.axes s).
  { intros s Hs. unfold V6.rowData. rewrite <- list_fmap_compose.
    rewrite <- (list_fmap_id (View.axes s)) at 2.
    apply list_fmap_ext. intros i a _. simpl. rewrite Hs, lookup_empty. simpl.
    by destruct a. }
  assert (Hback : ∀ s, View.pendingEdits s !! Axe.id axe = None →
            View.setPendingEdits (delete (Axe.id axe)) s = s).
  { intros s Hs. destruct s. unfold View.setPendingEdits. simpl in *. f_equal.
    by apply delete_id. }
  assert (Hstage : ∀ serverAxe,
            let edit := {| update :=
                             View.setPendingEdits
                               (stageEdit (Axe.id axe) serverAxe
                                  (CellValueChangedEvent.change event));
                           issued := [] |} in
            ∀ revert revertAll,
              revert = {| update := View.setPendingEdits (delete (Axe.id axe));
                          issued := [] |} →
              revertAll = {| update := View.setPendingEdits (λ _, ∅); issued := [] |} →
              issued edit = [] ∧ issued revert = [] ∧ issued revertAll = [] ∧
              View.axes (update edit st) = View.axes st ∧
              View.pinnedRow (update edit st) = View.pinnedRow st ∧
              View.notifications (update edit st) = View.notifications st ∧
              (∀ k, k ≠ Axe.id axe →
                 View.pendingEdits (update edit st) !! k = View.pendingEdits st !! k) ∧
              update revert (update edit st) =
                View.setPendingEdits (delete (Axe.id axe)) st ∧
              (View.pendingEdits st !! Axe.id axe = None →
                 update revert (update edit st) = st) ∧
              View.pendingEdits (update revertAll (update edit st)) = ∅ ∧
              V4.displayData (update revertAll (update edit st)) = View.axes st ∧
              AxeRow.axe <$> V6.rowData (update revertAll (update edit st)) = View.axes st).
  { intros serverAxe edit revert revertAll -> ->. subst edit. cbn [update issued].
    assert (Hrev : View.setPendingEdits (delete (Axe.id axe))
                     (View.setPendingEdits
                        (stageEdit (Axe.id axe) serverAxe
                           (CellValueChangedEvent.change event)) st) =
                   View.setPendingEdits (delete (Axe.id axe)) st).
    { unfold View.setPendingEdits. simpl. f_equal. apply revert_after_stage. }
    split_and!; try done.
    - intros k Hk. cbn [View.setPendingEdits View.pendingEdits]. unfold stageEdit.
      destruct (_ && _); [by apply lookup_delete_ne|by apply lookup_insert_ne].
    - intros Hnone. rewrite Hrev. by apply Hback.
    - by rewrite Hrender4.
    - by rewrite Hrender6. }
  assert (Hnothing :
            issued nothing = [] ∧
            issued {| update := View.setPendingEdits (delete (Axe.id axe)); issued := [] |} = [] ∧
            issued {| update := View.setPendingEdits (λ _, ∅); issued := [] |} = [] ∧
            View.axes (update nothing st) = View.axes st ∧
            View.pinnedRow (update nothing st) = View.pinnedRow st ∧
            View.notifications (update nothing st) = View.notifications st ∧
            (∀ k, k ≠ Axe.id axe →
               View.pendingEdits (update nothing st) !! k = View.pendingEdits st !! k) ∧
            update {| update := View.setPendingEdits (delete (Axe.id axe)); issued := [] |}
              (update nothing st) = View.setPendingEdits (delete (Axe.id axe)) st ∧
            (View.pendingEdits st !! Axe.id axe = None →
               update {| update := View.setPendingEdits (delete (Axe.id axe)); issued := [] |}
                 (update nothing st) = st) ∧
            View.pendingEdits
              (update {| update := View.setPendingEdits (λ _, ∅); issued := [] |}
                 (update nothing st)) = ∅ ∧
            V4.displayData
              (update {| update := View.setPendingEdits (λ _, ∅); issued := [] |}
                 (update nothing st)) = View.axes st ∧
            AxeRow.axe <$>
              V6.rowData
                (update {| update := View.setPendingEdits (λ _, ∅); issued := [] |}
                   (update nothing st)) = View.axes st).
  { cbn [update issued nothing]. split_and!; try done.
    - apply Hback.
    - by rewrite Hrender4.
    - by rewrite Hrender6. }
  split.
  - unfold V4.onCellValueChanged, V4.handleRevertRow, V4.handleRevertAll. rewrite Hdata.
    destruct (CellValueChangedEvent.change event) eqn:Hc; try exact Hnothing;
      (destruct (findAxe (Axe.id axe) (View.axes st)) as [serverAxe|];
       [exact (Hstage serverAxe _ _ eq_refl eq_refl) | exact Hnothing]).
  - unfold V6.onCellValueChanged, V6.handleRevertRow, V6.handleRevertAll.
    rewrite Hdata, Hpinned.
    destruct (CellValueChangedEvent.change event) eqn:Hc; try exact Hnothing;
      (destruct (findAxe (Axe.id axe) (View.axes st)) as [serverAxe|];
       [exact (Hstage serverAxe _ _ eq_refl eq_refl) | exact Hnothing]).
Qed.

Lemma edit_then_revert_restores_witness :
  let event := {|
    CellValueChangedEvent.data := Some (withSideQuantity axe1 Offer 1000000%Z);
    CellValueChangedEvent.rowPinned := false;
    CellValueChangedEvent.change := SideChange Offer |} in
  let st := View.setPendingEdits (λ _, ∅) view1 in
  update (V6.handleRevertRow (withSideQuantity axe1 Offer 1000000%Z))
    (update (V6.onCellValueChanged st event) st) = st.
Proof.
  intros event st.
  destruct (edit_then_revert_restores st event (withSideQuantity axe1 Offer 1000000%Z)
              eq_refl eq_refl) as [_ (_ & _ & _ & _ & _ & _ & _ & _ & H & _)].
  apply H. reflexivity.
Defined.

(** ** The modal *)

(** X21. Saving from the modal.  In create mode with an instrument of the
    directory selected, [handleSave] hands over the instrument's code without
    identifier, and the command V1 and V4 issue for it succeeds on any store:
    the store appends one ACTIVE record under the identifier it generates,
    with the instrument's attributes and the modal's side and quantity (Bid
    and 1,000,000 unless changed).  In edit mode on a record the store holds
    under a non-empty identifier, [handleSave] hands over the record's
    identifier and code, and V1's command rewrites that record in place: it
    keeps its position, status and instrument attributes, so saving the
    modal as it opened changes the time of last update only.  Without a code
    to show, [handleSave] does not call [onSave]. *)
Theorem modal_save_reaches_store
    (mockInstruments : list BondInstrument.t) (s : MockAxeService.t)
    (fresh now : string) (st : AxeModal.t) :
  wellFormed mockInstruments s →
  (∀ instrument axe,
     MockAxeService.findInstrument mockInstruments (BondInstrument.isin instrument) =
       Some instrument →
     BondInstrument.isin instrument ≠ "" →
     fresh ∉ JsMap.keys (MockAxeService.axes s) →
     let props := AxeModal.mkProps AxeModal.create (Some instrument) axe in
     ∃ data,
       AxeModal.handleSave props st = Some data ∧
       AxeModal.opened props = {| AxeModal.side := Bid; AxeModal.quantity := 1000000%Z |} ∧
       command <$> issued (V1.handleSave data) =
         command <$> issued (V4.handleModalSave (AxeModal.data_isin data)
                               (AxeModal.data_side data) (AxeModal.data_quantity data)) ∧
       ∃ p, issued (V1.handleSave data) = [p] ∧
         let o := useBondAxes.run mockInstruments fresh now (command p) s in
         MockAxeService.result o = inr tt ∧
         JsMap.values (MockAxeService.axes (MockAxeService.final o)) =
           JsMap.values (MockAxeService.axes s) ++
           [ {| Axe.id := fresh;
                Axe.isin := BondInstrument.isin instrument;
                Axe.description := BondInstrument.description instrument;
                Axe.maturity := BondInstrument.maturity instrument;
                Axe.issuer := BondInstrument.issuer instrument;
                Axe.side := AxeModal.side st;
                Axe.quantity := AxeModal.quantity st;
                Axe.status := ACTIVE;
                Axe.lastUpdate := now |} ]) ∧
  (∀ instrument axe,
     JsMap.get (Axe.id axe) (MockAxeService.axes s) = Some axe →
     Axe.id axe ≠ "" → Axe.isin axe ≠ "" →
     let props := AxeModal.mkProps AxeModal.edit instrument (Some axe) in
     ∃ data p,
       AxeModal.handleSave props st = Some data ∧
       issued (V1.handleSave data) = [p] ∧
       let o := useBondAxes.run mockInstruments fresh now (command p) s in
       MockAxeService.result o = inr tt ∧
       JsMap.values (MockAxeService.axes (MockAxeService.final o)) =
         mapById (Axe.id axe)
           (λ a, withSideQuantityAt a (AxeModal.side st) (AxeModal.quantity st) now)
           (JsMap.values (MockAxeService.axes s)) ∧
       withSideQuantityAt axe (AxeModal.side (AxeModal.opened props))
         (AxeModal.quantity (AxeModal.opened props)) now =
         withStatusAt axe (Axe.status axe) now) ∧
  (∀ mode axe, AxeModal.handleSave (AxeModal.mkProps mode None None) st = None ∧
               AxeModal.handleSave (AxeModal.mkProps AxeModal.create None axe) st = None).
Proof.
  intros (Hnd & Hrec & Hls).
  assert (Hkeyed : Forall (λ e, Axe.id e.2 = e.1) (MockAxeService.axes s)).
  { eapply Forall_impl; [done|]. by intros e [? _]. }
  split_and!.
  - intros instrument axe Hfind Hisin Hfresh props. subst props.
    unfold AxeModal.handleSave, AxeModal.displayIsin. cbn [AxeModal.mode AxeModal.instrument fmap option_fmap option_map].
    rewrite bool_decide_eq_false_2 by done.
    eexists. split; [reflexivity|]. split; [reflexivity|]. split; [reflexivity|].
    eexists. split; [reflexivity|].
    cbn [command AxeModal.data_id AxeModal.data_isin AxeModal.data_side
         AxeModal.data_quantity useBondAxes.run]. unfold MockAxeService.bind.
    rewrite (createOrUpdateAxe_found mockInstruments fresh now
               {| CreateOrUpdateAxeRequest.id := None;
                  CreateOrUpdateAxeRequest.isin := BondInstrument.isin instrument;
                  CreateOrUpdateAxeRequest.side := AxeModal.side st;
                  CreateOrUpdateAxeRequest.quantity := AxeModal.quantity st |}
               s instrument Hfind). simpl.
    split; [done|]. apply values_set_absent. by apply JsMapFacts.get_None_keys.
  - intros instrument axe Hget Hid Hisin props. subst props.
    pose proof (JsMap_get_Some_elem _ _ _ Hget) as Hin.
    apply (proj1 (Forall_forall _ _) Hrec) in Hin as [_ (i & Hi & Hi1 & Hi2 & Hi3 & Hi4)].
    simpl in Hi, Hi1, Hi2, Hi3, Hi4.
    unfold AxeModal.handleSave, AxeModal.displayIsin.
    cbn [AxeModal.mode AxeModal.axe fmap option_fmap option_map].
    rewrite bool_decide_eq_false_2 by done.
    eexists _, _. split; [reflexivity|]. split; [reflexivity|].
    cbn [command AxeModal.data_id AxeModal.data_isin AxeModal.data_side
         AxeModal.data_quantity useBondAxes.run]. unfold MockAxeService.bind.
    rewrite (createOrUpdateAxe_found mockInstruments fresh now
               {| CreateOrUpdateAxeRequest.id := Some (Axe.id axe);
                  CreateOrUpdateAxeRequest.isin := Axe.isin axe;
                  CreateOrUpdateAxeRequest.side := AxeModal.side st;
                  CreateOrUpdateAxeRequest.quantity := AxeModal.quantity st |}
               s i Hi). simpl.
    split; [done|]. split; [|by destruct axe].
    rewrite <- (values_set_present _ _
                  (λ a, withSideQuantityAt a (AxeModal.side st) (AxeModal.quantity st) now)
                  axe Hnd Hkeyed Hget).
    f_equal. f_equal. unfold upserted, withSideQuantityAt. simpl.
    rewrite bool_decide_false by done. simpl.
    unfold JsMap.has. rewrite Hget. simpl.
    by rewrite Hi1, Hi2, Hi3, Hi4.
  - intros mode axe. split; [by destruct mode|done].
Qed.

Lemma modal_save_reaches_store_witness :
  ∃ data p,
    AxeModal.handleSave
      (AxeModal.mkProps AxeModal.edit None (Some (withStatusAt axe1 PAUSED "2026-01-05T09:01:00.000Z")))
      {| AxeModal.side := Offer; AxeModal.quantity := 5%Z |} = Some data ∧
    issued (V1.handleSave data) = [p] ∧
    MockAxeService.result
      (useBondAxes.run [instrument0] "generated-uuid" "2026-01-05T09:04:00.000Z"
         (command p) service1) = inr tt.
Proof.
  destruct (modal_save_reaches_store [instrument0] service1 "generated-uuid"
              "2026-01-05T09:04:00.000Z"
              {| AxeModal.side := Offer; AxeModal.quantity := 5%Z |}
              wellFormed_service1) as (_ & H & _).
  destruct (H None (withStatusAt axe1 PAUSED "2026-01-05T09:01:00.000Z")
              eq_refl ltac:(discriminate) ltac:(discriminate))
    as (data & p & Hd & Hp & Hok & _).
  exists data, p. split; [exact Hd|]. split; [exact Hp|exact Hok].
Defined.

(** ** The generated attributes *)

Lemma substring_prefix (a b : string) : String.substring 0 (String.length a) (a +:+ b) = a.
Proof.
  induction a as [|c a IH].
  - rewrite string_app_nil. by destruct b.
  - rewrite string_app_cons. cbn [String.length String.substring]. by rewrite IH.
Qed.

Lemma year_length (m : nat) : m < 30 → String.length (mockData.decimal (2026 + m)) = 4.
Proof. intros Hm. do 30 (destruct m as [|m]; [reflexivity|]). lia. Qed.

Lemma month_length (m : nat) :
  m < 12 → String.length (mockData.padStart0 2 (mockData.decimal (m + 1))) = 2.
Proof. intros Hm. do 12 (destruct m as [|m]; [reflexivity|]). lia. Qed.

Lemma day_length (m : nat) :
  m < 28 → String.length (mockData.padStart0 2 (mockData.decimal (m + 1))) = 2.
Proof. intros Hm. do 28 (destruct m as [|m]; [reflexivity|]). lia. Qed.

Lemma coupon_length (m : nat) :
  m < 60 →
  String.length (mockData.decimal ((250 + m * 125) / 1000)) = 1 ∧
  String.length (mockData.padStart0 3 (mockData.decimal ((250 + m * 125) mod 1000))) = 3.
Proof. intros Hm. do 60 (destruct m as [|m]; [by vm_compute|]). lia. Qed.

(** X22. The attributes [generateInstruments] writes are well formed at
    every index.  The maturity is a ten-character [YYYY-MM-DD] string: four
    digits that read as a year from 2026 to 2055, a hyphen, two digits that
    read as a month from 1 to 12, a hyphen, two digits that read as a day
    from 1 to 28 (a day every month has).  The coupon is one digit, a point,
    three digits and a percent sign, and the digits read, in thousandths,
    as 250 and 125 more for each step of the index modulo 60: 0.250 to 7.625.
    The description is the issuer, the coupon, the year of the maturity and
    the bond type, separated by single spaces: [maturity.slice(0, 4)] is
    exactly the year. *)
Theorem generated_attributes_are_well_formed (i : nat) :
  let x := mockData.instrumentAt i in
  let year := 2026 + i mod 30 in
  let month := i mod 12 + 1 in
  let day := i mod 28 + 1 in
  BondInstrument.maturity x =
    mockData.decimal year +:+ "-" +:+ mockData.padStart0 2 (mockData.decimal month) +:+
    "-" +:+ mockData.padStart0 2 (mockData.decimal day) ∧
  String.length (mockData.decimal year) = 4 ∧
  String.length (mockData.padStart0 2 (mockData.decimal month)) = 2 ∧
  String.length (mockData.padStart0 2 (mockData.decimal day)) = 2 ∧
  String.length (BondInstrument.maturity x) = 10 ∧
  2026 ≤ year ≤ 2055 ∧ 1 ≤ month ≤ 12 ∧ 1 ≤ day ≤ 28 ∧
  String.length (mockData.generateCoupon i) = 6 ∧
  BondInstrument.description x =
    BondInstrument.issuer x +:+ " " +:+ mockData.generateCoupon i +:+ " " +:+
    mockData.decimal year +:+ " " +:+ mockData.pick mockData.bondTypes i ∧
  (∃ y m d,
     BondInstrument.maturity x = y +:+ "-" +:+ m +:+ "-" +:+ d ∧
     String.length y = 4 ∧ String.length m = 2 ∧ String.length d = 2 ∧
     numberOf y = Some year ∧ numberOf m = Some month ∧ numberOf d = Some day) ∧
  (∃ whole thousandths w t,
     mockData.generateCoupon i = whole +:+ "." +:+ thousandths +:+ "%" ∧
     String.length whole = 1 ∧ String.length thousandths = 3 ∧
     numberOf whole = Some w ∧ numberOf thousandths = Some t ∧
     1000 * w + t = 250 + i mod 60 * 125 ∧
     w ≤ 7).
Proof.
  intros x year month day. subst x year month day.
  assert (H30 : i mod 30 < 30) by (apply Nat.mod_upper_bound; lia).
  assert (H12 : i mod 12 < 12) by (apply Nat.mod_upper_bound; lia).
  assert (H28 : i mod 28 < 28) by (apply Nat.mod_upper_bound; lia).
  assert (H60 : i mod 60 < 60) by (apply Nat.mod_upper_bound; lia).
  pose proof (year_length _ H30) as Hy.
  pose proof (month_length _ H12) as Hm.
  pose proof (day_length _ H28) as Hd.
  destruct (coupon_length _ H60) as [Hc1 Hc2].
  assert (Hmat : mockData.generateMaturity i =
            mockData.decimal (2026 + i mod 30) +:+ "-" +:+
            mockData.padStart0 2 (mockData.decimal (i mod 12 + 1)) +:+ "-" +:+
            mockData.padStart0 2 (mockData.decimal (i mod 28 + 1))).
  { unfold mockData.generateMaturity. do 2 f_equal. lia. }
  assert (Hslice : String.substring 0 4 (mockData.generateMaturity i) =
            mockData.decimal (2026 + i mod 30)).
  { rewrite Hmat.
    pose proof (substring_prefix (mockData.decimal (2026 + i mod 30))
                  ("-" +:+ mockData.padStart0 2 (mockData.decimal (i mod 12 + 1)) +:+ "-" +:+
                   mockData.padStart0 2 (mockData.decimal (i mod 28 + 1)))) as H.
    by rewrite Hy in H. }
  cbn [mockData.instrumentAt BondInstrument.maturity BondInstrument.description
       BondInstrument.issuer].
  rewrite Hslice.
  split_and!; try done; try lia.
  - rewrite Hmat, !string_app_length, Hy, Hm, Hd. reflexivity.
  - unfold mockData.generateCoupon. rewrite !string_app_length, Hc1, Hc2. reflexivity.
  - exists (mockData.decimal (2026 + i mod 30)),
      (mockData.padStart0 2 (mockData.decimal (i mod 12 + 1))),
      (mockData.padStart0 2 (mockData.decimal (i mod 28 + 1))).
    split_and!; try done.
    + apply numberOf_decimal.
    + apply numberOf_padStart0.
    + apply numberOf_padStart0.
  - exists (mockData.decimal ((250 + i mod 60 * 125) / 1000)),
      (mockData.padStart0 3 (mockData.decimal ((250 + i mod 60 * 125) mod 1000))),
      ((250 + i mod 60 * 125) / 1000), ((250 + i mod 60 * 125) mod 1000).
    split_and!; try done.
    + unfold mockData.generateCoupon. cbv zeta. by rewrite !string_app_assoc.
    + apply numberOf_decimal.
    + apply numberOf_padStart0.
    + symmetry. apply Nat.div_mod. lia.
    + assert ((250 + i mod 60 * 125) / 1000 < 8); [|lia].
      apply Nat.Div0.div_lt_upper_bound. lia.
Qed.

(** ** V2 *)

(** X23. V2's immediate save predicts the store.  For a view that holds the
    store's array and an edited row that agrees with the record the store
    holds under its non-empty identifier on instrument attributes and status
    (whatever side and quantity either has), [onCellValueChanged] replaces
    every record of that identifier by the edited row with the time of the
    edit and leaves every other record as it was; the update command it
    issues carries the row's side and quantity and succeeds on the store,
    whenever it runs, and the array the store then broadcasts is the list the
    handler left in the view up to the time of the last update of that
    record, which is the store's own, later, reading of the clock. *)
Theorem cell_edit_broadcast_is_optimistic_update
    (mockInstruments : list BondInstrument.t) (s : MockAxeService.t) (st : View.t)
    (event : CellValueChangedEvent.t) (axe held : Axe.t) (fresh now now' : string) :
  wellFormed mockInstruments s →
  View.axes st = JsMap.values (MockAxeService.axes s) →
  CellValueChangedEvent.data event = Some axe →
  JsMap.get (Axe.id axe) (MockAxeService.axes s) = Some held →
  Axe.id axe ≠ "" →
  Axe.isin axe = Axe.isin held → Axe.description axe = Axe.description held →
  Axe.maturity axe = Axe.maturity held → Axe.issuer axe = Axe.issuer held →
  Axe.status axe = Axe.status held →
  let e := V2.onCellValueChanged now event in
  Forall2
    (λ before after,
       if bool_decide (Axe.id before = Axe.id axe)
       then sameButLastUpdate axe after ∧ Axe.lastUpdate after = now
       else after = before)
    (View.axes st) (View.axes (update e st)) ∧
  (∃ p, issued e = [p] ∧
     command p = CreateOrUpdateAxe {|
       CreateOrUpdateAxeRequest.id := Some (Axe.id axe);
       CreateOrUpdateAxeRequest.isin := Axe.isin axe;
       CreateOrUpdateAxeRequest.side := Axe.side axe;
       CreateOrUpdateAxeRequest.quantity := Axe.quantity axe |}) ∧
  predicts mockInstruments fresh now' s st e (Axe.id axe) now.
Proof.
  intros (Hnd & Hrec & Hls) Hst Hdata Hget Hne Hisin Hdesc Hmat Hiss Hstatus e.
  assert (Hkeyed : Forall (λ e, Axe.id e.2 = e.1) (MockAxeService.axes s)).
  { eapply Forall_impl; [done|]. by intros e' [? _]. }
  pose proof (JsMap_get_Some_elem _ _ _ Hget) as Hin.
  apply (proj1 (Forall_forall _ _) Hrec) in Hin as [Hid (i & Hi & Hi1 & Hi2 & Hi3 & Hi4)].
  simpl in Hid, Hi, Hi1, Hi2, Hi3, Hi4.
  subst e. unfold V2.onCellValueChanged. rewrite Hdata. split_and!.
  - cbn [update View.setAxes View.axes]. apply mapById_Forall2. intros a _.
    by case_bool_decide.
  - eexists. split; reflexivity.
  - eapply (predicts_intro _ _ _ _ _ _ _ _ _
              (λ _, withStatusAt axe (Axe.status axe) now')
              (λ _, withStatusAt axe (Axe.status axe) now));
      [reflexivity| |reflexivity|done].
    cbn [command useBondAxes.run].
    unfold MockAxeService.bind. rewrite <- Hisin in Hi.
    rewrite (createOrUpdateAxe_found mockInstruments fresh now'
               {| CreateOrUpdateAxeRequest.id := Some (Axe.id axe);
                  CreateOrUpdateAxeRequest.isin := Axe.isin axe;
                  CreateOrUpdateAxeRequest.side := Axe.side axe;
                  CreateOrUpdateAxeRequest.quantity := Axe.quantity axe |} s i Hi). simpl.
    split; [done|]. rewrite Hst.
    rewrite <- (values_set_present _ _ (λ _, withStatusAt axe (Axe.status axe) now') held
                  Hnd Hkeyed Hget).
    f_equal. f_equal. unfold upserted, withStatusAt. simpl.
    rewrite bool_decide_false by done. simpl.
    unfold JsMap.has. rewrite Hget. simpl.
    by rewrite Hi1, Hi2, Hi3, Hi4, Hisin, Hdesc, Hmat, Hiss, Hstatus.
Qed.

(** The side of [axe1] is edited to Offer: the view shows the edited row
    with the time of the edit, the store holds it with its own. *)
Lemma cell_edit_broadcast_is_optimistic_update_witness :
  let now := "2026-01-05T09:03:00.000Z" in
  let now' := "2026-01-05T09:03:00.300Z" in
  let s := {| MockAxeService.axes := [("a1", axe1)];
              MockAxeService.listeners := [System.viewListener] |} in
  let edited := {|
    Axe.id := "a1";
    Axe.isin := "US0000000000";
    Axe.description := "US Treasury 0.250% 2026 Senior Unsecured";
    Axe.maturity := "2026-01-01";
    Axe.issuer := "US Treasury";
    Axe.side := Offer;
    Axe.quantity := 1000000%Z;
    Axe.status := ACTIVE;
    Axe.lastUpdate := "2026-01-05T09:00:00.000Z" |} in
  let e := V2.onCellValueChanged now
             {| CellValueChangedEvent.data := Some edited;
                CellValueChangedEvent.rowPinned := false;
                CellValueChangedEvent.change := SideChange Offer |} in
  ∃ p stored shown,
    issued e = [p] ∧
    JsMap.values
      (MockAxeService.axes
         (MockAxeService.final
            (useBondAxes.run [instrument0] "generated-uuid" now' (command p) s))) =
      [stored] ∧
    View.axes (update e view1) = [shown] ∧
    (Axe.id stored, Axe.side stored, Axe.quantity stored, Axe.lastUpdate stored) =
      ("a1", Offer, 1000000%Z, now') ∧
    (Axe.id shown, Axe.side shown, Axe.quantity shown, Axe.lastUpdate shown) =
      ("a1", Offer, 1000000%Z, now).
Proof.
  intros now now' s edited e.
  assert (Hwf : wellFormed [instrument0] s).
  { split_and!; [apply NoDup_singleton | | apply NoDup_singleton].
    constructor; [|constructor]. split; [reflexivity|]. by exists instrument0. }
  destruct (cell_edit_broadcast_is_optimistic_update [instrument0] s view1
              {| CellValueChangedEvent.data := Some edited;
                 CellValueChangedEvent.rowPinned := false;
                 CellValueChangedEvent.change := SideChange Offer |}
              edited axe1 "generated-uuid" now now' Hwf
              eq_refl eq_refl eq_refl ltac:(discriminate)
              eq_refl eq_refl eq_refl eq_refl eq_refl)
    as (Hshown & _ & (p & Hp & _ & Hall)).
  fold e in Hshown, Hp, Hall. cbv zeta in Hall.
  change (View.axes view1) with [axe1] in Hshown.
  apply Forall2_cons_inv_l in Hshown as (shown & rest & Hs & Hnil & Hview).
  apply Forall2_nil_inv_l in Hnil as ->. rewrite Hview in Hall.
  apply Forall2_cons_inv_r in Hall as (stored & rest & Hr & Hnil & Hstore).
  apply Forall2_nil_inv_r in Hnil as ->.
  exists p, stored, shown. split; [done|]. split; [done|]. split; [done|].
  change (bool_decide _) with true in Hs.
  destruct Hs as ((Hid & _ & _ & _ & _ & Hside & Hqty & _) & Hlast).
  destruct Hr as ((Hid' & _ & _ & _ & _ & Hside' & Hqty' & _) & Hif).
  change (Axe.id edited) with "a1" in Hid, Hif.
  rewrite <- Hid in Hid'. rewrite Hid' in Hif.
  change (bool_decide ("a1" = "a1")) with true in Hif. destruct Hif as [Hlast' _].
  rewrite <- Hid, Hid', Hside', Hqty', <- Hside, <- Hqty, Hlast, Hlast'. done.
Defined.

(** X24. V2 offers only the moves of the status table and its delete
    predicts the store.  Every button V2 renders for a row issues exactly one
    command, about that row, and a status command only from the status it
    leaves (a BLOCKED row gets no pause button, a PAUSED row no block
    button); the optimistic list [handleDelete] leaves is the array the store
    broadcasts after the delete of a record it holds. *)
Theorem rendered_buttons_issue_legal_moves
    (mockInstruments : list BondInstrument.t) (s : MockAxeService.t)
    (st : View.t) (now : string) (axe : Axe.t) :
  (∀ icon, icon ∈ V2.ActionsRenderer (Some axe) →
     ActionIcon.disabled icon = false ∧
     ∃ p, issued (V2.handler st now (ActionIcon.onClick icon)) = [p] ∧
          target (command p) = Some (Axe.id axe) ∧
          moves (Axe.status axe) (command p)) ∧
  (∃ icon, icon ∈ V2.ActionsRenderer (Some axe) ∧
           ActionIcon.onClick icon = V2.Delete axe) ∧
  (wellFormed mockInstruments s →
   View.axes st = JsMap.values (MockAxeService.axes s) →
   Axe.id axe ∈ JsMap.keys (MockAxeService.axes s) →
   let o := MockAxeService.deleteAxe (Axe.id axe) s in
   MockAxeService.result o = inr tt ∧
   JsMap.values (MockAxeService.axes (MockAxeService.final o)) =
     View.axes (update (V2.handleDelete axe) st)).
Proof.
  split_and!.
  - intros icon Hicon. unfold V2.ActionsRenderer in Hicon.
    destruct (Axe.status axe) eqn:Hstatus; simpl in Hicon;
      repeat (apply elem_of_cons in Hicon as [->|Hicon]);
      try (by apply elem_of_nil in Hicon);
      (split; [done|]); cbn [ActionIcon.onClick V2.handler];
      unfold V2.handlePauseResume, V2.handleBlockUnblock, V2.handleDelete,
        pauseResume, blockUnblock; rewrite ?Hstatus; simpl;
      eexists; (split; [reflexivity|]); by split.
  - exists (ActionIcon.mk "Delete" false (V2.Delete axe)).
    split; [|reflexivity]. unfold V2.ActionsRenderer.
    rewrite !elem_of_app. right. right. by apply list_elem_of_singleton.
  - intros (Hnd & Hrec & Hls) Hst Hid o. subst o.
    assert (Hkeyed : Forall (λ e, Axe.id e.2 = e.1) (MockAxeService.axes s)).
    { eapply Forall_impl; [done|]. by intros e [? _]. }
    assert (Hhas : JsMap.has (Axe.id axe) (MockAxeService.axes s) = true).
    { by apply JsMapFacts.has_get, JsMapFacts.get_Some_keys. }
    rewrite (deleteAxe_found _ _ Hhas). simpl.
    by rewrite (values_delete _ _ Hnd Hkeyed), Hst.
Qed.

(** ** V1: no optimistic change *)

Section Mirrors.
Context {Intent : Type}.
Variable handler : View.t → string → Intent → Effect.
Variable mockInstruments : list BondInstrument.t.
Hypothesis handler_waits : ∀ st now i,
  (∀ s, View.axes (update (handler st now i) s) = View.axes s) ∧
  Forall passive (issued (handler st now i)).

Lemma step_mirrors sys ev :
  mirrors sys → mirrors (System.step handler mockInstruments sys ev).
Proof.
  intros (Hsync & Hl & Hp). destruct ev as [now i|fresh now]; cbn [System.step].
  - destruct (handler_waits (System.view sys) now i) as [Hkeep Hpassive].
    split_and!; cbn [System.service System.view System.inflight].
    + unfold inSync. cbn [System.service System.view]. by rewrite Hkeep.
    + done.
    + apply Forall_app. by split.
  - destruct (System.inflight sys) as [|p rest] eqn:Hin.
    { split_and!; [done|done|]. cbn [System.inflight]. rewrite Hin. constructor. }
    apply Forall_cons in Hp as [[Hful Hrej] Hp].
    destruct (run_outcome mockInstruments fresh now (command p) (System.service sys))
      as [(Hok & Hls & Hem)|(e & Hrej' & Hfinal & Hem)].
    + split_and!; cbn [System.service System.view System.inflight]; [|by rewrite Hls|done].
      unfold inSync. cbn [System.service System.view]. rewrite Hok, Hful.
      apply receive_uniform.
      * rewrite Hem. unfold snapshotFor. apply Forall_fmap, Forall_forall. by intros.
      * left. rewrite Hem. unfold snapshotFor. rewrite <- list_fmap_compose.
        apply list_elem_of_fmap. exists System.viewListener. split; [done|]. by rewrite Hls.
    + split_and!; cbn [System.service System.view System.inflight];
        [|by rewrite Hfinal|done].
      unfold inSync. cbn [System.service System.view].
      rewrite Hrej', Hrej, Hem, Hfinal. exact Hsync.
Qed.

Lemma run_mirrors evs sys :
  mirrors sys → mirrors (System.run handler mockInstruments evs sys).
Proof.
  revert sys. induction evs as [|ev evs IH]; intros sys Hsys; [done|].
  apply IH. by apply step_mirrors.
Qed.
End Mirrors.

(** X25. V1 never shows anything but the store.  Its handlers change
    nothing before the store answers and their continuations only show
    notifications, so in a mounted V1 view, after any sequence of user intents
    and settled commands, succeeded or rejected, the local snapshot is the
    store's array. *)
Theorem view_without_optimism_mirrors_the_store
    (mockInstruments : list BondInstrument.t)
    (evs : list (System.Event (Intent := V1.Intent))) :
  inSync (System.run V1.handler mockInstruments evs System.mount).
Proof.
  apply (run_mirrors V1.handler mockInstruments).
  - intros st now i. destruct i as [data|[axe|]|[axe|]|[axe|]]; cbn [V1.handler];
      unfold V1.handleSave, V1.handlePauseResume, V1.handleBlockUnblock, V1.handleDelete;
      (split; [done|]); cbn [issued nothing]; repeat constructor; done.
  - split_and!; [done|apply JsSetFacts_elem_of_add|constructor].
Qed.
